(** * Backtest pipeline: a shallow embedding and its verified properties

    The development follows the Python sources module by module:
    [strategy.py], [risk_manager.py], [market_analyzer.py],
    [order_handler.py] and [portfolio_manager.py].

    Modelling conventions.
    - Python numbers (prices, sizes, cash) are exact rationals [Q];
      statements about them are up to [Qeq] ([==]).  Rounding and
      overflow of IEEE doubles are outside the model.  NaN is modelled
      where the code comes by one without arithmetic on doubles: under
      a key that pandas fills in, in a rolling mean over a missing
      entry, in the days of a difference with [NaT].
    - A Python [dict] keyed by instrument is a [gmap string _].
    - A dict-shaped domain object (bar, signal, order, trade) is a record;
      a key that the code reads with [.get] is an [option] field.
    - A method that mutates [self] is a function from the old object state
      to the new one (paired with the returned value, if any).
    - A [try/except Exception] block is written out: every point at which
      the body can raise is a branch that yields the state reached so far. *)

From Stdlib Require Import QArith Qabs Qminmax Qround ZArith Lia Lqa Bool.
From stdpp Require Import gmap strings list fin_maps.

(** ** Python numbers as rationals *)

Module PyNum.

(** [a < b] on Python numbers. *)
Definition Qltb (a b : Q) : bool := negb (Qle_bool b a).

(** Truth value of a number: [bool(x)] is [x != 0]. *)
Definition truthy (x : Q) : bool := negb (Qeq_bool x 0).

(** Truth value of an optional number ([None] is false). *)
Definition truthy_opt (x : option Q) : bool :=
  match x with Some q => truthy q | None => false end.

(** [int(x)]: truncation toward zero. *)
Definition int (x : Q) : Z := Z.quot (Qnum x) (Z.pos (Qden x)).

(** An [int] used as a number. *)
Definition of_Z (z : Z) : Q := inject_Z z.

(** A float that may be infinite or not a number. *)
Inductive PyFloat :=
| Num (q : Q)
| PosInf
| NaN.

End PyNum.

Import PyNum.

(** ** Signals and orders (dict-shaped messages between the stages) *)

(** A signal dict.  The risk manager reads [action], [instrument] and
    [price] with [.get], so they may be absent. *)
Record Signal := mkSignal {
  sig_action : option string;
  sig_instrument : option string;
  sig_size : Z;
  sig_price : option Q;
  sig_time : string
}.

(** The order dict returned by [RiskManager.apply_risk_rules]. *)
Record Order := mkOrder {
  ord_action : string;
  ord_instrument : string;
  ord_size : Z;
  ord_entry_price : Q;
  ord_stop_loss : Q;
  ord_take_profit : Q
}.

(** ** strategy.py *)

Module Strategy.

Local Open Scope Q_scope.

(** The value stored under ["time"] in a bar. *)
Inductive PyTime (datetime : Type) :=
| TimeNone                      (* key absent, or None *)
| TimeStr (s : string)          (* a str, still to be parsed *)
| TimeObj (d : datetime).       (* a datetime object *)
Arguments TimeNone {datetime}.
Arguments TimeStr {datetime} s.
Arguments TimeObj {datetime} d.

(** The bar dict as the strategy reads it: [time], [close], [sma]. *)
Record Bar (datetime : Type) := mkBar {
  bar_time : PyTime datetime;
  bar_close : option Q;
  bar_sma : option Q
}.
Arguments mkBar {datetime}.
Arguments bar_time {datetime}.
Arguments bar_close {datetime}.
Arguments bar_sma {datetime}.

(** [self.current_position]: ['long'], ['short'] or [None]. *)
Inductive Side := long | short.

(** The object state of [SMA_CrossoverStrategy]. *)
Record State := mkState {
  instrument : string;
  size : Z;
  current_position : option Side;
  no_trade_reasons : gmap string nat     (* a Counter *)
}.

Definition is_long (p : option Side) : bool :=
  match p with Some long => true | _ => false end.

Definition is_short (p : option Side) : bool :=
  match p with Some short => true | _ => false end.

(** [self.no_trade_reasons[key] += 1] *)
Definition count (key : string) (st : State) : State :=
  {| instrument := instrument st;
     size := size st;
     current_position := current_position st;
     no_trade_reasons :=
       <[key := S (default O (no_trade_reasons st !! key))]>
         (no_trade_reasons st) |}.

Definition set_position (p : option Side) (st : State) : State :=
  {| instrument := instrument st;
     size := size st;
     current_position := p;
     no_trade_reasons := no_trade_reasons st |}.

(** [SMA_CrossoverStrategy.__init__] *)
Definition init (instr : string) (sz : Z) : State :=
  {| instrument := instr; size := sz;
     current_position := None; no_trade_reasons := ∅ |}.

Section GenerateSignal.

(** [datetime.fromisoformat] and [datetime.isoformat] of the Python
    standard library; [None] stands for [ValueError]. *)
Variable datetime : Type.
Variable fromisoformat : string -> option datetime.
Variable isoformat : datetime -> string.

Definition make_signal (st : State) (action : string) (close_price : Q)
    (time : datetime) : Signal :=
  {| sig_action := Some action;
     sig_instrument := Some (instrument st);
     sig_size := size st;
     sig_price := Some close_price;
     sig_time := isoformat time |}.

(** The if/elif chain of [generate_signal], after the data checks. *)
Definition crossover (st : State) (close_price sma : Q) (time : datetime)
    : option Signal * State :=
  if Qltb sma close_price then
    if negb (is_long (current_position st)) then
      (Some (make_signal st "buy" close_price time),
       set_position (Some long) st)
    else (None, st)
  else if Qltb close_price sma then
    if negb (is_short (current_position st)) then
      (Some (make_signal st "short" close_price time),
       set_position (Some short) st)
    else (None, st)
  else if Qle_bool close_price sma && is_long (current_position st) then
    (Some (make_signal st "sell" close_price time), set_position None st)
  else if Qle_bool sma close_price && is_short (current_position st) then
    (Some (make_signal st "cover" close_price time), set_position None st)
  else (None, count "No trade condition met" st).

(** [SMA_CrossoverStrategy.generate_signal]; [None] is the empty dict. *)
Definition generate_signal (st : State) (current_bar : Bar datetime)
    : option Signal * State :=
  match bar_time current_bar, bar_close current_bar, bar_sma current_bar with
  | TimeNone, _, _ | _, None, _ | _, _, None =>
      (None, count "Incomplete data" st)
  | TimeStr s, Some close_price, Some sma =>
      if String.eqb s "" then (None, count "Incomplete data" st)
      else
        match fromisoformat s with
        | Some time => crossover st close_price sma time
        | None => (None, count "Invalid time format" st)
        end
  | TimeObj time, Some close_price, Some sma =>
      crossover st close_price sma time
  end.

(** Feeding a sequence of bars: the signals in order, and the final
    state. *)
Fixpoint run (st : State) (bars : list (Bar datetime))
    : list (option Signal) * State :=
  match bars with
  | [] => ([], st)
  | b :: rest =>
      let '(s, st1) := generate_signal st b in
      let '(ss, st2) := run st1 rest in
      (s :: ss, st2)
  end.

(** The timestamp of the bar passes the data checks as [d]: it is a
    datetime object, or a non-empty string that parses. *)
Definition usable_time (t : PyTime datetime) (d : datetime) : Prop :=
  t = TimeObj d \/
  exists s, t = TimeStr s /\ s <> "" /\ fromisoformat s = Some d.

(** A well-formed enriched bar whose close is strictly above its sma. *)
Definition close_above_sma (b : Bar datetime) : Prop :=
  exists c s d,
    bar_close b = Some c /\ bar_sma b = Some s /\
    usable_time (bar_time b) d /\ s < c.

End GenerateSignal.

End Strategy.

(** ** risk_manager.py *)

Module RiskManager.

Local Open Scope Q_scope.

(** The reason strings written by [log_no_trade_reason]; the formatted
    argument of an f-string is kept as a constructor argument. *)
Inductive Reason :=
| Drawdown_limit_exceeded
| Missing_instrument_in_signal
| Invalid_price (price : option Q)
| Price_mismatch
| Position_size_too_small (price : Q)
| Invalid_action (action : option string).

Record State := mkState {
  base_capital : Q;
  max_drawdown : Q;
  stop_loss_pct : Q;
  take_profit_pct : Q;
  max_position_fraction : Q;
  current_drawdown : Q;
  latest_price : gmap string Q;
  (* the price last stored under a NaN key, which is what pandas hands
     over as the instrument of a bar that has none; no string finds it *)
  latest_price_nan : option Q;
  no_trade_reasons : gmap string Reason
}.

(** [RiskManager.__init__] *)
Definition init (base_capital max_drawdown stop_loss_pct take_profit_pct
                 max_position_fraction : Q) : State :=
  {| base_capital := base_capital;
     max_drawdown := max_drawdown;
     stop_loss_pct := stop_loss_pct;
     take_profit_pct := take_profit_pct;
     max_position_fraction := max_position_fraction;
     current_drawdown := 0;
     latest_price := ∅;
     latest_price_nan := None;
     no_trade_reasons := ∅ |}.

Definition set_latest_price (m : gmap string Q) (rm : State) : State :=
  {| base_capital := base_capital rm;
     max_drawdown := max_drawdown rm;
     stop_loss_pct := stop_loss_pct rm;
     take_profit_pct := take_profit_pct rm;
     max_position_fraction := max_position_fraction rm;
     current_drawdown := current_drawdown rm;
     latest_price := m;
     latest_price_nan := latest_price_nan rm;
     no_trade_reasons := no_trade_reasons rm |}.

Definition set_latest_price_nan (v : option Q) (rm : State) : State :=
  {| base_capital := base_capital rm;
     max_drawdown := max_drawdown rm;
     stop_loss_pct := stop_loss_pct rm;
     take_profit_pct := take_profit_pct rm;
     max_position_fraction := max_position_fraction rm;
     current_drawdown := current_drawdown rm;
     latest_price := latest_price rm;
     latest_price_nan := v;
     no_trade_reasons := no_trade_reasons rm |}.

Definition set_no_trade_reasons (m : gmap string Reason) (rm : State)
    : State :=
  {| base_capital := base_capital rm;
     max_drawdown := max_drawdown rm;
     stop_loss_pct := stop_loss_pct rm;
     take_profit_pct := take_profit_pct rm;
     max_position_fraction := max_position_fraction rm;
     current_drawdown := current_drawdown rm;
     latest_price := latest_price rm;
     latest_price_nan := latest_price_nan rm;
     no_trade_reasons := m |}.

(** [update_price] *)
Definition update_price (instrument : string) (price : Q) (rm : State)
    : State :=
  if Qltb 0 price
  then set_latest_price (<[instrument := price]> (latest_price rm)) rm
  else rm.

(** [update_price] called with NaN as the instrument: the entry goes
    under a key that no string equals. *)
Definition update_price_nan (price : Q) (rm : State) : State :=
  if Qltb 0 price then set_latest_price_nan (Some price) rm else rm.

(** [get_current_price]; the argument is [signal_info.get('instrument')]. *)
Definition get_current_price (rm : State) (instrument : option string)
    : option Q :=
  match instrument with
  | Some i => latest_price rm !! i
  | None => None
  end.

(** [log_no_trade_reason]: the key is
    [signal_info.get('instrument', 'Unknown')]. *)
Definition log_no_trade_reason (rm : State) (signal_info : Signal)
    (reason : Reason) : State :=
  let instrument := default "Unknown" (sig_instrument signal_info) in
  set_no_trade_reasons (<[instrument := reason]> (no_trade_reasons rm)) rm.

(** [get_current_drawdown] *)
Definition get_current_drawdown (rm : State) : Q := current_drawdown rm.

(** [price = latest_price if latest_price else signal_price] *)
Definition resolved_price (rm : State) (signal_info : Signal) : option Q :=
  let latest := get_current_price rm (sig_instrument signal_info) in
  if truthy_opt latest then latest else sig_price signal_info.

(** The consistency check between signal price and latest price. *)
Definition price_mismatch (rm : State) (signal_info : Signal) : bool :=
  match get_current_price rm (sig_instrument signal_info),
        sig_price signal_info with
  | Some latest, Some signal_price =>
      truthy latest && truthy signal_price &&
      Qltb ((1 # 100) * signal_price) (Qabs (latest - signal_price))
  | _, _ => false
  end.

(** [size = int(capital_risk / price)] *)
Definition position_size (rm : State) (price : Q) : Z :=
  let capital_risk := base_capital rm * max_position_fraction rm in
  int (capital_risk / price).

(** [not instrument]: absent, [None] or the empty string. *)
Definition falsy_str (s : option string) : bool :=
  match s with
  | Some i => String.eqb i ""
  | None => true
  end.

Definition action_in_buy_sell (action : option string) : bool :=
  match action with
  | Some a => String.eqb a "buy" || String.eqb a "sell"
  | None => false
  end.

(** [apply_risk_rules]; [None] is the empty dict of a rejection. *)
Definition apply_risk_rules (rm : State) (signal_info : Signal)
    : option Order * State :=
  if Qltb (max_drawdown rm) (get_current_drawdown rm) then
    (None, log_no_trade_reason rm signal_info Drawdown_limit_exceeded)
  else
    let action := sig_action signal_info in
    let instrument := sig_instrument signal_info in
    if falsy_str instrument then
      (None, log_no_trade_reason rm signal_info Missing_instrument_in_signal)
    else
      let price := resolved_price rm signal_info in
      match price with
      | None =>
          (None, log_no_trade_reason rm signal_info (Invalid_price price))
      | Some p =>
          if negb (truthy p) || Qle_bool p 0 then
            (None, log_no_trade_reason rm signal_info (Invalid_price price))
          else if price_mismatch rm signal_info then
            (None, log_no_trade_reason rm signal_info Price_mismatch)
          else
            let size := position_size rm p in
            if (size <=? 0)%Z then
              (None, log_no_trade_reason rm signal_info
                       (Position_size_too_small p))
            else if negb (action_in_buy_sell action) then
              (None, log_no_trade_reason rm signal_info
                       (Invalid_action action))
            else
              let is_buy := bool_decide (action = Some "buy") in
              let stop_loss :=
                p * (if is_buy then 1 - stop_loss_pct rm
                     else 1 + stop_loss_pct rm) in
              let take_profit :=
                p * (if is_buy then 1 + take_profit_pct rm
                     else 1 - take_profit_pct rm) in
              (Some {| ord_action := default "" action;
                       ord_instrument := default "" instrument;
                       ord_size := size;
                       ord_entry_price := p;
                       ord_stop_loss := stop_loss;
                       ord_take_profit := take_profit |},
               rm)
      end.

(** The checks that precede the action check: drawdown, instrument,
    price (validity and consistency) and size. *)
Definition passes_earlier_checks (rm : State) (signal_info : Signal)
    : Prop :=
  get_current_drawdown rm <= max_drawdown rm /\
  falsy_str (sig_instrument signal_info) = false /\
  exists p, resolved_price rm signal_info = Some p /\
            0 < p /\
            price_mismatch rm signal_info = false /\
            (0 < position_size rm p)%Z.

End RiskManager.

(** ** market_analyzer.py *)

Module MarketAnalyzer.

Local Open Scope Q_scope.

(** A raw bar dict of the feed.  [close] is read by pandas as a column
    and [instrument] with [.get]; either key may be absent from a dict,
    which is what [None] stands for. *)
Record Bar := mkBar {
  time : string;
  open : Q;
  high : Q;
  low : Q;
  close : option Q;
  volume : Q;
  instrument : option string
}.

(** What [process_data] returns.  Below the window it is the latest
    bar itself.  From the window on it is the last row of the DataFrame
    built from the buffer: the entries of the latest bar, a NaN under
    each column that another bar of the buffer has and the latest bar
    lacks, and the [sma]. *)
Record EnrichedBar := mkEnriched {
  raw : Bar;
  nan_close : bool;          (* ['close'] is there, as NaN *)
  nan_instrument : bool;     (* ['instrument'] is there, as NaN *)
  sma : option PyFloat
}.

Inductive Exn := KeyError | IndexError | ValueError.

Record State := mkState {
  indicator_window : Z;
  buffer : list Bar;
  risk_manager : option RiskManager.State
}.

(** [MarketAnalyzer.__init__] *)
Definition init (indicator_window : Z)
    (risk_manager : option RiskManager.State) : State :=
  {| indicator_window := indicator_window;
     buffer := [];
     risk_manager := risk_manager |}.

(** [l[start:]] for a possibly negative [start]. *)
Definition slice_from {A} (start : Z) (l : list A) : list A :=
  let n := Z.of_nat (length l) in
  let i := if (start <? 0)%Z then Z.max 0 (n + start) else start in
  drop (Z.to_nat i) l.

(** The sum of a column, when no entry is missing. *)
Fixpoint sum_closes (l : list Bar) : option Q :=
  match l with
  | [] => Some 0
  | b :: rest =>
      match close b, sum_closes rest with
      | Some c, Some s => Some (c + s)
      | _, _ => None
      end
  end.

(** The last entry of [df['close'].rolling(window=w).mean()] for a frame
    of at least [w] rows: the mean of the last [w] entries, NaN when one
    of them is missing (or when the window is empty). *)
Definition rolling_mean_last (w : Z) (l : list Bar) : PyFloat :=
  if (w <=? 0)%Z then NaN
  else
    match sum_closes (slice_from (- w) l) with
    | Some s => Num (s / of_Z w)
    | None => NaN
    end.

Definition has_close (b : Bar) : bool :=
  match close b with Some _ => true | None => false end.

Definition has_instrument (b : Bar) : bool :=
  match instrument b with Some _ => true | None => false end.

(** [process_data].  The frame has a column for every key of every
    buffered dict; the ['close'] column is there once the [KeyError]
    check has passed. *)
Definition process_data (st : State) : Exn + EnrichedBar :=
  if (Z.of_nat (length (buffer st)) <? indicator_window st)%Z then
    match last (buffer st) with
    | Some b =>
        inr {| raw := b; nan_close := false; nan_instrument := false;
               sma := None |}
    | None => inl IndexError
    end
  else if negb (existsb has_close (buffer st)) then inl KeyError
  else if (indicator_window st <? 0)%Z then inl ValueError
  else
    match last (buffer st) with
    | Some b =>
        inr {| raw := b;
               nan_close := negb (has_close b);
               nan_instrument :=
                 negb (has_instrument b)
                 && existsb has_instrument (buffer st);
               sma := Some (rolling_mean_last (indicator_window st)
                              (buffer st)) |}
    | None => inl IndexError
    end.

(** The payload of [market_update_signal]. *)
Record MarketUpdate := mkUpdate {
  data : EnrichedBar;
  history : list Bar
}.

(** The price update in [on_market_data]:
    [if instrument and current_price: update_price(instrument,
    current_price)] on the [.get] of the two keys.  A NaN is truthy, so
    a NaN instrument goes through as the key; under a NaN price,
    [update_price] stores nothing since [nan > 0] is false. *)
Definition update_risk_manager (enriched_bar : EnrichedBar)
    (rm : RiskManager.State) : RiskManager.State :=
  match close (raw enriched_bar), instrument (raw enriched_bar) with
  | Some current_price, Some instr =>
      if negb (String.eqb instr "") && truthy current_price
      then RiskManager.update_price instr current_price rm
      else rm
  | Some current_price, None =>
      if nan_instrument enriched_bar && truthy current_price
      then RiskManager.update_price_nan current_price rm
      else rm
  | None, _ => rm
  end.

(** [on_market_data] for a payload of the right type.  The method
    appends to the buffer before anything can raise, so the new state is
    returned in both cases. *)
Definition on_market_data (st : State) (bar : Bar)
    : State * (Exn + MarketUpdate) :=
  let buf := buffer st ++ [bar] in
  let st1 := {| indicator_window := indicator_window st;
                buffer := buf;
                risk_manager := risk_manager st |} in
  let history :=
    if (Z.of_nat (length buf) <? indicator_window st)%Z then buf
    else slice_from (- indicator_window st) buf in
  match process_data st1 with
  | inl e => (st1, inl e)
  | inr enriched_bar =>
      let rm := update_risk_manager enriched_bar <$> risk_manager st1 in
      ({| indicator_window := indicator_window st;
          buffer := buf;
          risk_manager := rm |},
       inr {| data := enriched_bar; history := history |})
  end.

(** Processing a sequence of bars.  An exception of one call is caught
    by the caller ([BacktestRunner.process_bar]); the bar has been
    appended by then, and the next bar is processed. *)
Fixpoint run (st : State) (bars : list Bar) : State :=
  match bars with
  | [] => st
  | b :: rest => run (fst (on_market_data st b)) rest
  end.

End MarketAnalyzer.

(** ** order_handler.py *)

Module OrderHandler.

Local Open Scope Q_scope.

(** The filled-order dict built by [execute_order]. *)
Record FilledOrder := mkFilled {
  instrument : string;
  filled_price : Q;
  size : Q;
  time : string;
  action : string;
  stop_loss : Q;
  take_profit : Q
}.

(** An entry of [open_positions]. *)
Record Position := mkPosition {
  entry_price : Q;
  pos_size : Q;
  pos_stop_loss : Q;
  pos_take_profit : Q
}.

Record State := mkState {
  capital : Q;
  position_size : Q;
  open_positions : gmap string Position;
  realized_pnl : Q
}.

(** [OrderHandler.__init__] *)
Definition init (capital position_size : Q) : State :=
  {| capital := capital; position_size := position_size;
     open_positions := ∅; realized_pnl := 0 |}.

(** [execute_order]; [now] is [datetime.utcnow().isoformat()]. *)
Definition execute_order (now : string) (order : Order) : FilledOrder :=
  {| instrument := ord_instrument order;
     filled_price := ord_entry_price order;
     size := of_Z (ord_size order);
     time := now;
     action := ord_action order;
     stop_loss := ord_stop_loss order;
     take_profit := ord_take_profit order |}.

(** [update_positions].  [None] stands for the [ZeroDivisionError] of
    averaging an entry price over a zero total size; it is raised before
    anything is stored. *)
Definition update_positions (st : State) (filled_order : FilledOrder)
    : option State :=
  let instrument := instrument filled_order in
  let action := action filled_order in
  let size := size filled_order in
  let filled_price := filled_price filled_order in
  if String.eqb action "buy" then
    match open_positions st !! instrument with
    | None =>
        Some
          {| capital := capital st; position_size := position_size st;
             open_positions :=
               <[instrument :=
                   {| entry_price := filled_price;
                      pos_size := size;
                      pos_stop_loss := stop_loss filled_order;
                      pos_take_profit := take_profit filled_order |}]>
                 (open_positions st);
             realized_pnl := realized_pnl st |}
    | Some existing_position =>
        let total_cost :=
          entry_price existing_position * pos_size existing_position
          + filled_price * size in
        let total_size := pos_size existing_position + size in
        if Qeq_bool total_size 0 then None
        else
          Some
            {| capital := capital st; position_size := position_size st;
               open_positions :=
                 <[instrument :=
                     {| entry_price := total_cost / total_size;
                        pos_size := total_size;
                        pos_stop_loss := pos_stop_loss existing_position;
                        pos_take_profit :=
                          pos_take_profit existing_position |}]>
                   (open_positions st);
               realized_pnl := realized_pnl st |}
    end
  else if String.eqb action "sell" then
    match open_positions st !! instrument with
    | Some existing_position =>
        let pnl := (filled_price - entry_price existing_position) * size in
        let remaining := pos_size existing_position - size in
        Some
          {| capital := capital st; position_size := position_size st;
             open_positions :=
               if Qle_bool remaining 0
               then delete instrument (open_positions st)
               else <[instrument :=
                        {| entry_price := entry_price existing_position;
                           pos_size := remaining;
                           pos_stop_loss := pos_stop_loss existing_position;
                           pos_take_profit :=
                             pos_take_profit existing_position |}]>
                      (open_positions st);
             realized_pnl := realized_pnl st + pnl |}
    | None => Some st
    end
  else Some st.

(** [calculate_position_size]; [None] stands for the [ZeroDivisionError]
    of a zero entry price. *)
Definition calculate_position_size (st : State) (entry_price : Q)
    : option Q :=
  if Qeq_bool entry_price 0 then None
  else
    let max_position_value := capital st * (1 # 10) in
    Some (Qmin (of_Z (int (max_position_value / entry_price)))
               (position_size st)).

(** [on_order_request] for an order dict with all required keys: the new
    state and the fill it emits, if any.  The body runs under
    [try/except Exception]; an exception leaves the state as it was. *)
Definition on_order_request (now : string) (st : State) (order : Order)
    : State * option FilledOrder :=
  match calculate_position_size st (ord_entry_price order) with
  | None => (st, None)
  | Some size =>
      if Qeq_bool size 0 then (st, None)
      else
        let filled_order :=
          {| instrument := ord_instrument order;
             filled_price := ord_entry_price order;
             size := size;
             time := now;
             action := ord_action order;
             stop_loss := ord_stop_loss order;
             take_profit := ord_take_profit order |} in
        match update_positions st filled_order with
        | Some st1 => (st1, Some filled_order)
        | None => (st, None)
        end
  end.

(** A sequence of fills applied in order; a fill on which
    [update_positions] raises is dropped by the caller. *)
Definition run (st : State) (fills : list FilledOrder) : State :=
  foldl (fun st fo => default st (update_positions st fo)) st fills.

(** Every recorded position is long. *)
Definition all_long (st : State) : Prop :=
  forall instr pos, open_positions st !! instr = Some pos -> 0 < pos_size pos.

End OrderHandler.

(** ** portfolio_manager.py *)

Module PortfolioManager.

Local Open Scope Q_scope.

(** The [bars_held] entry of a ledger row: an [int], or the NaN that a
    difference with [NaT] leaves there. *)
Inductive BarsHeld :=
| Whole (n : Z)
| BarsNaN.

(** A row of the trade ledger. *)
Record Trade := mkTrade {
  instrument : string;
  action : string;
  size : Q;
  filled_price : Q;
  time : string;
  reason : string;
  net_profit : Q;
  bars_held : BarsHeld
}.

(** The dict carried by an order-filled event; [time] and [reason] are
    filled in by [on_order_filled] when absent. *)
Record OrderData := mkOrderData {
  od_instrument : string;
  od_action : string;
  od_size : Q;
  od_filled_price : Q;
  od_time : option string;
  od_reason : option string
}.

(** The dict carried by a stop-triggered event. *)
Record StopInfo := mkStopInfo {
  stop_instrument : string;
  stop_reason : string;
  stop_level : Q
}.

(** An entry of [positions]. *)
Record Position := mkPosition {
  pos_size : Q;
  entry_price : Q;
  entry_time : string
}.

Record State := mkState {
  trades : list Trade;
  positions : gmap string Position;
  cash : Q;
  starting_cash : Q;
  realized_pnl : Q;
  unrealized_pnl : Q;
  market_data : gmap string (option Q);   (* instrument -> its 'close' *)
  equity_curve : list Q
}.

(** [PortfolioManager.__init__] *)
Definition init (starting_cash : Q) : State :=
  {| trades := [];
     positions := ∅;
     cash := starting_cash;
     starting_cash := starting_cash;
     realized_pnl := 0;
     unrealized_pnl := 0;
     market_data := ∅;
     equity_curve := [starting_cash] |}.

Definition set_trades (v : list Trade) (pm : State) : State :=
  {| trades := v; positions := positions pm; cash := cash pm;
     starting_cash := starting_cash pm; realized_pnl := realized_pnl pm;
     unrealized_pnl := unrealized_pnl pm; market_data := market_data pm;
     equity_curve := equity_curve pm |}.

Definition set_positions (v : gmap string Position) (pm : State) : State :=
  {| trades := trades pm; positions := v; cash := cash pm;
     starting_cash := starting_cash pm; realized_pnl := realized_pnl pm;
     unrealized_pnl := unrealized_pnl pm; market_data := market_data pm;
     equity_curve := equity_curve pm |}.

Definition set_cash (v : Q) (pm : State) : State :=
  {| trades := trades pm; positions := positions pm; cash := v;
     starting_cash := starting_cash pm; realized_pnl := realized_pnl pm;
     unrealized_pnl := unrealized_pnl pm; market_data := market_data pm;
     equity_curve := equity_curve pm |}.

Definition set_realized_pnl (v : Q) (pm : State) : State :=
  {| trades := trades pm; positions := positions pm; cash := cash pm;
     starting_cash := starting_cash pm; realized_pnl := v;
     unrealized_pnl := unrealized_pnl pm; market_data := market_data pm;
     equity_curve := equity_curve pm |}.

Definition set_unrealized_pnl (v : Q) (pm : State) : State :=
  {| trades := trades pm; positions := positions pm; cash := cash pm;
     starting_cash := starting_cash pm; realized_pnl := realized_pnl pm;
     unrealized_pnl := v; market_data := market_data pm;
     equity_curve := equity_curve pm |}.

Definition set_equity_curve (v : list Q) (pm : State) : State :=
  {| trades := trades pm; positions := positions pm; cash := cash pm;
     starting_cash := starting_cash pm; realized_pnl := realized_pnl pm;
     unrealized_pnl := unrealized_pnl pm; market_data := market_data pm;
     equity_curve := v |}.

Definition set_result (net_profit : Q) (bars_held : BarsHeld) (t : Trade)
    : Trade :=
  {| instrument := instrument t; action := action t; size := size t;
     filled_price := filled_price t; time := time t; reason := reason t;
     net_profit := net_profit; bars_held := bars_held |}.

(** [Timedelta.days] of a difference in nanoseconds (rounds down). *)
Definition days (delta_ns : Z) : Z := (delta_ns / 86400000000000)%Z.

(** A [pd.Timestamp]: [NaT], or an instant in nanoseconds since the
    epoch that is tz-aware or tz-naive. *)
Inductive PdTimestamp :=
| NaT
| Instant (ns : Z) (tz_aware : bool).

(** [a - b] on timestamps.  [None] stands for the [TypeError] of
    subtracting a tz-naive from a tz-aware timestamp or the other way
    round; [Some None] is [NaT], which every difference with [NaT] is;
    otherwise the difference is a [Timedelta], in nanoseconds.  The
    bounds of the 64-bit representation (a difference of some centuries
    that no [Timedelta] holds) are outside the model. *)
Definition timestamp_sub (a b : PdTimestamp) : option (option Z) :=
  match a, b with
  | Instant x a_aware, Instant y b_aware =>
      if Bool.eqb a_aware b_aware then Some (Some (x - y)%Z) else None
  | _, _ => Some None
  end.

(** [max(delta.days, 1)].  [NaT.days] is NaN, and [max(nan, 1)] is its
    first argument since [1 > nan] is false. *)
Definition bars_of (delta : option Z) : BarsHeld :=
  match delta with
  | Some delta_ns => Whole (Z.max (days delta_ns) 1)
  | None => BarsNaN
  end.

(** The two fills point the same way: a buy on a long position
    or a sell on a short one. *)
Definition same_direction (pos : Position) (trade : Trade) : Prop :=
  (0 < pos_size pos /\ action trade = "buy") \/
  (pos_size pos < 0 /\ action trade <> "buy").

(** How a [try] body ended. *)
Inductive Outcome := Done | Raised.

(** [trade['size'] if trade['action'] == 'buy' else -trade['size']] *)
Definition size_change (trade : Trade) : Q :=
  if String.eqb (action trade) "buy" then size trade else - size trade.

(** The trade dict at the start of [on_order_filled]: missing [time]
    and [reason] are filled in, and the placeholders for [net_profit]
    and [bars_held] are set. *)
Definition order_trade (now : string) (order_data : OrderData) : Trade :=
  {| instrument := od_instrument order_data;
     action := od_action order_data;
     size := od_size order_data;
     filled_price := od_filled_price order_data;
     time := default now (od_time order_data);
     reason := default "order_filled" (od_reason order_data);
     net_profit := 0;
     bars_held := Whole 0 |}.

(** [update_realized_pnl]: the trade dict always has ['net_profit']. *)
Definition update_realized_pnl (pm : State) (trade : Trade) : State :=
  set_realized_pnl (realized_pnl pm + net_profit trade) pm.

(** [update_cash] *)
Definition update_cash (pm : State) (trade : Trade) : State :=
  let cost := filled_price trade * size trade in
  if String.eqb (action trade) "buy"
  then set_cash (cash pm - cost) pm
  else set_cash (cash pm + cost) pm.

(** The contribution of one open position in [calculate_unrealized_pnl]. *)
Definition position_pnl (market_data : gmap string (option Q))
    (instr : string) (position : Position) : Q :=
  let size := pos_size position in
  let entry_price := entry_price position in
  let current_price :=
    match market_data !! instr with
    | Some (Some c) => c
    | _ => entry_price
    end in
  if Qltb 0 size then (current_price - entry_price) * size
  else (entry_price - current_price) * Qabs size.

(** [calculate_unrealized_pnl]: stores and returns the sum over the open
    positions. *)
Definition calculate_unrealized_pnl (pm : State) : Q * State :=
  let total :=
    map_fold (fun instr position acc =>
                acc + position_pnl (market_data pm) instr position)
             0 (positions pm) in
  (total, set_unrealized_pnl total pm).

(** [update_equity_curve] *)
Definition update_equity_curve (pm : State) : State :=
  let '(unrealized, pm1) := calculate_unrealized_pnl pm in
  let total_equity := cash pm1 + unrealized in
  set_equity_curve (equity_curve pm1 ++ [total_equity]) pm1.

Section Handlers.

(** [pd.Timestamp(s)]; [None] stands for the [ValueError] of an
    unparsable string. *)
Variable Timestamp : string -> option PdTimestamp.

(** The body of [update_positions], which runs under
    [try/except Exception].  The trade dict is mutated in place, so
    the updated trade is returned with the state; where the body
    raises, the state and trade reached so far are returned with
    [Raised]. *)
Definition update_positions_try (pm : State) (trade : Trade)
    : State * Trade * Outcome :=
  let instr := instrument trade in
  let size_change := size_change trade in
  let position :=
    default {| pos_size := 0; entry_price := 0;
               entry_time := time trade |}
            (positions pm !! instr) in
  let old_size := pos_size position in
  let new_size := old_size + size_change in
  if Qeq_bool old_size 0 && negb (Qeq_bool new_size 0) then
    (* Opening a new position *)
    (set_positions
       (<[instr := {| pos_size := new_size;
                      entry_price := filled_price trade;
                      entry_time := time trade |}]> (positions pm)) pm,
     trade, Done)
  else if Qeq_bool new_size 0 then
    (* Closing the position *)
    match Timestamp (entry_time position) with
    | None => (pm, trade, Raised)
    | Some entry_t =>
        match Timestamp (time trade) with
        | None => (pm, trade, Raised)
        | Some exit_t =>
            match timestamp_sub exit_t entry_t with
            | None => (pm, trade, Raised)          (* TypeError *)
            | Some delta =>
                let bars_held := bars_of delta in
                let net_profit :=
                  if Qltb 0 old_size
                  then (filled_price trade - entry_price position)
                       * Qabs size_change
                  else (entry_price position - filled_price trade)
                       * Qabs size_change in
                let trade1 := set_result net_profit bars_held trade in
                let pm1 := update_realized_pnl pm trade1 in
                (* [del self.positions[instr]] *)
                match positions pm1 !! instr with
                | Some _ =>
                    (set_positions (delete instr (positions pm1)) pm1,
                     trade1, Done)
                | None => (pm1, trade1, Raised)    (* KeyError *)
                end
            end
        end
    end
  else
    (* Adjusting (scaling in/out) the position *)
    let total_cost_before := entry_price position * pos_size position in
    let trade_cost := filled_price trade * size_change in
    let new_entry_price := (total_cost_before + trade_cost) / new_size in
    (set_positions
       (<[instr := {| pos_size := new_size;
                      entry_price := new_entry_price;
                      entry_time := entry_time position |}]>
          (positions pm)) pm,
     trade, Done).

(** [update_positions]: the handler of the [try] only logs. *)
Definition update_positions (pm : State) (trade : Trade)
    : State * Trade :=
  fst (update_positions_try pm trade).

(** The four steps shared by both handlers. *)
Definition process_fill (pm : State) (trade : Trade) : State :=
  let '(pm1, trade1) := update_positions pm trade in
  let pm2 := update_cash pm1 trade1 in
  let pm3 := update_equity_curve pm2 in
  set_trades (trades pm3 ++ [trade1]) pm3.

(** [on_order_filled]; [now] is [pd.Timestamp.now().isoformat()]. *)
Definition on_order_filled (now : string) (pm : State)
    (order_data : OrderData) : State :=
  process_fill pm (order_trade now order_data).

(** The size read by [on_stop_triggered]:
    [self.positions.get(instrument, {}).get('size', 0)]. *)
Definition current_size (pm : State) (instrument : string) : Q :=
  match positions pm !! instrument with
  | Some current_pos => pos_size current_pos
  | None => 0
  end.

(** The closing trade dict built by [on_stop_triggered]. *)
Definition stop_trade (now : string) (pm : State) (stop_details : StopInfo)
    : Trade :=
  let instrument := stop_instrument stop_details in
  let size := Qabs (current_size pm instrument) in
  let action :=
    if Qltb 0 (current_size pm instrument) then "sell" else "buy" in
  {| instrument := instrument;
     action := action;
     size := size;
     filled_price := stop_level stop_details;
     time := now;
     reason := stop_reason stop_details;
     net_profit := 0;
     bars_held := Whole 0 |}.

(** [on_stop_triggered] *)
Definition on_stop_triggered (now : string) (pm : State)
    (stop_details : StopInfo) : State :=
  let size := Qabs (current_size pm (stop_instrument stop_details)) in
  if Qltb 0 size then process_fill pm (stop_trade now pm stop_details)
  else pm.

(** The events delivered to the portfolio, each with the clock reading
    taken while it is handled. *)
Inductive Event :=
| OrderFilled (now : string) (order_data : OrderData)
| StopTriggered (now : string) (stop_info : StopInfo).

Definition handle (pm : State) (ev : Event) : State :=
  match ev with
  | OrderFilled now order_data => on_order_filled now pm order_data
  | StopTriggered now stop_info => on_stop_triggered now pm stop_info
  end.

Definition run (pm : State) (evs : list Event) : State :=
  foldl handle pm evs.

(** Whether handling [ev] in state [pm] processes a fill: an order
    fill always does, a stop trigger only when it finds an open
    position to close. *)
Definition is_fill (pm : State) (ev : Event) : bool :=
  match ev with
  | OrderFilled _ _ => true
  | StopTriggered _ stop_info =>
      Qltb 0 (Qabs (current_size pm (stop_instrument stop_info)))
  end.

(** The trade dict that handling [ev] in state [pm] works on. *)
Definition event_trade (pm : State) (ev : Event) : Trade :=
  match ev with
  | OrderFilled now order_data => order_trade now order_data
  | StopTriggered now stop_info => stop_trade now pm stop_info
  end.

(** The number of fills processed along a run. *)
Fixpoint fills_processed (pm : State) (evs : list Event) : nat :=
  match evs with
  | [] => O
  | ev :: rest =>
      ((if is_fill pm ev then 1 else 0)
       + fills_processed (handle pm ev) rest)%nat
  end.

End Handlers.

(** *** Performance metrics *)

Definition is_win (t : Trade) : bool := Qltb 0 (net_profit t).
Definition is_loss (t : Trade) : bool := Qltb (net_profit t) 0.

(** [df[df["action"] == a]] *)
Definition with_action (a : string) (df : list Trade) : list Trade :=
  List.filter (fun t => String.eqb (action t) a) df.

(** [series.sum()] *)
Definition sum (l : list Q) : Q := foldr Qplus 0 l.

(** [df[df["net_profit"] > 0]["net_profit"].sum()] *)
Definition gross_profit (df : list Trade) : Q :=
  sum (map net_profit (List.filter is_win df)).

(** [df[df["net_profit"] < 0]["net_profit"].sum()] *)
Definition gross_loss (df : list Trade) : Q :=
  sum (map net_profit (List.filter is_loss df)).

Definition winning_count (df : list Trade) : nat :=
  length (List.filter is_win df).

Definition losing_count (df : list Trade) : nat :=
  length (List.filter is_loss df).

(** The local function [pf]. *)
Definition pf (gp gl : Q) : PyFloat :=
  if negb (Qeq_bool gl 0) then Num (gp / Qabs gl) else PosInf.

(** The local function [pct]. *)
Definition pct (part whole : nat) : Q :=
  if (0 <? whole)%nat
  then (of_Z (Z.of_nat part) / of_Z (Z.of_nat whole)) * 100
  else 0.

(** [net / count if count > 0 else 0] *)
Definition avg_trade (net : Q) (count : nat) : Q :=
  if (0 <? count)%nat then net / of_Z (Z.of_nat count) else 0.

(** [series.max()] and [series.min()]; [None] on an empty series. *)
Definition series_max (l : list Q) : option Q :=
  match l with
  | [] => None
  | x :: rest => Some (foldl Qmax x rest)
  end.

Definition series_min (l : list Q) : option Q :=
  match l with
  | [] => None
  | x :: rest => Some (foldl Qmin x rest)
  end.

(** [df["net_profit"].max() if not df.empty else 0] *)
Definition largest_win (df : list Trade) : Q :=
  default 0 (series_max (map net_profit df)).

Definition largest_loss (df : list Trade) : Q :=
  default 0 (series_min (map net_profit df)).

(** The streak scan over the profit series; the accumulators are
    [max_consec_wins], [max_consec_losses], [current_wins] and
    [current_losses]. *)
Fixpoint streaks (profit_series : list Q)
    (max_wins max_losses current_wins current_losses : nat) : nat * nat :=
  match profit_series with
  | [] => (max_wins, max_losses)
  | p :: rest =>
      if Qltb 0 p then
        let current_wins := S current_wins in
        streaks rest (Nat.max max_wins current_wins) max_losses
                current_wins O
      else
        let current_losses := S current_losses in
        streaks rest max_wins (Nat.max max_losses current_losses)
                O current_losses
  end.

(** The entries of a [bars_held] column that are not NaN. *)
Definition known_bars (df : list Trade) : list Q :=
  omap (fun t => match bars_held t with
                 | Whole n => Some (of_Z n)
                 | BarsNaN => None
                 end) df.

(** [bars.mean() if not bars.empty else 0]: the mean skips the NaN
    entries, and is NaN when it skips them all. *)
Definition avg_bars (df : list Trade) : PyFloat :=
  match df with
  | [] => Num 0
  | _ =>
      match known_bars df with
      | [] => NaN
      | known => Num (sum known / of_Z (Z.of_nat (length known)))
      end
  end.

(** [np.maximum.accumulate] *)
Fixpoint accumulate_from (m : Q) (l : list Q) : list Q :=
  match l with
  | [] => []
  | x :: rest => let m1 := Qmax m x in m1 :: accumulate_from m1 rest
  end.

Definition maximum_accumulate (l : list Q) : list Q :=
  match l with
  | [] => []
  | x :: rest => x :: accumulate_from x rest
  end.

(** [(equity_array - running_max).min()]; [None] on an empty curve. *)
Definition max_drawdown_of (equity : list Q) : option Q :=
  series_min (zip_with Qminus equity (maximum_accumulate equity)).

(** [(net / abs(max_drawdown)) if max_drawdown < 0 else np.inf] *)
Definition retracement (net max_drawdown : Q) : PyFloat :=
  if Qltb max_drawdown 0 then Num (net / Qabs max_drawdown) else PosInf.

Set Implicit Arguments.

Record Metrics (Pow : Type) := mkMetrics {
  all_net_profit : Q;
  long_net_profit : Q;
  short_net_profit : Q;
  all_gross_profit : Q;
  long_gross_profit : Q;
  short_gross_profit : Q;
  all_gross_loss : Q;
  long_gross_loss : Q;
  short_gross_loss : Q;
  all_profit_factor : PyFloat;
  long_profit_factor : PyFloat;
  short_profit_factor : PyFloat;
  total_trades : nat;
  long_trades_count : nat;
  short_trades_count : nat;
  all_winning_percentage : Q;
  long_winning_percentage : Q;
  short_winning_percentage : Q;
  all_losing_percentage : Q;
  long_losing_percentage : Q;
  short_losing_percentage : Q;
  all_avg_trade : Q;
  long_avg_trade : Q;
  short_avg_trade : Q;
  largest_win_all : Q;
  largest_win_long : Q;
  largest_win_short : Q;
  largest_loss_all : Q;
  largest_loss_long : Q;
  largest_loss_short : Q;
  max_consec_wins : nat;
  max_consec_losses : nat;
  avg_bars_win : PyFloat;
  avg_bars_loss : PyFloat;
  max_drawdown : Q;
  return_on_initial : Q;
  annual_rate_return : option Pow;   (* [None] is the [0] of the [else] *)
  return_retracement_ratio : PyFloat;
  rina_index : PyFloat;
  max_equity_runup : Q
}.

Unset Implicit Arguments.

Section Performance.

(** [pd.to_datetime] on the ["time"] column: each entry in nanoseconds
    since the epoch, or [None] for [NaT]; the whole is [None] when the
    call raises. *)
Variable to_datetime : list string -> option (list (option Z)).

(** The value of [(base ** exponent - 1) * 100] as Python computes it;
    [None] when the power raises [OverflowError]. *)
Variable Pow : Type.
Variable annual_rate : Q -> Q -> option Pow.

(** [total_days].  [max()] and [min()] skip [NaT]; with nothing but
    [NaT] both are [NaT], the [.days] of their difference is NaN, and
    [nan < 1] is false: [None] stands for that NaN. *)
Definition total_days_of (times : list (option Z)) : option Z :=
  match omap id times with
  | [] => None
  | t :: rest =>
      let d := days (foldl Z.max t rest - foldl Z.min t rest) in
      Some (if (d <? 1)%Z then 1%Z else d)
  end.

(** [calculate_performance_metrics].  The whole body runs under
    [try/except Exception] with [return {}] in the handler, so [None]
    stands both for the early [return {}] and for a caught exception;
    the method itself never raises. *)
Definition calculate_performance_metrics (pm : State)
    : option (Metrics Pow) :=
  let trades_df := trades pm in
  match trades_df with
  | [] => None
  | _ =>
    let long_trades := with_action "buy" trades_df in
    let short_trades := with_action "sell" trades_df in
    let all_gross_profit := gross_profit trades_df in
    let all_gross_loss := gross_loss trades_df in
    let long_gross_profit := gross_profit long_trades in
    let long_gross_loss := gross_loss long_trades in
    let short_gross_profit := gross_profit short_trades in
    let short_gross_loss := gross_loss short_trades in
    let all_net_profit := all_gross_profit + all_gross_loss in
    let long_net_profit := long_gross_profit + long_gross_loss in
    let short_net_profit := short_gross_profit + short_gross_loss in
    let total_trades := length trades_df in
    let long_trades_count := length long_trades in
    let short_trades_count := length short_trades in
    let all_winning_percentage :=
      pct (winning_count trades_df) total_trades in
    let long_winning_percentage :=
      pct (winning_count long_trades) long_trades_count in
    let short_winning_percentage :=
      pct (winning_count short_trades) short_trades_count in
    let '(max_consec_wins, max_consec_losses) :=
      streaks (map net_profit trades_df) O O O O in
    (* drawdowns.min() raises ValueError on an empty curve *)
    max_drawdown ← max_drawdown_of (equity_curve pm);
    running_top ← series_max (maximum_accumulate (equity_curve pm));
    times ← to_datetime (map time trades_df);
    (* equity_curve[-1] *)
    final_equity ← last (equity_curve pm);
    (* float division by zero raises ZeroDivisionError *)
    if Qeq_bool (starting_cash pm) 0 then None else
    let return_on_initial :=
      ((final_equity - starting_cash pm) / starting_cash pm) * 100 in
    (* [... if total_days > 0 else 0], where [nan > 0] is false *)
    annual_rate_return ←
      match total_days_of times with
      | Some total_days =>
          Some <$> annual_rate (final_equity / starting_cash pm)
                               (365 / of_Z total_days)
      | None => Some None
      end;
    Some
      {| all_net_profit := all_net_profit;
         long_net_profit := long_net_profit;
         short_net_profit := short_net_profit;
         all_gross_profit := all_gross_profit;
         long_gross_profit := long_gross_profit;
         short_gross_profit := short_gross_profit;
         all_gross_loss := all_gross_loss;
         long_gross_loss := long_gross_loss;
         short_gross_loss := short_gross_loss;
         all_profit_factor := pf all_gross_profit all_gross_loss;
         long_profit_factor := pf long_gross_profit long_gross_loss;
         short_profit_factor := pf short_gross_profit short_gross_loss;
         total_trades := total_trades;
         long_trades_count := long_trades_count;
         short_trades_count := short_trades_count;
         all_winning_percentage := all_winning_percentage;
         long_winning_percentage := long_winning_percentage;
         short_winning_percentage := short_winning_percentage;
         all_losing_percentage := 100 - all_winning_percentage;
         long_losing_percentage := 100 - long_winning_percentage;
         short_losing_percentage := 100 - short_winning_percentage;
         all_avg_trade := avg_trade all_net_profit total_trades;
         long_avg_trade := avg_trade long_net_profit long_trades_count;
         short_avg_trade := avg_trade short_net_profit short_trades_count;
         largest_win_all := largest_win trades_df;
         largest_win_long := largest_win long_trades;
         largest_win_short := largest_win short_trades;
         largest_loss_all := largest_loss trades_df;
         largest_loss_long := largest_loss long_trades;
         largest_loss_short := largest_loss short_trades;
         max_consec_wins := max_consec_wins;
         max_consec_losses := max_consec_losses;
         avg_bars_win := avg_bars (List.filter is_win trades_df);
         avg_bars_loss := avg_bars (List.filter is_loss trades_df);
         max_drawdown := max_drawdown;
         return_on_initial := return_on_initial;
         annual_rate_return := annual_rate_return;
         return_retracement_ratio :=
           retracement all_net_profit max_drawdown;
         rina_index :=
           retracement (all_net_profit * (all_winning_percentage / 100))
                       max_drawdown;
         max_equity_runup := running_top - starting_cash pm |}
  end.

End Performance.

(** [v] is [num / |den|], or plus infinity when [den] is zero. *)
Definition ratio_or_inf (v : PyFloat) (num den : Q) : Prop :=
  (den == 0 -> v = PosInf) /\
  (~ den == 0 -> exists q, v = Num q /\ q == num / Qabs den).


End PortfolioManager.

(** ** Traces of the signal generator *)

Module StrategyTrace.

Import Strategy.
Local Open Scope Q_scope.

(** The actions of the signals that were emitted, in order. *)
Fixpoint emitted_actions (signals : list (option Signal)) : list string :=
  match signals with
  | [] => []
  | Some sig :: rest => default "" (sig_action sig) :: emitted_actions rest
  | None :: rest => emitted_actions rest
  end.

(** No two neighbours of the list are equal. *)
Fixpoint no_repeat (l : list string) : Prop :=
  match l with
  | a :: (b :: _) as rest => a <> b /\ no_repeat rest
  | _ => True
  end.

(** The position a strategy is in right after emitting [action]. *)
Definition position_after (action : string) : option Side :=
  if String.eqb action "buy" then Some long
  else if String.eqb action "short" then Some short
  else None.

Section Emission.

Variable datetime : Type.
Variable isoformat : datetime -> string.

(** The four ways in which the if/elif chain emits a signal. *)
Inductive emission (st : State) (c s : Q) (d : datetime)
    : Signal -> State -> Prop :=
| emit_buy :
    s < c -> current_position st <> Some long ->
    emission st c s d (make_signal datetime isoformat st "buy" c d) (set_position (Some long) st)
| emit_short :
    c < s -> current_position st <> Some short ->
    emission st c s d (make_signal datetime isoformat st "short" c d)
             (set_position (Some short) st)
| emit_sell :
    c == s -> current_position st = Some long ->
    emission st c s d (make_signal datetime isoformat st "sell" c d) (set_position None st)
| emit_cover :
    c == s -> current_position st = Some short ->
    emission st c s d (make_signal datetime isoformat st "cover" c d) (set_position None st).

End Emission.

End StrategyTrace.

(** ** Histories of the risk manager *)

Module RiskManagerTrace.

Import RiskManager.
Local Open Scope Q_scope.

(** A call made on a risk manager. *)
Inductive Call :=
| UpdatePrice (instrument : string) (price : Q)
| UpdatePriceNaN (price : Q)
| ApplyRiskRules (signal_info : Signal).

Definition call (rm : State) (c : Call) : State :=
  match c with
  | UpdatePrice instrument price => update_price instrument price rm
  | UpdatePriceNaN price => update_price_nan price rm
  | ApplyRiskRules signal_info => snd (apply_risk_rules rm signal_info)
  end.

(** The state after a sequence of calls. *)
Definition calls (rm : State) (cs : list Call) : State := foldl call rm cs.

(** The drawdown is within the limit and no stored reason is the
    drawdown reason. *)
Definition drawdown_unused (rm : State) : Prop :=
  get_current_drawdown rm <= max_drawdown rm /\
  current_drawdown rm = 0 /\
  forall k, no_trade_reasons rm !! k <> Some Drawdown_limit_exceeded.

End RiskManagerTrace.

(** ** The portfolio's books *)

Module PortfolioBook.

Import PortfolioManager.
Local Open Scope Q_scope.

(** [get_pnl]: realized plus freshly computed unrealized P&L. *)
Definition get_pnl (pm : State) : Q * State :=
  let '(unrealized, pm1) := calculate_unrealized_pnl pm in
  (realized_pnl pm1 + unrealized, pm1).

(** What a position cost: its signed size at its entry price. *)
Definition position_cost (p : Position) : Q := pos_size p * entry_price p.

(** The cost of all open positions. *)
Definition book_cost (m : gmap string Position) : Q :=
  map_fold (fun _ p acc => acc + position_cost p) 0 m.

(** Cash plus the cost of what is held is the starting cash plus what
    has been realized. *)
Definition balanced (pm : State) : Prop :=
  cash pm + book_cost (positions pm) == starting_cash pm + realized_pnl pm.

(** Realized P&L is the sum of the ledger's net profits. *)
Definition ledger_sums (pm : State) : Prop :=
  realized_pnl pm == sum (map net_profit (trades pm)).

(** The last equity entry is the cash, nothing is unrealized and there
    is no market data. *)
Definition marked_at_cost (pm : State) : Prop :=
  market_data pm = ∅ /\
  exists e, last (equity_curve pm) = Some e /\ e == cash pm.

Section Errors.

Variable Timestamp : string -> option PdTimestamp.

(** Handling [ev] in state [pm] does not end in the [except] branch of
    [update_positions]: nothing is logged as an error there. *)
Definition handled_without_error (pm : State) (ev : Event) : bool :=
  negb (is_fill pm ev) ||
  match snd (update_positions_try Timestamp pm (event_trade pm ev)) with
  | Done => true
  | Raised => false
  end.

(** No event of the run ends in the [except] branch of
    [update_positions]. *)
Fixpoint run_without_error (pm : State) (evs : list Event) : bool :=
  match evs with
  | [] => true
  | ev :: rest =>
      handled_without_error pm ev &&
      run_without_error (handle Timestamp pm ev) rest
  end.

End Errors.

End PortfolioBook.

(** ** The receivers downstream of the strategy

    [events.py] wires the stages through blinker signals; a [send] calls
    the connected receivers at once.  With one risk manager, one order
    handler and one portfolio manager alive, as [_setup_components] of
    the runner creates them, each signal downstream of the strategy has
    one receiver that changes state: [RiskManager.on_strategy_signal],
    [OrderHandler.on_order_request] and
    [PortfolioManager.on_order_filled]. *)

Module Pipeline.

Local Open Scope Q_scope.

Record State := mkState {
  risk_manager : RiskManager.State;
  order_handler : OrderHandler.State;
  portfolio : PortfolioManager.State
}.

(** The filled-order dict as [PortfolioManager.on_order_filled] reads
    it: [execute_order] has put a ['time'] in it and no ['reason']. *)
Definition order_data (f : OrderHandler.FilledOrder)
    : PortfolioManager.OrderData :=
  {| PortfolioManager.od_instrument := OrderHandler.instrument f;
     PortfolioManager.od_action := OrderHandler.action f;
     PortfolioManager.od_size := OrderHandler.size f;
     PortfolioManager.od_filled_price := OrderHandler.filled_price f;
     PortfolioManager.od_time := Some (OrderHandler.time f);
     PortfolioManager.od_reason := None |}.

Section Bus.

Variable Timestamp : string -> option PortfolioManager.PdTimestamp.

(** [RiskManager.on_strategy_signal] with the receivers it reaches: an
    accepted order is sent to [OrderHandler.on_order_request], whose
    fill, if any, is sent to [PortfolioManager.on_order_filled].  [now]
    is the clock reading of [execute_order]. *)
Definition on_strategy_signal (now : string) (st : State)
    (signal_info : Signal) : State :=
  let '(order, rm) :=
    RiskManager.apply_risk_rules (risk_manager st) signal_info in
  match order with
  | None =>
      {| risk_manager := rm; order_handler := order_handler st;
         portfolio := portfolio st |}
  | Some o =>
      let '(oh, fill) :=
        OrderHandler.on_order_request now (order_handler st) o in
      match fill with
      | None =>
          {| risk_manager := rm; order_handler := oh;
             portfolio := portfolio st |}
      | Some f =>
          {| risk_manager := rm; order_handler := oh;
             portfolio :=
               PortfolioManager.on_order_filled Timestamp now
                 (portfolio st) (order_data f) |}
      end
  end.

End Bus.

End Pipeline.

(** ** backtest_runner.py *)

Module BacktestRunner.

Local Open Scope Q_scope.

(** The components set up by [_setup_components].  The risk manager is
    one object shared with the market analyzer, so it is kept once. *)
Record State := mkState {
  indicator_window : Z;
  buffer : list MarketAnalyzer.Bar;
  risk_mgr : RiskManager.State;
  strategy : Strategy.State;
  order_handler : OrderHandler.State;
  portfolio : PortfolioManager.State
}.

(** [self.market_analyzer], with its reference to the risk manager. *)
Definition market_analyzer (st : State) : MarketAnalyzer.State :=
  {| MarketAnalyzer.indicator_window := indicator_window st;
     MarketAnalyzer.buffer := buffer st;
     MarketAnalyzer.risk_manager := Some (risk_mgr st) |}.

Definition set_market_analyzer (ma : MarketAnalyzer.State) (st : State)
    : State :=
  {| indicator_window := MarketAnalyzer.indicator_window ma;
     buffer := MarketAnalyzer.buffer ma;
     risk_mgr := default (risk_mgr st) (MarketAnalyzer.risk_manager ma);
     strategy := strategy st;
     order_handler := order_handler st;
     portfolio := portfolio st |}.

Definition set_strategy (s : Strategy.State) (st : State) : State :=
  {| indicator_window := indicator_window st; buffer := buffer st;
     risk_mgr := risk_mgr st; strategy := s;
     order_handler := order_handler st; portfolio := portfolio st |}.

Definition set_risk_mgr (rm : RiskManager.State) (st : State) : State :=
  {| indicator_window := indicator_window st; buffer := buffer st;
     risk_mgr := rm; strategy := strategy st;
     order_handler := order_handler st; portfolio := portfolio st |}.

Section ProcessBar.

Variable datetime : Type.
Variable fromisoformat : string -> option datetime.
Variable isoformat : datetime -> string.

(** The receivers connected to [market_update_signal] when
    [on_market_data] sends it: which they are is the state of the
    blinker signal at run time.  They may change any component; the
    boolean tells whether one of them raised. *)
Variable receivers : State -> MarketAnalyzer.MarketUpdate -> State * bool.

(** The dict [bar.data] as the strategy reads it: the raw bar of the
    feed, which has a [time] and a [close] and no [sma]. *)
Definition current_bar (bar : MarketAnalyzer.Bar) : Strategy.Bar datetime :=
  {| Strategy.bar_time := Strategy.TimeStr (MarketAnalyzer.time bar);
     Strategy.bar_close := MarketAnalyzer.close bar;
     Strategy.bar_sma := None |}.

(** [process_bar].  [data] is [bar.data] ([None] when it is empty); the
    second component is the [execution_result] of step 4, if the method
    gets that far.  The body runs under [try/except Exception]. *)
Definition process_bar (utcnow : string) (st : State)
    (data : option MarketAnalyzer.Bar)
    : State * option OrderHandler.FilledOrder :=
  match data with
  | None => (st, None)
  | Some bar =>
      match MarketAnalyzer.close bar with
      | None => (st, None)
      | Some _ =>
          (* Step 1: analyze market data *)
          let '(ma, analysis) :=
            MarketAnalyzer.on_market_data (market_analyzer st) bar in
          let st1 := set_market_analyzer ma st in
          match analysis with
          | inl _ => (st1, None)
          | inr update =>
              let '(st2, raised) := receivers st1 update in
              if (raised : bool) then (st2, None)
              else
                (* Step 2: generate trading signal, from [bar.data] *)
                let '(signal, strat) :=
                  Strategy.generate_signal datetime fromisoformat isoformat
                    (strategy st2) (current_bar bar) in
                let st3 := set_strategy strat st2 in
                match signal with
                | None => (st3, None)
                | Some sig =>
                    (* Step 3: apply risk rules *)
                    let '(order, rm) :=
                      RiskManager.apply_risk_rules (risk_mgr st3) sig in
                    let st4 := set_risk_mgr rm st3 in
                    match order with
                    | None => (st4, None)
                    | Some o =>
                        (* Step 4: execute order *)
                        (st4, Some (OrderHandler.execute_order utcnow o))
                    end
                end
          end
      end
  end.

End ProcessBar.

End BacktestRunner.

(** * Worked examples

    Concrete inputs on which the statements below are instantiated. *)

Module Examples.

Local Open Scope Q_scope.

(** A risk manager with the default limits that has seen a price of 10. *)
Definition example_risk_manager : RiskManager.State :=
  RiskManager.update_price "NG" 10
    (RiskManager.init 100000 (1 # 5) (1 # 100) (5 # 100) (5 # 100)).

Definition example_short_signal : Signal :=
  {| sig_action := Some "short";
     sig_instrument := Some "NG";
     sig_size := 1000;
     sig_price := Some 10;
     sig_time := "2023-04-20T00:00:00" |}.

(** A raw bar of the feed, flat at [c]. *)
Definition example_raw_bar (t : string) (c : Q) : MarketAnalyzer.Bar :=
  {| MarketAnalyzer.time := t;
     MarketAnalyzer.open := c;
     MarketAnalyzer.high := c;
     MarketAnalyzer.low := c;
     MarketAnalyzer.close := Some c;
     MarketAnalyzer.volume := 1;
     MarketAnalyzer.instrument := None |}.

(** An enriched bar as the strategy reads it; datetimes are stood for by
    their ISO strings. *)
Definition example_bar (t : string) (c s : Q) : Strategy.Bar string :=
  {| Strategy.bar_time := Strategy.TimeObj t;
     Strategy.bar_close := Some c;
     Strategy.bar_sma := Some s |}.

Definition example_fill (a : string) (price sz : Q)
    : OrderHandler.FilledOrder :=
  {| OrderHandler.instrument := "NG";
     OrderHandler.filled_price := price;
     OrderHandler.size := sz;
     OrderHandler.time := "2023-04-20T00:00:00";
     OrderHandler.action := a;
     OrderHandler.stop_loss := 0;
     OrderHandler.take_profit := 0 |}.

(** A timestamp parser that knows two dates, one of them also with a
    UTC offset, and reads the empty string as [NaT]. *)
Definition example_Timestamp (s : string)
    : option PortfolioManager.PdTimestamp :=
  if String.eqb s "" then Some PortfolioManager.NaT
  else if String.eqb s "2023-04-20"
  then Some (PortfolioManager.Instant 1681948800000000000 false)
  else if String.eqb s "2023-04-20T00:00:00+00:00"
  then Some (PortfolioManager.Instant 1681948800000000000 true)
  else if String.eqb s "2023-04-23"
  then Some (PortfolioManager.Instant 1682208000000000000 false)
  else None.

Definition example_order (a : string) (price sz : Q) (t : string)
    : PortfolioManager.OrderData :=
  {| PortfolioManager.od_instrument := "NG";
     PortfolioManager.od_action := a;
     PortfolioManager.od_size := sz;
     PortfolioManager.od_filled_price := price;
     PortfolioManager.od_time := Some t;
     PortfolioManager.od_reason := None |}.

(** Five units bought at 10 on 2023-04-20. *)
Definition example_long : PortfolioManager.State :=
  PortfolioManager.on_order_filled example_Timestamp "2023-04-20"
    (PortfolioManager.init 100000)
    (example_order "buy" 10 5 "2023-04-20").

Definition example_position : PortfolioManager.Position :=
  {| PortfolioManager.pos_size := 0 + 5;
     PortfolioManager.entry_price := 10;
     PortfolioManager.entry_time := "2023-04-20" |}.

(** A sell that should close the example position, with a timestamp
    that does not parse. *)
Definition example_bad_sell : PortfolioManager.OrderData :=
  example_order "sell" 12 5 "not a timestamp".

(** The example position closed at 12 three days later: a ledger of
    two rows and an equity curve of three entries. *)
Definition example_closed : PortfolioManager.State :=
  PortfolioManager.on_order_filled example_Timestamp "2023-04-23"
    example_long (example_order "sell" 12 5 "2023-04-23").

(** The column parser that goes with it: a column that mixes tz-aware
    and tz-naive entries raises. *)
Definition example_to_datetime (column : list string)
    : option (list (option Z)) :=
  stamps ← mapM example_Timestamp column;
  let aware t :=
    match t with PortfolioManager.Instant _ a => a | _ => false end in
  let naive t :=
    match t with PortfolioManager.Instant _ a => negb a | _ => false end in
  if existsb aware stamps && existsb naive stamps then None
  else Some (map (fun t => match t with
                           | PortfolioManager.Instant ns _ => Some ns
                           | PortfolioManager.NaT => None
                           end) stamps).

(** A stand-in for the float power of the annualized return. *)
Definition example_annual_rate (base exponent : Q) : option unit :=
  Some tt.

(** An enriched bar without an [sma]. *)
Definition example_incomplete_bar : Strategy.Bar string :=
  {| Strategy.bar_time := Strategy.TimeObj "t1";
     Strategy.bar_close := Some 12;
     Strategy.bar_sma := None |}.

(** A strategy that has gone long. *)
Definition example_long_strategy : Strategy.State :=
  Strategy.set_position (Some Strategy.long) (Strategy.init "NG" 1000).

Definition example_signal (a : string) : Signal :=
  {| sig_action := Some a;
     sig_instrument := Some "NG";
     sig_size := 1000;
     sig_price := Some 10;
     sig_time := "2023-04-20T00:00:00" |}.

(** The orders the example risk manager makes of a signal at 10. *)
Definition example_buy_order_request : Order :=
  {| ord_action := "buy"; ord_instrument := "NG";
     ord_size := 500; ord_entry_price := 10;
     ord_stop_loss := 10 * (1 - (1 # 100));
     ord_take_profit := 10 * (1 + (5 # 100)) |}.

Definition example_sell_order_request : Order :=
  {| ord_action := "sell"; ord_instrument := "NG";
     ord_size := 500; ord_entry_price := 10;
     ord_stop_loss := 10 * (1 + (1 # 100));
     ord_take_profit := 10 * (1 - (5 # 100)) |}.

(** A raw bar that names its instrument. *)
Definition example_instrument_bar (t : string) (c : Q) : MarketAnalyzer.Bar :=
  {| MarketAnalyzer.time := t;
     MarketAnalyzer.open := c;
     MarketAnalyzer.high := c;
     MarketAnalyzer.low := c;
     MarketAnalyzer.close := Some c;
     MarketAnalyzer.volume := 1;
     MarketAnalyzer.instrument := Some "NG" |}.

(** The fills of the round trip of [example_closed]. *)
Definition example_events : list PortfolioManager.Event :=
  [PortfolioManager.OrderFilled "2023-04-20"
     (example_order "buy" 10 5 "2023-04-20");
   PortfolioManager.OrderFilled "2023-04-23"
     (example_order "sell" 12 5 "2023-04-23")].

(** A stop at 9 on the example instrument. *)
Definition example_stop : PortfolioManager.StopInfo :=
  {| PortfolioManager.stop_instrument := "NG";
     PortfolioManager.stop_reason := "stop_loss";
     PortfolioManager.stop_level := 9 |}.

(** The three stages downstream of the strategy, freshly set up. *)
Definition example_pipeline : Pipeline.State :=
  {| Pipeline.risk_manager := example_risk_manager;
     Pipeline.order_handler := OrderHandler.init 100000 1000;
     Pipeline.portfolio := PortfolioManager.init 100000 |}.

End Examples.

(** * Properties *)

(** ** Python numbers *)

Module PyNumFacts.

Lemma Qltb_lt a b : Qltb a b = true <-> (a < b)%Q.
Proof.
  unfold Qltb. rewrite negb_true_iff.
  split.
  - intros H. apply Qnot_le_lt. intros Hle.
    apply Qle_bool_iff in Hle. congruence.
  - intros H. destruct (Qle_bool b a) eqn:E; [|reflexivity].
    apply Qle_bool_iff in E. exfalso. exact (Qlt_not_le _ _ H E).
Qed.

Lemma Qltb_ge a b : Qltb a b = false <-> (b <= a)%Q.
Proof.
  unfold Qltb. rewrite negb_false_iff. apply Qle_bool_iff.
Qed.

Lemma Qeq_bool_true a b : Qeq_bool a b = true <-> (a == b)%Q.
Proof. apply Qeq_bool_iff. Qed.

Lemma Qeq_bool_false a b : Qeq_bool a b = false <-> ~ (a == b)%Q.
Proof.
  split.
  - intros H Heq. apply Qeq_bool_iff in Heq. congruence.
  - intros H. destruct (Qeq_bool a b) eqn:E; [|reflexivity].
    apply Qeq_bool_iff in E. contradiction.
Qed.

End PyNumFacts.

Import PyNumFacts.

(** ** Risk validation *)

Module RiskManagerProps.

Import Examples.
Import RiskManager.
Local Open Scope Q_scope.

Lemma action_in_buy_sell_false (a : option string) :
  a <> Some "buy" -> a <> Some "sell" -> action_in_buy_sell a = false.
Proof.
  intros Hb Hs. destruct a as [a|]; [|reflexivity]. simpl.
  apply orb_false_iff. split; apply String.eqb_neq; congruence.
Qed.

(** Whatever check fires first, a signal whose action is not accepted
    yields no order. *)
Lemma rejected_without_order rm sig :
  action_in_buy_sell (sig_action sig) = false ->
  fst (apply_risk_rules rm sig) = None.
Proof.
  intros Ha. unfold apply_risk_rules.
  repeat (match goal with
          | |- context [if ?c then _ else _] => destruct c eqn:?
          | |- context [match ?c with Some _ => _ | None => _ end] =>
              destruct c eqn:?
          end; simpl; try reflexivity).
  all: rewrite Ha in *; discriminate.
Qed.

(** When the earlier checks pass, the action check is the one that
    fires and its reason is the one recorded. *)
Lemma invalid_action_recorded rm sig :
  action_in_buy_sell (sig_action sig) = false ->
  passes_earlier_checks rm sig ->
  exists instr,
    sig_instrument sig = Some instr /\
    no_trade_reasons (snd (apply_risk_rules rm sig)) !! instr
    = Some (Invalid_action (sig_action sig)).
Proof.
  intros Ha (Hdd & Hinstr & p & Hp & Hpos & Hmis & Hsize).
  destruct (sig_instrument sig) as [instr|] eqn:Hi; [|discriminate].
  exists instr. split; [reflexivity|].
  unfold apply_risk_rules.
  apply Qltb_ge in Hdd. rewrite Hdd, Hi, Hinstr, Hp.
  assert (Ht : truthy p = true).
  { unfold truthy. apply negb_true_iff, Qeq_bool_false.
    intros Hz. rewrite Hz in Hpos. exact (Qlt_irrefl _ Hpos). }
  assert (Hle : Qle_bool p 0 = false).
  { destruct (Qle_bool p 0) eqn:E; [|reflexivity].
    apply Qle_bool_iff in E. exfalso. exact (Qlt_not_le _ _ Hpos E). }
  rewrite Ht, Hle, Hmis. simpl.
  assert (Hs : (position_size rm p <=? 0)%Z = false) by (apply Z.leb_gt; lia).
  rewrite Hs, Ha. simpl.
  unfold log_no_trade_reason. rewrite Hi. simpl.
  apply lookup_insert_eq.
Qed.

(** C1.  A signal whose action is neither ['buy'] nor ['sell'] gets no
    order from [apply_risk_rules]; and when it passes the drawdown,
    instrument, price and size checks, the reason recorded for its
    instrument is the invalid-action reason. *)
Theorem apply_risk_rules_rejects_other_actions rm sig :
  sig_action sig <> Some "buy" ->
  sig_action sig <> Some "sell" ->
  fst (apply_risk_rules rm sig) = None /\
  (passes_earlier_checks rm sig ->
   exists instr,
     sig_instrument sig = Some instr /\
     no_trade_reasons (snd (apply_risk_rules rm sig)) !! instr
     = Some (Invalid_action (sig_action sig))).
Proof.
  intros Hb Hs.
  pose proof (action_in_buy_sell_false _ Hb Hs) as Ha.
  split.
  - apply rejected_without_order, Ha.
  - apply invalid_action_recorded, Ha.
Qed.

(** In particular the short-side signals of the crossover strategy. *)
Corollary short_and_cover_rejected (datetime : Type) fromisoformat isoformat
    st (bar : Strategy.Bar datetime) sig st' rm :
  Strategy.generate_signal datetime fromisoformat isoformat st bar
  = (Some sig, st') ->
  sig_action sig = Some "short" \/ sig_action sig = Some "cover" ->
  fst (apply_risk_rules rm sig) = None.
Proof.
  intros _ [H|H]; apply rejected_without_order; rewrite H; reflexivity.
Qed.

(** A ['buy'] at the known price is sized at 5% of capital. *)
Example example_buy_order :
  fst (apply_risk_rules example_risk_manager
         {| sig_action := Some "buy"; sig_instrument := Some "NG";
            sig_size := 1000; sig_price := Some 10;
            sig_time := "2023-04-20T00:00:00" |})
  = Some {| ord_action := "buy"; ord_instrument := "NG";
            ord_size := 500; ord_entry_price := 10;
            ord_stop_loss := 10 * (1 - (1 # 100));
            ord_take_profit := 10 * (1 + (5 # 100)) |}.
Proof. reflexivity. Qed.

Lemma apply_risk_rules_rejects_other_actions_witness :
  fst (apply_risk_rules example_risk_manager example_short_signal) = None /\
  exists instr,
    sig_instrument example_short_signal = Some instr /\
    no_trade_reasons
      (snd (apply_risk_rules example_risk_manager example_short_signal))
      !! instr
    = Some (Invalid_action (Some "short")).
Proof.
  destruct (apply_risk_rules_rejects_other_actions
              example_risk_manager example_short_signal)
    as [Hnone Hreason]; [discriminate | discriminate |].
  split; [exact Hnone|].
  apply Hreason.
  split; [vm_compute; discriminate|].
  split; [reflexivity|].
  exists 10. split; [reflexivity|].
  split; [reflexivity|].
  split; [reflexivity|].
  vm_compute. reflexivity.
Defined.

End RiskManagerProps.

(** ** Indicator engine *)

Module MarketAnalyzerProps.

Import Examples.
Import MarketAnalyzer.
Local Open Scope Q_scope.

Lemma on_market_data_buffer st bar :
  buffer (fst (on_market_data st bar)) = buffer st ++ [bar] /\
  indicator_window (fst (on_market_data st bar)) = indicator_window st.
Proof.
  unfold on_market_data.
  destruct (process_data _); simpl; auto.
Qed.

Lemma run_buffer bars : forall st,
  buffer (run st bars) = buffer st ++ bars /\
  indicator_window (run st bars) = indicator_window st.
Proof.
  induction bars as [|b bars IH]; intros st; simpl.
  - rewrite app_nil_r. auto.
  - destruct (IH (fst (on_market_data st b))) as [Hb Hw].
    destruct (on_market_data_buffer st b) as [Hb1 Hw1].
    rewrite Hb, Hw, Hb1, Hw1, <- app_assoc. auto.
Qed.

(** A negative start counts from the end of the list. *)
Lemma slice_from_neg {A} (w : Z) (l : list A) :
  (0 < w)%Z -> slice_from (- w) l = drop (length l - Z.to_nat w) l.
Proof.
  intros Hw. unfold slice_from.
  assert (H : (- w <? 0)%Z = true) by (apply Z.ltb_lt; lia).
  rewrite H. f_equal. lia.
Qed.

Lemma length_slice_from_neg {A} (w : Z) (l : list A) :
  (0 < w)%Z -> (Z.of_nat (length (slice_from (- w) l)) <= w)%Z.
Proof.
  intros Hw. rewrite slice_from_neg by exact Hw.
  rewrite length_drop. lia.
Qed.

Lemma sum_closes_Some (l : list Bar) (closes : list Q) :
  map close l = map Some closes ->
  sum_closes l = Some (foldr Qplus 0 closes).
Proof.
  revert closes. induction l as [|b l IH]; intros [|c closes] H;
    simpl in *; try discriminate; [reflexivity|].
  injection H as Hc Hl. rewrite Hc, (IH _ Hl). reflexivity.
Qed.

Lemma existsb_has_close_suffix (l : list Bar) (n : nat) :
  existsb has_close (drop n l) = true -> existsb has_close l = true.
Proof.
  revert n. induction l as [|b l IH]; intros [|n] H; simpl in *;
    try discriminate; try exact H.
  rewrite (IH _ H). apply orb_true_r.
Qed.

(** The bar that arrives last is in the window, so it has a close when
    every bar of the window has one. *)
Lemma window_has_last_close (W : Z) (bars : list Bar) (bar : Bar)
    (closes : list Q) :
  (0 < W)%Z ->
  map close (drop (length (bars ++ [bar]) - Z.to_nat W) (bars ++ [bar]))
  = map Some closes ->
  has_close bar = true.
Proof.
  intros Hpos Hcl.
  assert (Hin : In (close bar) (map Some closes)).
  { rewrite <- Hcl. apply in_map.
    rewrite drop_app_le by (rewrite length_app; simpl; lia).
    apply in_or_app. right. left. reflexivity. }
  apply in_map_iff in Hin as (c & Hc & _).
  unfold has_close. rewrite <- Hc. reflexivity.
Qed.

(** C3.  With [bars] processed so far and [bar] arriving: while fewer
    than [W] bars are buffered the latest raw bar is returned as it is,
    without an [sma]; once at least [W] bars are buffered the returned
    bar carries the arithmetic mean of the closes of the last [W] bars,
    [bar] included (and a NaN under ['instrument'] when [bar] has none
    and another buffered bar has one). *)
Theorem on_market_data_sma (W : Z) rm (bars : list Bar) (bar : Bar) :
  let st := run (init W rm) bars in
  let all := bars ++ [bar] in
  ((Z.of_nat (length all) < W)%Z ->
   exists h,
     snd (on_market_data st bar)
     = inr {| data := {| raw := bar; nan_close := false;
                         nan_instrument := false; sma := None |};
              history := h |}) /\
  ((0 < W <= Z.of_nat (length all))%Z ->
   forall closes : list Q,
     map close (drop (length all - Z.to_nat W) all) = map Some closes ->
     exists h m,
       snd (on_market_data st bar)
       = inr {| data := {| raw := bar; nan_close := false;
                           nan_instrument :=
                             negb (has_instrument bar)
                             && existsb has_instrument all;
                           sma := Some (Num m) |};
                history := h |} /\
       m == foldr Qplus 0 closes / inject_Z W).
Proof.
  intros st all.
  destruct (run_buffer bars (init W rm)) as [Hbuf Hwin].
  simpl in Hbuf, Hwin. fold st in Hbuf, Hwin.
  split.
  - intros Hlt. unfold on_market_data, process_data. simpl.
    rewrite Hbuf, Hwin. fold all.
    apply Z.ltb_lt in Hlt. rewrite Hlt.
    unfold all at 1. rewrite last_snoc. simpl. eauto.
  - intros [Hpos Hge] closes Hcl.
    pose proof (window_has_last_close W bars bar closes Hpos Hcl) as Hlast.
    unfold on_market_data, process_data. simpl.
    rewrite Hbuf, Hwin. fold all.
    assert (Hlt : (Z.of_nat (length all) <? W)%Z = false)
      by (apply Z.ltb_ge; lia).
    rewrite Hlt.
    assert (Hex : existsb has_close all = true).
    { apply (existsb_has_close_suffix _ (length all - Z.to_nat W)).
      destruct (drop (length all - Z.to_nat W) all) as [|b l] eqn:Hd.
      - apply (f_equal length) in Hd. rewrite length_drop in Hd.
        simpl in Hd. lia.
      - destruct closes as [|c closes]; [discriminate|].
        simpl in Hcl. injection Hcl as Hc _.
        simpl. unfold has_close. rewrite Hc. reflexivity. }
    rewrite Hex. simpl.
    assert (Hneg : (W <? 0)%Z = false) by (apply Z.ltb_ge; lia).
    rewrite Hneg.
    unfold all at 1. rewrite last_snoc. fold all.
    unfold rolling_mean_last.
    assert (Hle : (W <=? 0)%Z = false) by (apply Z.leb_gt; lia).
    rewrite Hle, (slice_from_neg W all Hpos), (sum_closes_Some _ _ Hcl).
    rewrite Hlast. simpl.
    eexists _, _; (split; [reflexivity|]); reflexivity.
Qed.

Lemma on_market_data_sma_witness :
  (exists h,
     snd (on_market_data (run (init 2 None) []) (example_raw_bar "t1" 10))
     = inr {| data := {| raw := example_raw_bar "t1" 10;
                         nan_close := false; nan_instrument := false;
                         sma := None |};
              history := h |}) /\
  (exists h m,
     snd (on_market_data (run (init 2 None) [example_raw_bar "t1" 10])
                         (example_raw_bar "t2" 12))
     = inr {| data := {| raw := example_raw_bar "t2" 12;
                         nan_close := false; nan_instrument := false;
                         sma := Some (Num m) |};
              history := h |} /\
     m == 11).
Proof.
  split.
  - apply (proj1 (on_market_data_sma 2 None [] (example_raw_bar "t1" 10))).
    simpl. lia.
  - destruct (proj2 (on_market_data_sma 2 None [example_raw_bar "t1" 10]
                       (example_raw_bar "t2" 12))
                ltac:(simpl; lia) [10; 12] eq_refl)
      as (h & m & Hres & Hm).
    exists h, m. split; [exact Hres|].
    rewrite Hm. reflexivity.
Defined.

(** A bar without an instrument that arrives after one that has it,
    with the window filled: the row of the frame has NaN under
    ['instrument'], and the close is stored under that key, beside the
    price of "NG". *)
Example example_nan_instrument :
  let st := run (init 1 (Some example_risk_manager))
                [example_instrument_bar "t1" 11] in
  RiskManager.latest_price_nan
    <$> risk_manager (fst (on_market_data st (example_raw_bar "t2" 12)))
  = Some (Some 12) /\
  (fun rm => RiskManager.latest_price rm !! "NG")
    <$> risk_manager (fst (on_market_data st (example_raw_bar "t2" 12)))
  = Some (Some 11).
Proof. vm_compute. auto. Qed.

(** The buffer itself is never trimmed: with window 1, two processed
    bars leave two bars in it. *)
Lemma buffer_exceeds_window :
  ~ (Z.of_nat (length (buffer (run (init 1 None)
                                   [example_raw_bar "t1" 10;
                                    example_raw_bar "t2" 12])))
     <= indicator_window (init 1 None))%Z.
Proof. vm_compute. intros H. apply H. reflexivity. Qed.

(** C6 (amended).  For a positive window [W], the history window that
    [on_market_data] hands to the next stage never holds more than [W]
    bars; the buffer it is cut from keeps every processed bar. *)
Theorem history_bounded_buffer_grows (W : Z) rm (bars : list Bar)
    (bar : Bar) :
  (0 < W)%Z ->
  let st := run (init W rm) bars in
  buffer (fst (on_market_data st bar)) = bars ++ [bar] /\
  forall upd,
    snd (on_market_data st bar) = inr upd ->
    (Z.of_nat (length (history upd)) <= W)%Z /\
    history upd
    = drop (length (bars ++ [bar]) - Z.to_nat W) (bars ++ [bar]).
Proof.
  intros Hpos st.
  destruct (run_buffer bars (init W rm)) as [Hbuf Hwin].
  simpl in Hbuf, Hwin. fold st in Hbuf, Hwin.
  split.
  - rewrite (proj1 (on_market_data_buffer st bar)), Hbuf. reflexivity.
  - intros upd. unfold on_market_data.
    rewrite Hbuf, Hwin.
    destruct (process_data _) as [e|enriched]; simpl; [discriminate|].
    intros H. injection H as <-. simpl.
    destruct (Z.of_nat (length (bars ++ [bar])) <? W)%Z eqn:Hlt.
    + apply Z.ltb_lt in Hlt. split; [lia|].
      replace (length (bars ++ [bar]) - Z.to_nat W)%nat with 0%nat by lia.
      reflexivity.
    + split; [apply length_slice_from_neg, Hpos|].
      apply slice_from_neg, Hpos.
Qed.

Lemma history_bounded_buffer_grows_witness :
  buffer (fst (on_market_data (run (init 1 None) [example_raw_bar "t1" 10])
                              (example_raw_bar "t2" 12)))
  = [example_raw_bar "t1" 10; example_raw_bar "t2" 12] /\
  forall upd,
    snd (on_market_data (run (init 1 None) [example_raw_bar "t1" 10])
                        (example_raw_bar "t2" 12)) = inr upd ->
    (Z.of_nat (length (history upd)) <= 1)%Z /\
    history upd = [example_raw_bar "t2" 12].
Proof.
  exact (history_bounded_buffer_grows 1 None [example_raw_bar "t1" 10]
           (example_raw_bar "t2" 12) ltac:(lia)).
Defined.

End MarketAnalyzerProps.

(** ** Signal generation *)

Module StrategyProps.

Import Examples.
Import Strategy.
Local Open Scope Q_scope.

Section Crossover.

Variable datetime : Type.
Variable fromisoformat : string -> option datetime.
Variable isoformat : datetime -> string.

Local Abbreviation generate_signal :=
  (generate_signal datetime fromisoformat isoformat).
Local Abbreviation crossover := (crossover datetime isoformat).
Local Abbreviation run := (run datetime fromisoformat isoformat).
Local Abbreviation usable_time := (usable_time datetime fromisoformat).
Local Abbreviation close_above_sma :=
  (close_above_sma datetime fromisoformat).

Lemma generate_signal_complete st b c s d :
  bar_close b = Some c -> bar_sma b = Some s ->
  usable_time (bar_time b) d ->
  generate_signal st b = crossover st c s d.
Proof.
  intros Hc Hs Ht. unfold Strategy.generate_signal. rewrite Hc, Hs.
  destruct Ht as [-> | (str & -> & Hne & Hparse)]; [reflexivity|].
  apply String.eqb_neq in Hne. rewrite Hne, Hparse. reflexivity.
Qed.

Lemma crossover_above st c s d :
  s < c ->
  crossover st c s d =
  if is_long (current_position st) then (None, st)
  else (Some (make_signal datetime isoformat st "buy" c d),
        set_position (Some long) st).
Proof.
  intros Hlt. unfold Strategy.crossover.
  apply Qltb_lt in Hlt. rewrite Hlt.
  destruct (is_long (current_position st)); reflexivity.
Qed.

(** While long, bars above the sma produce nothing and change
    nothing. *)
Lemma run_long_silent bars : forall st,
  current_position st = Some long ->
  Forall close_above_sma bars ->
  run st bars = (repeat None (length bars), st).
Proof.
  induction bars as [|b bars IH]; intros st Hlong Hall; [reflexivity|].
  inversion Hall as [|? ? (c & s & d & Hc & Hs & Ht & Hlt) Hrest]; subst.
  simpl.
  rewrite (generate_signal_complete st b c s d Hc Hs Ht).
  rewrite (crossover_above st c s d Hlt), Hlong. simpl.
  rewrite (IH st Hlong Hrest). reflexivity.
Qed.

(** C9.  Starting flat, a sequence of bars whose close is strictly
    above the sma yields exactly one signal, a ['buy'] on the first
    bar, which moves the state to long; no later bar of the sequence
    yields a signal. *)
Theorem one_buy_while_above_sma st (b : Bar datetime)
    (rest : list (Bar datetime)) :
  current_position st = None ->
  Forall close_above_sma (b :: rest) ->
  exists sig,
    fst (run st (b :: rest)) = Some sig :: repeat None (length rest) /\
    sig_action sig = Some "buy" /\
    current_position (snd (generate_signal st b)) = Some long /\
    current_position (snd (run st (b :: rest))) = Some long.
Proof.
  intros Hflat Hall.
  inversion Hall as [|? ? (c & s & d & Hc & Hs & Ht & Hlt) Hrest]; subst.
  exists (make_signal datetime isoformat st "buy" c d).
  simpl.
  rewrite (generate_signal_complete st b c s d Hc Hs Ht).
  rewrite (crossover_above st c s d Hlt), Hflat. simpl.
  rewrite (run_long_silent rest (set_position (Some long) st)
             eq_refl Hrest).
  simpl. auto.
Qed.

(** The short side of the strategy meets the risk manager: a bar below
    the sma makes a strategy that is not short emit ['short'], which
    [apply_risk_rules] turns down whatever its state. *)
Lemma short_entry_rejected st (b : Bar datetime) c s d rm :
  bar_close b = Some c -> bar_sma b = Some s ->
  usable_time (bar_time b) d -> c < s ->
  current_position st <> Some short ->
  exists sig,
    fst (generate_signal st b) = Some sig /\
    sig_action sig = Some "short" /\
    fst (RiskManager.apply_risk_rules rm sig) = None.
Proof.
  intros Hc Hs Ht Hlt Hpos.
  rewrite (generate_signal_complete st b c s d Hc Hs Ht).
  unfold Strategy.crossover.
  assert (Habove : Qltb s c = false)
    by (apply Qltb_ge, Qlt_le_weak, Hlt).
  apply Qltb_lt in Hlt. rewrite Habove, Hlt.
  assert (Hns : is_short (current_position st) = false).
  { destruct (current_position st) as [[|]|]; try reflexivity.
    congruence. }
  rewrite Hns. simpl.
  eexists. split; [reflexivity|]. split; [reflexivity|].
  apply RiskManagerProps.rejected_without_order. reflexivity.
Qed.

End Crossover.

Lemma one_buy_while_above_sma_witness :
  exists sig,
    fst (run string Some id (init "NG" 1000)
           [example_bar "t1" 12 11; example_bar "t2" 12 11;
            example_bar "t3" 13 11])
    = [Some sig; None; None] /\
    sig_action sig = Some "buy" /\
    current_position
      (snd (generate_signal string Some id (init "NG" 1000)
              (example_bar "t1" 12 11))) = Some long /\
    current_position
      (snd (run string Some id (init "NG" 1000)
              [example_bar "t1" 12 11; example_bar "t2" 12 11;
               example_bar "t3" 13 11])) = Some long.
Proof.
  apply (one_buy_while_above_sma string Some id (init "NG" 1000)
           (example_bar "t1" 12 11)
           [example_bar "t2" 12 11; example_bar "t3" 13 11]).
  - reflexivity.
  - repeat (apply Forall_cons_2;
              [eexists _, _, _;
               (split; [reflexivity|]); (split; [reflexivity|]);
               (split; [left; reflexivity | reflexivity]) |]).
    apply Forall_nil_2.
Defined.

End StrategyProps.

(** ** The order handler's position book *)

Module OrderHandlerProps.

Import Examples.
Import OrderHandler.
Local Open Scope Q_scope.

Lemma init_all_long capital position_size :
  all_long (init capital position_size).
Proof. intros instr pos H. simpl in H. rewrite lookup_empty in H. discriminate. Qed.

Lemma update_positions_all_long st fo st' :
  all_long st -> 0 < size fo -> update_positions st fo = Some st' ->
  all_long st'.
Proof.
  intros Hinv Hsize. unfold update_positions.
  destruct (String.eqb (action fo) "buy").
  - destruct (open_positions st !! instrument fo) as [existing|] eqn:Hlk.
    + destruct (Qeq_bool _ 0); [discriminate|].
      intros Hst; injection Hst as <-. intros instr pos. simpl.
      rewrite lookup_insert. case_decide; [|apply Hinv].
      intros Hs; injection Hs as <-. simpl.
      pose proof (Hinv _ _ Hlk) as Hex.
      rewrite <- (Qplus_0_r 0). apply Qplus_lt_le_compat; [exact Hex|].
      apply Qlt_le_weak, Hsize.
    + intros Hst; injection Hst as <-. intros instr pos. simpl.
      rewrite lookup_insert. case_decide; [|apply Hinv].
      intros Hs; injection Hs as <-. exact Hsize.
  - destruct (String.eqb (action fo) "sell");
      [|intros Hst; injection Hst as <-; exact Hinv].
    destruct (open_positions st !! instrument fo) as [existing|] eqn:Hlk;
      [|intros Hst; injection Hst as <-; exact Hinv].
    intros Hst; injection Hst as <-. intros instr pos. simpl.
    destruct (Qle_bool (pos_size existing - size fo) 0) eqn:Hle.
    + rewrite lookup_delete. case_decide; [discriminate|apply Hinv].
    + rewrite lookup_insert. case_decide; [|apply Hinv].
      intros Hs; injection Hs as <-. simpl.
      apply Qnot_le_lt. intros Hc. apply Qle_bool_iff in Hc. congruence.
Qed.

(** With positive sizes on a long-only book the averaged entry price
    never divides by zero. *)
Lemma update_positions_returns st fo :
  all_long st -> 0 < size fo -> is_Some (update_positions st fo).
Proof.
  intros Hinv Hsize. unfold update_positions.
  destruct (String.eqb (action fo) "buy").
  - destruct (open_positions st !! instrument fo) as [existing|] eqn:Hlk;
      [|eauto].
    destruct (Qeq_bool _ 0) eqn:Hz; [|eauto].
    exfalso. apply Qeq_bool_true in Hz.
    pose proof (Hinv _ _ Hlk) as Hex.
    assert (Hsum : 0 < pos_size existing + size fo).
    { rewrite <- (Qplus_0_r 0). apply Qplus_lt_le_compat; [exact Hex|].
      apply Qlt_le_weak, Hsize. }
    rewrite Hz in Hsum. exact (Qlt_irrefl _ Hsum).
  - destruct (String.eqb (action fo) "sell"); [|eauto].
    destruct (open_positions st !! instrument fo); eauto.
Qed.

Lemma run_all_long fills : forall st,
  all_long st -> Forall (fun fo => 0 < size fo) fills ->
  all_long (run st fills).
Proof.
  induction fills as [|fo fills IH]; intros st Hinv Hall; [exact Hinv|].
  inversion Hall; subst. simpl. apply IH; [|assumption].
  destruct (update_positions st fo) as [st'|] eqn:Hst; simpl;
    [|exact Hinv].
  eapply update_positions_all_long; eassumption.
Qed.

(** A sell for an instrument that has no entry changes nothing. *)
Lemma sell_without_position st fo :
  action fo = "sell" -> open_positions st !! instrument fo = None ->
  update_positions st fo = Some st.
Proof.
  intros Ha Hlk. unfold update_positions. rewrite Ha, Hlk. reflexivity.
Qed.

(** C10.  After any sequence of fills of positive size, every entry of
    [open_positions] has a strictly positive size; and a ['sell'] fill
    for an instrument without an entry returns normally and leaves
    [open_positions] and the realized P&L as they were. *)
Theorem position_book_long_only capital position_size
    (fills : list FilledOrder) :
  Forall (fun fo => 0 < size fo) fills ->
  let st := run (init capital position_size) fills in
  (forall instr pos,
     open_positions st !! instr = Some pos -> 0 < pos_size pos) /\
  (forall fo,
     action fo = "sell" -> open_positions st !! instrument fo = None ->
     exists st',
       update_positions st fo = Some st' /\
       open_positions st' = open_positions st /\
       realized_pnl st' = realized_pnl st).
Proof.
  intros Hall st. split.
  - apply run_all_long; [apply init_all_long | exact Hall].
  - intros fo Ha Hlk. exists st.
    rewrite (sell_without_position st fo Ha Hlk). auto.
Qed.

Lemma position_book_long_only_witness :
  let st := run (init 100000 1000)
                [example_fill "buy" 10 5; example_fill "sell" 12 5] in
  (forall instr pos,
     open_positions st !! instr = Some pos -> 0 < pos_size pos) /\
  (forall fo,
     action fo = "sell" -> open_positions st !! instrument fo = None ->
     exists st',
       update_positions st fo = Some st' /\
       open_positions st' = open_positions st /\
       realized_pnl st' = realized_pnl st).
Proof.
  apply (position_book_long_only 100000 1000
           [example_fill "buy" 10 5; example_fill "sell" 12 5]).
  repeat (apply Forall_cons_2; [reflexivity|]). apply Forall_nil_2.
Defined.

End OrderHandlerProps.

(** ** Portfolio accounting *)

Module PortfolioManagerProps.

Import Examples.
Import PortfolioManager.
Local Open Scope Q_scope.


Section Positions.

Variable Timestamp : string -> option PdTimestamp.

Local Abbreviation update_positions := (update_positions Timestamp).


Lemma same_direction_sizes pos trade :
  0 < size trade -> same_direction pos trade ->
  ~ pos_size pos == 0 /\
  ~ pos_size pos + size_change trade == 0 /\
  Qabs (pos_size pos + size_change trade)
  == Qabs (pos_size pos) + size trade /\
  (pos_size pos * entry_price pos + size_change trade * filled_price trade)
  / (pos_size pos + size_change trade)
  == (Qabs (pos_size pos) * entry_price pos
      + size trade * filled_price trade)
     / (Qabs (pos_size pos) + size trade).
Proof.
  intros Hs [[Hpos Ha] | [Hneg Ha]]; unfold size_change.
  - rewrite Ha. simpl.
    assert (Hsum : 0 < pos_size pos + size trade).
    { rewrite <- (Qplus_0_r 0).
      apply Qplus_lt_le_compat; [exact Hpos | apply Qlt_le_weak, Hs]. }
    rewrite (Qabs_pos (pos_size pos)) by (apply Qlt_le_weak, Hpos).
    rewrite (Qabs_pos (pos_size pos + size trade))
      by (apply Qlt_le_weak, Hsum).
    split; [|split; [|split]].
    + intros E. rewrite E in Hpos. exact (Qlt_irrefl _ Hpos).
    + intros E. rewrite E in Hsum. exact (Qlt_irrefl _ Hsum).
    + reflexivity.
    + reflexivity.
  - apply String.eqb_neq in Ha. rewrite Ha.
    assert (Hsum : pos_size pos + - size trade < 0).
    { rewrite <- (Qplus_0_r 0).
      apply Qplus_lt_le_compat; [exact Hneg|].
      apply Qlt_le_weak. rewrite <- (Qopp_involutive 0).
      apply Qopp_lt_compat. exact Hs. }
    rewrite (Qabs_neg (pos_size pos)) by (apply Qlt_le_weak, Hneg).
    rewrite (Qabs_neg (pos_size pos + - size trade))
      by (apply Qlt_le_weak, Hsum).
    assert (Hnz : ~ pos_size pos + - size trade == 0).
    { intros E. rewrite E in Hsum. exact (Qlt_irrefl _ Hsum). }
    split; [|split; [|split]].
    + intros E. rewrite E in Hneg. exact (Qlt_irrefl _ Hneg).
    + exact Hnz.
    + ring.
    + field. split.
      * intros E. apply Hnz.
        assert (Hopp : pos_size pos + - size trade
                       == - (- pos_size pos + size trade)) by ring.
        rewrite Hopp, E. reflexivity.
      * exact Hnz.
Qed.

(** C8.  A second fill of size [s2] at [p2] in the direction of an
    open position of size [s1] at [p1] leaves one position for the
    instrument, of size [s1 + s2], entered at
    [(s1*p1 + s2*p2) / (s1 + s2)], with the original entry time. *)
Theorem same_direction_fill_averages pm trade pos :
  positions pm !! instrument trade = Some pos ->
  0 < size trade ->
  same_direction pos trade ->
  let pm' := fst (update_positions pm trade) in
  exists pos',
    positions pm' !! instrument trade = Some pos' /\
    pos_size pos' = pos_size pos + size_change trade /\
    Qabs (pos_size pos') == Qabs (pos_size pos) + size trade /\
    entry_price pos'
    == (Qabs (pos_size pos) * entry_price pos
        + size trade * filled_price trade)
       / (Qabs (pos_size pos) + size trade) /\
    entry_time pos' = entry_time pos /\
    (forall other, other <> instrument trade ->
                   positions pm' !! other = positions pm !! other).
Proof.
  intros Hlk Hs Hdir.
  destruct (same_direction_sizes pos trade Hs Hdir)
    as (Hold & Hnew & Habs & Hprice).
  apply Qeq_bool_false in Hold. apply Qeq_bool_false in Hnew.
  unfold PortfolioManager.update_positions, update_positions_try.
  rewrite Hlk. simpl. rewrite Hold, Hnew. simpl.
  eexists. split; [apply lookup_insert_eq|]. simpl.
  split; [reflexivity|].
  split; [exact Habs|].
  split.
  - rewrite <- Hprice.
    apply Qeq_bool_false in Hnew. field. exact Hnew.
  - split; [reflexivity|].
    intros other Hne. apply lookup_insert_ne. congruence.
Qed.

(** *** The equity curve *)

Lemma update_positions_try_frame pm trade :
  let pm' := fst (fst (update_positions_try Timestamp pm trade)) in
  equity_curve pm' = equity_curve pm /\ cash pm' = cash pm /\
  trades pm' = trades pm.
Proof.
  unfold update_positions_try.
  repeat (match goal with
          | |- context [if ?c then _ else _] => destruct c
          | |- context [match ?c with Some _ => _ | None => _ end] =>
              destruct c
          end; simpl; auto).
Qed.

Lemma update_cash_frame pm trade :
  equity_curve (update_cash pm trade) = equity_curve pm /\
  positions (update_cash pm trade) = positions pm /\
  trades (update_cash pm trade) = trades pm.
Proof.
  unfold update_cash. destruct (String.eqb _ _); simpl; auto.
Qed.

Lemma update_equity_curve_appends pm :
  let pm' := update_equity_curve pm in
  equity_curve pm' = equity_curve pm ++ [cash pm' + unrealized_pnl pm'] /\
  cash pm' = cash pm /\ positions pm' = positions pm /\
  trades pm' = trades pm.
Proof. unfold update_equity_curve. simpl. auto. Qed.

Lemma process_fill_appends pm trade :
  let pm' := process_fill Timestamp pm trade in
  equity_curve pm' = equity_curve pm ++ [cash pm' + unrealized_pnl pm'] /\
  length (trades pm') = S (length (trades pm)).
Proof.
  unfold process_fill, PortfolioManager.update_positions.
  destruct (update_positions_try_frame pm trade) as (He & _ & Ht).
  destruct (update_positions_try Timestamp pm trade) as [[pm1 trade1] o].
  simpl in He, Ht.
  destruct (update_cash_frame pm1 trade1) as (He2 & _ & Ht2).
  destruct (update_equity_curve_appends (update_cash pm1 trade1))
    as (He3 & _ & _ & Ht3).
  cbn zeta in He3, Ht3. simpl fst. simpl snd. cbv iota beta.
  unfold set_trades. cbn [equity_curve cash unrealized_pnl trades].
  split.
  - rewrite He3, He2, He. reflexivity.
  - rewrite length_app, Ht3, Ht2, Ht. simpl. lia.
Qed.

Lemma handle_appends pm ev :
  let pm' := handle Timestamp pm ev in
  equity_curve pm'
  = equity_curve pm
    ++ (if is_fill pm ev then [cash pm' + unrealized_pnl pm'] else []) /\
  length (trades pm')
  = (length (trades pm) + if is_fill pm ev then 1 else 0)%nat.
Proof.
  destruct ev as [now od | now si]; simpl.
  - unfold on_order_filled.
    destruct (process_fill_appends pm (order_trade now od)) as [He Ht].
    split; [exact He | rewrite Ht; lia].
  - unfold on_stop_triggered.
    destruct (Qltb 0 (Qabs (current_size pm (stop_instrument si)))).
    + destruct (process_fill_appends pm (stop_trade now pm si)) as [He Ht].
      split; [exact He | rewrite Ht; lia].
    + rewrite app_nil_r. split; [reflexivity | lia].
Qed.

Lemma run_equity_curve evs : forall pm,
  length (equity_curve (run Timestamp pm evs))
  = (length (equity_curve pm) + fills_processed Timestamp pm evs)%nat /\
  equity_curve pm `prefix_of` equity_curve (run Timestamp pm evs) /\
  length (trades (run Timestamp pm evs))
  = (length (trades pm) + fills_processed Timestamp pm evs)%nat.
Proof.
  unfold run.
  induction evs as [|ev evs IH]; intros pm; simpl.
  - split; [lia | split; [reflexivity | lia]].
  - destruct (IH (handle Timestamp pm ev)) as (Hlen & Hpre & Htr).
    destruct (handle_appends pm ev) as [He Ht].
    cbn zeta in He, Ht.
    split; [|split].
    + rewrite Hlen, He, length_app.
      destruct (is_fill pm ev); simpl; lia.
    + etransitivity; [|exact Hpre].
      rewrite He. apply prefix_app_r. reflexivity.
    + rewrite Htr, Ht.
      destruct (is_fill pm ev); simpl; lia.
Qed.

(** C4.  The equity curve starts as the single entry [starting_cash];
    after any sequence of order fills and stop triggers its length is
    one plus the number of fills processed (each of which is also one
    row of the ledger); handling an event leaves the earlier entries in
    place and, when a fill is processed, appends cash plus unrealized
    P&L at the end. *)
Theorem equity_curve_append_only (starting_cash : Q)
    (evs : list Event) :
  equity_curve (init starting_cash) = [starting_cash] /\
  length (equity_curve (run Timestamp (init starting_cash) evs))
  = (1 + fills_processed Timestamp (init starting_cash) evs)%nat /\
  length (trades (run Timestamp (init starting_cash) evs))
  = fills_processed Timestamp (init starting_cash) evs /\
  (forall pm ev,
     let pm' := handle Timestamp pm ev in
     equity_curve pm'
     = equity_curve pm
       ++ (if is_fill pm ev then [cash pm' + unrealized_pnl pm']
           else [])) /\
  (forall pm evs',
     equity_curve pm `prefix_of` equity_curve (run Timestamp pm evs')).
Proof.
  destruct (run_equity_curve evs (init starting_cash)) as (Hlen & _ & Htr).
  split; [reflexivity|]. split; [exact Hlen|]. split; [exact Htr|]. split.
  - intros pm ev. apply handle_appends.
  - intros pm evs'. apply run_equity_curve.
Qed.

(** *** Failure of the position update *)

Lemma update_positions_try_raised pm trade :
  snd (update_positions_try Timestamp pm trade) = Raised ->
  positions (fst (fst (update_positions_try Timestamp pm trade)))
  = positions pm.
Proof.
  unfold update_positions_try.
  repeat (match goal with
          | |- context [if ?c then _ else _] => destruct c
          | |- context [match ?c with Some _ => _ | None => _ end] =>
              destruct c
          end; simpl; try discriminate; auto).
Qed.

Lemma update_positions_try_trade pm trade :
  let trade' := snd (fst (update_positions_try Timestamp pm trade)) in
  action trade' = action trade /\ size trade' = size trade /\
  filled_price trade' = filled_price trade.
Proof.
  unfold update_positions_try.
  repeat (match goal with
          | |- context [if ?c then _ else _] => destruct c
          | |- context [match ?c with Some _ => _ | None => _ end] =>
              destruct c
          end; simpl; auto).
Qed.

Lemma process_fill_effects pm trade :
  let cost := filled_price trade * size trade in
  let pm' := process_fill Timestamp pm trade in
  cash pm' = (if String.eqb (action trade) "buy" then cash pm - cost
              else cash pm + cost) /\
  (snd (update_positions_try Timestamp pm trade) = Raised ->
   positions pm' = positions pm).
Proof.
  intros cost pm'. subst pm' cost.
  unfold process_fill, PortfolioManager.update_positions.
  destruct (update_positions_try_frame pm trade) as (_ & Hc & _).
  destruct (update_positions_try_trade pm trade) as (Ha & Hs & Hp).
  pose proof (update_positions_try_raised pm trade) as Hpos.
  destruct (update_positions_try Timestamp pm trade) as [[pm1 trade1] o].
  simpl in Hc, Ha, Hs, Hp, Hpos. simpl fst. simpl snd. cbv iota beta.
  unfold set_trades, update_equity_curve, update_cash.
  rewrite Ha, Hs, Hp, Hc.
  split.
  - destruct (String.eqb (action trade) "buy"); reflexivity.
  - intros Hraised.
    destruct (String.eqb (action trade) "buy"); exact (Hpos Hraised).
Qed.

(** C7 (amended).  Handling a fill (an order fill, or a stop trigger
    that finds a position) always moves cash by price times size and
    appends one entry to the equity curve and one row to the ledger;
    when the position update raises (an unparsable entry or exit
    timestamp, say) the position map is left as it was, and cash and
    the equity curve are updated all the same. *)
Theorem fill_effects_without_rollback pm ev :
  is_fill pm ev = true ->
  let trade := event_trade pm ev in
  let cost := filled_price trade * size trade in
  let pm' := handle Timestamp pm ev in
  cash pm' = (if String.eqb (action trade) "buy" then cash pm - cost
              else cash pm + cost) /\
  equity_curve pm'
  = equity_curve pm ++ [cash pm' + unrealized_pnl pm'] /\
  length (trades pm') = S (length (trades pm)) /\
  (snd (update_positions_try Timestamp pm trade) = Raised ->
   positions pm' = positions pm).
Proof.
  intros Hfill trade cost pm'.
  destruct (handle_appends pm ev) as [He Ht]. cbn zeta in He, Ht.
  rewrite Hfill in He, Ht.
  assert (Hpm : handle Timestamp pm ev = process_fill Timestamp pm trade).
  { subst trade. destruct ev as [now od | now si]; simpl.
    - reflexivity.
    - simpl in Hfill. unfold on_stop_triggered. rewrite Hfill.
      reflexivity. }
  subst pm'.
  split; [|split; [exact He | split; [rewrite Ht; lia|]]].
  - rewrite Hpm. apply process_fill_effects.
  - rewrite Hpm. apply process_fill_effects.
Qed.

End Positions.

(** *** Performance metrics *)

Lemma foldl_Qmin_le (l : list Q) : forall a, foldl Qmin a l <= a.
Proof.
  induction l as [|x l IH]; intros a; simpl; [apply Qle_refl|].
  eapply Qle_trans; [apply IH | apply Q.le_min_l].
Qed.

Lemma max_drawdown_of_nonpos equity d :
  max_drawdown_of equity = Some d -> d <= 0.
Proof.
  destruct equity as [|x rest]; simpl; [discriminate|].
  intros H. injection H as <-.
  eapply Qle_trans; [apply foldl_Qmin_le|].
  unfold Qminus. rewrite Qplus_opp_r. apply Qle_refl.
Qed.

Lemma pf_ratio_or_inf gp gl : ratio_or_inf (pf gp gl) gp gl.
Proof.
  unfold pf, ratio_or_inf. split.
  - intros H. apply Qeq_bool_true in H. rewrite H. reflexivity.
  - intros H. apply Qeq_bool_false in H. rewrite H. simpl.
    eexists. split; reflexivity.
Qed.

Lemma retracement_ratio_or_inf net d :
  d <= 0 -> ratio_or_inf (retracement net d) net d.
Proof.
  intros Hd. unfold retracement, ratio_or_inf. split.
  - intros H.
    assert (Hn : Qltb d 0 = false)
      by (apply Qltb_ge; rewrite H; apply Qle_refl).
    rewrite Hn. reflexivity.
  - intros H.
    assert (Hn : Qltb d 0 = true).
    { apply Qltb_lt. apply Qle_lteq in Hd. tauto. }
    rewrite Hn. eexists. split; reflexivity.
Qed.

Lemma pct_complement part whole :
  pct part whole + (100 - pct part whole) == 100.
Proof. ring. Qed.

Section Metrics.

Variable to_datetime : list string -> option (list (option Z)).
Variable Pow : Type.
Variable annual_rate : Q -> Q -> option Pow.

Local Abbreviation calculate_performance_metrics :=
  (calculate_performance_metrics to_datetime Pow annual_rate).

(** The method yields a report whenever the ledger and the curve are
    not empty, the times parse, the starting cash is not zero and the
    power, where it is taken, does not overflow. *)
Lemma metrics_returned pm times final_equity :
  trades pm <> [] ->
  equity_curve pm <> [] ->
  to_datetime (map time (trades pm)) = Some times ->
  last (equity_curve pm) = Some final_equity ->
  ~ starting_cash pm == 0 ->
  (forall total_days,
     total_days_of times = Some total_days ->
     is_Some (annual_rate (final_equity / starting_cash pm)
                          (365 / of_Z total_days))) ->
  is_Some (calculate_performance_metrics pm).
Proof.
  intros Ht He Htimes Hlast Hcash Hrate.
  unfold PortfolioManager.calculate_performance_metrics.
  destruct (trades pm) as [|t ts] eqn:Htr; [congruence|].
  destruct (streaks _ _ _ _ _) as [w l].
  destruct (equity_curve pm) as [|x rest] eqn:Heq; [congruence|].
  simpl in Htimes |- *. rewrite Htimes. simpl. rewrite Hlast. simpl.
  apply Qeq_bool_false in Hcash. rewrite Hcash.
  destruct (total_days_of times) as [td|].
  - destruct (Hrate td eq_refl) as [r Hr]. rewrite Hr. simpl. eauto.
  - simpl. eauto.
Qed.

(** C5.  A report returned by [calculate_performance_metrics]: each
    profit factor is gross profit over |gross loss|, and plus
    infinity when the gross loss is zero; the winning and losing
    percentages of each partition add up to 100, the winning
    percentage being 0 for an empty partition; the maximum drawdown
    is never positive and the return-retracement ratio is net profit
    over |max drawdown|, plus infinity when the drawdown is zero.
    (The method is total: [None] is the empty report.) *)
Theorem performance_metrics_guarded pm m :
  calculate_performance_metrics pm = Some m ->
  (all_gross_profit m = gross_profit (trades pm) /\
   all_gross_loss m = gross_loss (trades pm) /\
   long_gross_profit m = gross_profit (with_action "buy" (trades pm)) /\
   long_gross_loss m = gross_loss (with_action "buy" (trades pm)) /\
   short_gross_profit m = gross_profit (with_action "sell" (trades pm)) /\
   short_gross_loss m = gross_loss (with_action "sell" (trades pm))) /\
  (ratio_or_inf (all_profit_factor m)
                (all_gross_profit m) (all_gross_loss m) /\
   ratio_or_inf (long_profit_factor m)
                (long_gross_profit m) (long_gross_loss m) /\
   ratio_or_inf (short_profit_factor m)
                (short_gross_profit m) (short_gross_loss m)) /\
  (all_winning_percentage m + all_losing_percentage m == 100 /\
   long_winning_percentage m + long_losing_percentage m == 100 /\
   short_winning_percentage m + short_losing_percentage m == 100) /\
  (total_trades m = length (trades pm) /\
   long_trades_count m = length (with_action "buy" (trades pm)) /\
   short_trades_count m = length (with_action "sell" (trades pm)) /\
   (total_trades m = O -> all_winning_percentage m = 0) /\
   (long_trades_count m = O -> long_winning_percentage m = 0) /\
   (short_trades_count m = O -> short_winning_percentage m = 0)) /\
  (max_drawdown_of (equity_curve pm) = Some (max_drawdown m) /\
   max_drawdown m <= 0 /\
   all_net_profit m = all_gross_profit m + all_gross_loss m /\
   ratio_or_inf (return_retracement_ratio m)
                (all_net_profit m) (max_drawdown m)).
Proof.
  unfold PortfolioManager.calculate_performance_metrics.
  destruct (trades pm) as [|t ts] eqn:Htr; [discriminate|].
  destruct (streaks _ _ _ _ _) as [w l].
  destruct (max_drawdown_of (equity_curve pm)) as [d|] eqn:Hd;
    [|discriminate].
  pose proof (max_drawdown_of_nonpos _ _ Hd) as Hd0.
  simpl.
  destruct (series_max _) as [top|]; [|discriminate]. simpl.
  destruct (to_datetime _) as [times|]; [|discriminate]. simpl.
  destruct (last (equity_curve pm)) as [final|]; [|discriminate]. simpl.
  destruct (Qeq_bool (starting_cash pm) 0); [discriminate|].
  match goal with
  | |- context [mbind _ ?rate] => destruct rate as [r|]; [|discriminate]
  end.
  simpl.
  intros H. injection H as <-. cbn [all_gross_profit all_gross_loss
    long_gross_profit long_gross_loss short_gross_profit
    short_gross_loss all_profit_factor long_profit_factor
    short_profit_factor all_winning_percentage all_losing_percentage
    long_winning_percentage long_losing_percentage
    short_winning_percentage short_losing_percentage total_trades
    long_trades_count short_trades_count max_drawdown all_net_profit
    return_retracement_ratio].
  split; [auto 10|].
  split; [auto using pf_ratio_or_inf|].
  split; [auto using pct_complement|].
  split.
  - split; [reflexivity|]. split; [reflexivity|]. split; [reflexivity|].
    split; [discriminate|].
    split; intros H0; unfold pct; rewrite H0; reflexivity.
  - split; [reflexivity|]. split; [exact Hd0|]. split; [reflexivity|].
    apply retracement_ratio_or_inf, Hd0.
Qed.

End Metrics.

(** The round trip of the example: two ledger rows, three equity
    entries, and the profit of the closed long realized. *)
Example example_round_trip :
  length (trades example_closed) = 2%nat /\
  equity_curve example_closed = [100000; 99950; 100010] /\
  positions example_closed = ∅ /\
  realized_pnl example_closed = 10.
Proof. vm_compute. auto. Qed.

Lemma example_long_position :
  positions example_long !! "NG" = Some example_position.
Proof. vm_compute. reflexivity. Qed.

(** Closing the example position, entered at a tz-naive time, with a
    fill timed with a UTC offset: the subtraction raises, and the
    position, the realized P&L and the trade stay as they were. *)
Example example_mixed_tz_close :
  let trade :=
    order_trade "2023-04-23"
      (example_order "sell" 12 5 "2023-04-20T00:00:00+00:00") in
  update_positions_try example_Timestamp example_long trade
  = (example_long, trade, Raised).
Proof. reflexivity. Qed.

(** A position entered at the empty time string, which parses to [NaT],
    and closed three days later: it is closed and its profit realized,
    with NaN bars held. *)
Example example_nat_close :
  let pm :=
    on_order_filled example_Timestamp "" (init 100000)
      (example_order "buy" 10 5 "") in
  let result :=
    update_positions example_Timestamp pm
      (order_trade "2023-04-23" (example_order "sell" 12 5 "2023-04-23")) in
  bars_held (snd result) = BarsNaN /\
  net_profit (snd result) == 10 /\
  positions (fst result) = ∅ /\
  realized_pnl (fst result) == 10.
Proof. vm_compute. auto. Qed.


Lemma same_direction_fill_averages_witness :
  let trade :=
    order_trade "2023-04-23" (example_order "buy" 12 5 "2023-04-23") in
  let pm' := fst (update_positions example_Timestamp example_long trade) in
  exists pos',
    positions pm' !! "NG" = Some pos' /\
    pos_size pos' == 10 /\
    entry_price pos' == 11 /\
    entry_time pos' = "2023-04-20".
Proof.
  intros trade pm'.
  destruct (same_direction_fill_averages example_Timestamp example_long
              trade example_position example_long_position eq_refl
              (or_introl (conj eq_refl eq_refl)))
    as (pos' & Hlk & Hsize & _ & Hprice & Htime & _).
  subst pm'. exists pos'. split; [exact Hlk|]. split; [|split].
  - rewrite Hsize. reflexivity.
  - apply (Qeq_trans _ _ _ Hprice). reflexivity.
  - exact Htime.
Defined.

(** The position update raises, and yet cash and the equity curve
    move: the fill is not all-or-nothing. *)
Lemma fill_not_atomic :
  let pm := example_long in
  let pm' :=
    on_order_filled example_Timestamp "2023-04-23" pm example_bad_sell in
  snd (update_positions_try example_Timestamp pm
         (order_trade "2023-04-23" example_bad_sell)) = Raised /\
  positions pm' = positions pm /\
  ~ (positions pm' = positions pm /\ cash pm' == cash pm /\
     equity_curve pm' = equity_curve pm).
Proof.
  intros pm pm'.
  assert (Hraised :
            snd (update_positions_try example_Timestamp pm
                   (order_trade "2023-04-23" example_bad_sell)) = Raised)
    by (vm_compute; reflexivity).
  split; [exact Hraised|]. split.
  - vm_compute. reflexivity.
  - intros (_ & Hcash & _). vm_compute in Hcash. discriminate.
Qed.

Lemma fill_effects_without_rollback_witness :
  let pm := example_long in
  let pm' :=
    on_order_filled example_Timestamp "2023-04-23" pm example_bad_sell in
  cash pm' == 100010 /\
  length (equity_curve pm') = 3%nat /\
  positions pm' !! "NG" = Some example_position.
Proof.
  intros pm pm'.
  destruct (fill_effects_without_rollback example_Timestamp pm
              (OrderFilled "2023-04-23" example_bad_sell) eq_refl)
    as (Hcash & Hcurve & _ & Hpos).
  cbn [handle] in Hcash, Hcurve, Hpos. fold pm' in Hcash, Hcurve, Hpos.
  split; [|split].
  - rewrite Hcash. reflexivity.
  - rewrite Hcurve. reflexivity.
  - rewrite (Hpos ltac:(vm_compute; reflexivity)).
    exact example_long_position.
Defined.

Lemma example_max_drawdown :
  max_drawdown_of (equity_curve example_closed) = Some (-50).
Proof. vm_compute. reflexivity. Qed.

Lemma performance_metrics_guarded_witness :
  exists m,
    calculate_performance_metrics example_to_datetime unit
      example_annual_rate example_closed = Some m /\
    all_profit_factor m = PosInf /\
    all_winning_percentage m + all_losing_percentage m == 100 /\
    long_winning_percentage m + long_losing_percentage m == 100 /\
    (exists q, return_retracement_ratio m = Num q /\ q == 1 # 5).
Proof.
  destruct (calculate_performance_metrics example_to_datetime unit
              example_annual_rate example_closed) as [m|] eqn:Hm;
    [|vm_compute in Hm; discriminate].
  exists m. split; [reflexivity|].
  destruct (performance_metrics_guarded example_to_datetime unit
              example_annual_rate example_closed m Hm)
    as ((Hgp & Hgl & _) & (Hpf & _) & (Hall & Hlong & _) & _
        & (Hd & _ & Hnet & Hrrr)).
  split; [|split; [exact Hall | split; [exact Hlong|]]].
  - apply (proj1 Hpf). rewrite Hgl. vm_compute. reflexivity.
  - rewrite example_max_drawdown in Hd. injection Hd as Hdd.
    destruct (proj2 Hrrr) as (q & Hq & Hval).
    + rewrite <- Hdd. vm_compute. discriminate.
    + exists q. split; [exact Hq|].
      apply (Qeq_trans _ _ _ Hval).
      rewrite Hnet, Hgp, Hgl, <- Hdd. vm_compute. reflexivity.
Defined.

End PortfolioManagerProps.

(** ** More on Python numbers *)

Module PyNumMore.

Local Open Scope Q_scope.

Lemma int_nonneg (q : Q) :
  0 <= q -> (0 <= int q)%Z /\ inject_Z (int q) <= q.
Proof.
  unfold int. intros Hq.
  assert (Hn : (0 <= Qnum q)%Z).
  { unfold Qle in Hq. simpl in Hq. lia. }
  assert (Hfl : (Qnum q ÷ Z.pos (Qden q))%Z = Qfloor q).
  { destruct q as [n d]. simpl in *. apply Z.quot_div_nonneg; lia. }
  rewrite Hfl. split; [|apply Qfloor_le].
  rewrite <- Hfl. apply Z.quot_pos; lia.
Qed.

Lemma int_floor (q : Q) :
  (0 < int q)%Z -> inject_Z (int q) <= q /\ q < inject_Z (int q + 1).
Proof.
  unfold int. intros Hpos.
  assert (Hn : (0 <= Qnum q)%Z).
  { destruct (Z.le_gt_cases 0 (Qnum q)) as [H|H]; [exact H|]. exfalso.
    assert (Hq : (- Qnum q ÷ Z.pos (Qden q) >= 0)%Z).
    { apply Z.le_ge, Z.quot_pos; lia. }
    rewrite Z.quot_opp_l in Hq by lia. lia. }
  assert (Hfl : (Qnum q ÷ Z.pos (Qden q))%Z = Qfloor q).
  { destruct q as [n d]. simpl in *. apply Z.quot_div_nonneg; lia. }
  rewrite Hfl. split; [apply Qfloor_le | apply Qlt_floor].
Qed.

End PyNumMore.

Import PyNumMore.

(** ** More on signal generation *)

Module StrategyMore.

Import Examples.
Import Strategy.
Import StrategyTrace.
Local Open Scope Q_scope.

Section Signals.

Variable datetime : Type.
Variable fromisoformat : string -> option datetime.
Variable isoformat : datetime -> string.

Local Abbreviation generate_signal :=
  (generate_signal datetime fromisoformat isoformat).
Local Abbreviation crossover := (crossover datetime isoformat).
Local Abbreviation run := (run datetime fromisoformat isoformat).
Local Abbreviation make_signal := (make_signal datetime isoformat).
Local Abbreviation emission := (emission datetime isoformat).

Lemma is_long_false p : is_long p = false <-> p <> Some long.
Proof. destruct p as [[|]|]; simpl; split; congruence. Qed.

Lemma is_short_false p : is_short p = false <-> p <> Some short.
Proof. destruct p as [[|]|]; simpl; split; congruence. Qed.

Lemma is_long_true p : is_long p = true <-> p = Some long.
Proof. destruct p as [[|]|]; simpl; split; congruence. Qed.

Lemma is_short_true p : is_short p = true <-> p = Some short.
Proof. destruct p as [[|]|]; simpl; split; congruence. Qed.

Lemma crossover_emission st c s d sig st' :
  crossover st c s d = (Some sig, st') -> emission st c s d sig st'.
Proof.
  unfold Strategy.crossover.
  destruct (Qltb s c) eqn:Habove.
  - apply Qltb_lt in Habove.
    destruct (is_long (current_position st)) eqn:Hl; simpl;
      [discriminate|].
    intros H; injection H as <- <-.
    apply emit_buy; [exact Habove | apply is_long_false, Hl].
  - apply Qltb_ge in Habove.
    destruct (Qltb c s) eqn:Hbelow.
    + apply Qltb_lt in Hbelow.
      destruct (is_short (current_position st)) eqn:Hs; simpl;
        [discriminate|].
      intros H; injection H as <- <-.
      apply emit_short; [exact Hbelow | apply is_short_false, Hs].
    + apply Qltb_ge in Hbelow.
      assert (Heq : c == s) by (apply Qle_antisym; assumption).
      destruct (Qle_bool c s && is_long (current_position st)) eqn:H1.
      * apply andb_true_iff in H1. destruct H1 as [_ Hl].
        intros H; injection H as <- <-.
        apply emit_sell; [exact Heq | apply is_long_true, Hl].
      * destruct (Qle_bool s c && is_short (current_position st)) eqn:H2;
          [|discriminate].
        apply andb_true_iff in H2. destruct H2 as [_ Hs].
        intros H; injection H as <- <-.
        apply emit_cover; [exact Heq | apply is_short_true, Hs].
Qed.

Lemma generate_signal_emission st b sig st' :
  generate_signal st b = (Some sig, st') ->
  exists c s d,
    bar_close b = Some c /\ bar_sma b = Some s /\
    usable_time datetime fromisoformat (bar_time b) d /\
    emission st c s d sig st'.
Proof.
  unfold Strategy.generate_signal.
  destruct (bar_time b) as [|str|d] eqn:Ht;
    destruct (bar_close b) as [c|]; destruct (bar_sma b) as [s|];
    try discriminate.
  - destruct (String.eqb str "") eqn:He; [discriminate|].
    destruct (fromisoformat str) as [d|] eqn:Hp; [|discriminate].
    intros H. exists c, s, d.
    split; [reflexivity|]. split; [reflexivity|]. split.
    + right. exists str. split; [reflexivity|].
      split; [apply String.eqb_neq, He | exact Hp].
    + apply crossover_emission, H.
  - intros H. exists c, s, d.
    split; [reflexivity|]. split; [reflexivity|]. split.
    + left. reflexivity.
    + apply crossover_emission, H.
Qed.

Lemma emission_facts st c s d sig st' :
  emission st c s d sig st' ->
  exists a,
    sig = make_signal st a c d /\
    current_position st' = position_after a /\
    position_after a <> current_position st /\
    instrument st' = instrument st /\ size st' = size st /\
    no_trade_reasons st' = no_trade_reasons st /\
    ((a = "buy" /\ s < c) \/ (a = "short" /\ c < s) \/
     (a = "sell" /\ c == s /\ current_position st = Some long) \/
     (a = "cover" /\ c == s /\ current_position st = Some short)).
Proof.
  intros [Hlt Hp | Hlt Hp | Heq Hp | Heq Hp]; eexists;
    (split; [reflexivity|]); (split; [reflexivity|]);
    (split; [unfold position_after; simpl; congruence|]);
    (split; [reflexivity|]);
    (split; [reflexivity|]); (split; [reflexivity|]); auto 10.
Qed.

(** X1.  A bar that lacks [time], [close] or [sma] (a raw feed bar has
    no [sma]) yields no signal, leaves the position alone and counts one
    more "Incomplete data". *)
Theorem incomplete_bar_counted st (b : Bar datetime) :
  bar_time b = TimeNone \/ bar_time b = TimeStr "" \/
  bar_close b = None \/ bar_sma b = None ->
  fst (generate_signal st b) = None /\
  current_position (snd (generate_signal st b)) = current_position st /\
  no_trade_reasons (snd (generate_signal st b))
  = <["Incomplete data" :=
        S (default O (no_trade_reasons st !! "Incomplete data"))]>
      (no_trade_reasons st).
Proof.
  intros H. unfold Strategy.generate_signal.
  destruct H as [-> | [-> | [-> | ->]]].
  - auto.
  - destruct (bar_close b), (bar_sma b); auto.
  - destruct (bar_time b); auto.
  - destruct (bar_time b), (bar_close b); auto.
Qed.

Lemma generate_signal_silent st (b : Bar datetime) :
  fst (generate_signal st b) = None ->
  current_position (snd (generate_signal st b)) = current_position st /\
  instrument (snd (generate_signal st b)) = instrument st /\
  size (snd (generate_signal st b)) = size st.
Proof.
  unfold Strategy.generate_signal, Strategy.crossover.
  repeat (match goal with
          | |- context [if ?c then _ else _] => destruct c
          | |- context [match ?c with _ => _ end] => destruct c
          end; simpl; try discriminate; auto).
Qed.

(** X2.  A bar that yields no signal never moves the position, whatever
    the reason (bad data, already in the position, no condition met). *)
Theorem silent_bar_keeps_position st (b : Bar datetime) :
  fst (generate_signal st b) = None ->
  current_position (snd (generate_signal st b)) = current_position st /\
  instrument (snd (generate_signal st b)) = instrument st /\
  size (snd (generate_signal st b)) = size st.
Proof. exact (generate_signal_silent st b). Qed.

(** X3.  An emitted signal carries the strategy's instrument and fixed
    size and the bar's close as price; right after it the position is
    the one the action stands for (long after ['buy'], short after
    ['short'], none after ['sell'] and ['cover']), and that is always a
    different position from the one before. *)
Theorem signal_fields st (b : Bar datetime) sig st' :
  generate_signal st b = (Some sig, st') ->
  exists a,
    sig_action sig = Some a /\
    sig_instrument sig = Some (instrument st) /\
    sig_size sig = size st /\
    sig_price sig = bar_close b /\
    current_position st' = position_after a /\
    current_position st' <> current_position st /\
    no_trade_reasons st' = no_trade_reasons st.
Proof.
  intros H.
  destruct (generate_signal_emission st b sig st' H)
    as (c & s & d & Hc & _ & _ & Hem).
  destruct (emission_facts _ _ _ _ _ _ Hem)
    as (a & -> & Hpos & Hne & _ & _ & Hr & _).
  exists a. rewrite Hc, Hpos. simpl. auto 10.
Qed.

(** X4.  ['sell'] and ['cover'] are emitted only on a bar whose close
    equals its sma; a long strategy that sees the close strictly below
    the sma does not sell but goes short at once with a ['short']
    signal. *)
Theorem closing_signals_only_at_tie st (b : Bar datetime) :
  (forall sig st',
     generate_signal st b = (Some sig, st') ->
     sig_action sig = Some "sell" \/ sig_action sig = Some "cover" ->
     exists c s, bar_close b = Some c /\ bar_sma b = Some s /\ c == s) /\
  (forall c s d,
     bar_close b = Some c -> bar_sma b = Some s ->
     usable_time datetime fromisoformat (bar_time b) d ->
     c < s -> current_position st = Some long ->
     fst (generate_signal st b) = Some (make_signal st "short" c d) /\
     current_position (snd (generate_signal st b)) = Some short).
Proof.
  split.
  - intros sig st' H Ha.
    destruct (generate_signal_emission st b sig st' H)
      as (c & s & d & Hc & Hs & _ & Hem).
    exists c, s. split; [exact Hc|]. split; [exact Hs|].
    destruct (emission_facts _ _ _ _ _ _ Hem)
      as (a & -> & _ & _ & _ & _ & _ & Hcase).
    simpl in Ha.
    destruct Hcase as [[-> _] | [[-> _] | [(_ & Heq & _) | (_ & Heq & _)]]];
      try exact Heq; destruct Ha; discriminate.
  - intros c s d Hc Hs Ht Hlt Hlong.
    rewrite (StrategyProps.generate_signal_complete datetime fromisoformat
               isoformat st b c s d Hc Hs Ht).
    unfold Strategy.crossover.
    assert (Habove : Qltb s c = false) by (apply Qltb_ge, Qlt_le_weak, Hlt).
    apply Qltb_lt in Hlt. rewrite Habove, Hlt, Hlong. simpl. auto.
Qed.

Lemma run_alternates bars : forall st,
  let l := emitted_actions (fst (run st bars)) in
  no_repeat l /\
  (forall a rest, l = a :: rest -> position_after a <> current_position st).
Proof.
  induction bars as [|b bars IH]; intros st; simpl.
  - split; [exact I | discriminate].
  - destruct (generate_signal st b) as [[sig|] st1] eqn:Hg.
    + destruct (IH st1) as [Hnr Hhead].
      destruct (Strategy.run datetime fromisoformat isoformat st1 bars)
        as [ss st2] eqn:Hrun.
      simpl in Hnr, Hhead. simpl.
      destruct (generate_signal_emission st b sig st1 Hg)
        as (c & s & d & _ & _ & _ & Hem).
      destruct (emission_facts _ _ _ _ _ _ Hem)
        as (a & -> & Hpos & Hne & _).
      simpl. split.
      * destruct (emitted_actions ss) as [|a2 rest] eqn:Hl; [exact I|].
        split; [|exact Hnr].
        intros ->. apply (Hhead a2 rest eq_refl). symmetry. exact Hpos.
      * intros a' rest H. injection H as <- _. exact Hne.
    + destruct (IH st1) as [Hnr Hhead].
      destruct (Strategy.run datetime fromisoformat isoformat st1 bars)
        as [ss st2] eqn:Hrun.
      simpl in Hnr, Hhead. simpl.
      split; [exact Hnr|].
      intros a rest Hl.
      pose proof (generate_signal_silent st b) as Hs.
      rewrite Hg in Hs. destruct (Hs eq_refl) as [Hp _]. simpl in Hp.
      rewrite <- Hp. exact (Hhead a rest Hl).
Qed.

(** X5.  Over any sequence of bars and from any state, two consecutive
    emitted signals never carry the same action. *)
Theorem consecutive_signals_differ st (bars : list (Bar datetime)) :
  no_repeat (emitted_actions (fst (run st bars))).
Proof. apply run_alternates. Qed.

End Signals.

End StrategyMore.

(** ** More on risk validation *)

Module RiskManagerMore.

Import Examples.
Import RiskManager.
Import RiskManagerTrace.
Local Open Scope Q_scope.

(** What an accepted signal went through, check by check. *)
Lemma apply_risk_rules_accept rm sig o rm' :
  apply_risk_rules rm sig = (Some o, rm') ->
  exists a instr p,
    sig_action sig = Some a /\ (a = "buy" \/ a = "sell") /\
    sig_instrument sig = Some instr /\ instr <> "" /\
    resolved_price rm sig = Some p /\ 0 < p /\
    price_mismatch rm sig = false /\
    (0 < position_size rm p)%Z /\
    rm' = rm /\
    ord_action o = a /\ ord_instrument o = instr /\
    ord_size o = position_size rm p /\ ord_entry_price o = p /\
    ord_stop_loss o
    = p * (if bool_decide (sig_action sig = Some "buy")
           then 1 - stop_loss_pct rm else 1 + stop_loss_pct rm) /\
    ord_take_profit o
    = p * (if bool_decide (sig_action sig = Some "buy")
           then 1 + take_profit_pct rm else 1 - take_profit_pct rm).
Proof.
  unfold apply_risk_rules.
  destruct (Qltb (max_drawdown rm) (get_current_drawdown rm));
    [discriminate|].
  destruct (sig_instrument sig) as [instr|] eqn:Hi; simpl; [|discriminate].
  destruct (String.eqb instr "") eqn:He; [discriminate|].
  destruct (resolved_price rm sig) as [p|] eqn:Hp; [|discriminate].
  destruct (truthy p) eqn:Ht; simpl; [|discriminate].
  destruct (Qle_bool p 0) eqn:Hle; [discriminate|].
  destruct (price_mismatch rm sig) eqn:Hm; [discriminate|].
  destruct (position_size rm p <=? 0)%Z eqn:Hs; [discriminate|].
  destruct (sig_action sig) as [a|] eqn:Ha; simpl; [|discriminate].
  destruct (String.eqb a "buy" || String.eqb a "sell") eqn:Hact; simpl;
    [|discriminate].
  intros H. injection H as <- <-.
  exists a, instr, p.
  split; [reflexivity|]. split.
  { apply orb_true_iff in Hact.
    destruct Hact as [H|H]; apply String.eqb_eq in H; auto. }
  split; [reflexivity|]. split; [apply String.eqb_neq, He|].
  split; [reflexivity|]. split.
  { apply Qnot_le_lt. intros Hc. apply Qle_bool_iff in Hc. congruence. }
  split; [reflexivity|]. split; [apply Z.leb_gt in Hs; lia|].
  simpl. auto 10.
Qed.

(** What a rejected signal leaves behind. *)
Lemma apply_risk_rules_reject rm sig rm' :
  apply_risk_rules rm sig = (None, rm') ->
  exists r, rm' = log_no_trade_reason rm sig r.
Proof.
  unfold apply_risk_rules.
  repeat (match goal with
          | |- context [if ?c then _ else _] => destruct c
          | |- context [match ?c with Some _ => _ | None => _ end] =>
              destruct c
          end; simpl; try discriminate);
    intros H; injection H as <-; eauto.
Qed.

(** X6.  Every rejection is on record: it overwrites the reason stored
    under the signal's instrument (under ["Unknown"] when the signal has
    none) and touches nothing else; an accepted signal leaves the whole
    state, earlier reasons included, as it was. *)
Theorem rejection_recorded rm sig :
  let key := default "Unknown" (sig_instrument sig) in
  let rm' := snd (apply_risk_rules rm sig) in
  (fst (apply_risk_rules rm sig) = None ->
   (exists r, no_trade_reasons rm' !! key = Some r) /\
   (forall other, other <> key ->
      no_trade_reasons rm' !! other = no_trade_reasons rm !! other) /\
   latest_price rm' = latest_price rm /\
   current_drawdown rm' = current_drawdown rm) /\
  (is_Some (fst (apply_risk_rules rm sig)) -> rm' = rm).
Proof.
  intros key rm'. subst rm'.
  destruct (apply_risk_rules rm sig) as [[o|] rm1] eqn:H; simpl.
  - split; [discriminate|]. intros _.
    destruct (apply_risk_rules_accept _ _ _ _ H)
      as (a & instr & p & _ & _ & _ & _ & _ & _ & _ & _ & Hrm & _).
    exact Hrm.
  - split; [|intros [x Hx]; discriminate]. intros _.
    destruct (apply_risk_rules_reject _ _ _ H) as [r ->].
    unfold log_no_trade_reason. simpl. fold key.
    split; [exists r; apply lookup_insert_eq|].
    split; [|auto].
    intros other Hne. apply lookup_insert_ne. congruence.
Qed.

(** X7.  An order that comes out of [apply_risk_rules] is well formed:
    its action is the signal's ['buy'] or ['sell'], its instrument the
    signal's, its price positive, and its size the largest whole number
    of units that the risk capital [base_capital * max_position_fraction]
    pays for at that price (at least one). *)
Theorem accepted_order_sized rm sig o rm' :
  apply_risk_rules rm sig = (Some o, rm') ->
  (ord_action o = "buy" \/ ord_action o = "sell") /\
  sig_action sig = Some (ord_action o) /\
  sig_instrument sig = Some (ord_instrument o) /\
  0 < ord_entry_price o /\
  (1 <= ord_size o)%Z /\
  inject_Z (ord_size o) * ord_entry_price o
  <= base_capital rm * max_position_fraction rm /\
  base_capital rm * max_position_fraction rm
  < inject_Z (ord_size o + 1) * ord_entry_price o.
Proof.
  intros H.
  destruct (apply_risk_rules_accept _ _ _ _ H)
    as (a & instr & p & Ha & Hbs & Hi & _ & _ & Hp & _ & Hs & _
        & -> & -> & -> & -> & _).
  split; [exact Hbs|]. split; [exact Ha|]. split; [exact Hi|].
  split; [exact Hp|]. split; [lia|].
  destruct (int_floor _ Hs) as [Hlo Hhi]. fold (position_size rm p) in Hlo, Hhi.
  assert (Hq : base_capital rm * max_position_fraction rm / p * p
               == base_capital rm * max_position_fraction rm).
  { field. intros E. rewrite E in Hp. exact (Qlt_irrefl _ Hp). }
  split.
  - rewrite <- Hq. apply Qmult_le_compat_r; [exact Hlo|].
    apply Qlt_le_weak, Hp.
  - rewrite <- Hq. apply Qmult_lt_compat_r; [exact Hp | exact Hhi].
Qed.

(** X8.  With positive stop and take percentages the bracket of an
    accepted order is on the right sides of its entry price: below and
    above for a ['buy'], above and below for a ['sell']. *)
Theorem accepted_order_bracket rm sig o rm' :
  apply_risk_rules rm sig = (Some o, rm') ->
  0 < stop_loss_pct rm -> 0 < take_profit_pct rm ->
  (ord_action o = "buy" ->
   ord_stop_loss o < ord_entry_price o /\
   ord_entry_price o < ord_take_profit o) /\
  (ord_action o = "sell" ->
   ord_take_profit o < ord_entry_price o /\
   ord_entry_price o < ord_stop_loss o).
Proof.
  intros H Hsl Htp.
  destruct (apply_risk_rules_accept _ _ _ _ H)
    as (a & instr & p & Ha & _ & _ & _ & _ & Hp & _ & _ & _
        & Hact & _ & _ & -> & -> & ->).
  rewrite Hact, Ha. split; intros ->.
  - rewrite bool_decide_eq_true_2 by reflexivity. split; nra.
  - rewrite bool_decide_eq_false_2 by discriminate. split; nra.
Qed.

Lemma accepted_order_price_latest rm sig o rm' latest :
  apply_risk_rules rm sig = (Some o, rm') ->
  latest_price rm !! ord_instrument o = Some latest ->
  ~ latest == 0 ->
  ord_entry_price o = latest /\
  forall signal_price,
    sig_price sig = Some signal_price -> ~ signal_price == 0 ->
    Qabs (latest - signal_price) <= (1 # 100) * signal_price.
Proof.
  intros H.
  destruct (apply_risk_rules_accept _ _ _ _ H)
    as (a & instr & p & _ & _ & Hi & _ & Hp & _ & Hm & _ & _
        & _ & -> & _ & -> & _).
  unfold resolved_price, price_mismatch, get_current_price in Hp, Hm.
  rewrite Hi in Hp, Hm.
  intros Hl Hnz. rewrite Hl in Hp, Hm. simpl in Hp.
  assert (Ht : truthy latest = true)
    by (apply negb_true_iff, Qeq_bool_false, Hnz).
  rewrite Ht in Hp. injection Hp as <-. split; [reflexivity|].
  intros sp Hsp Hspnz. rewrite Hsp, Ht in Hm.
  assert (Ht2 : truthy sp = true)
    by (apply negb_true_iff, Qeq_bool_false, Hspnz).
  rewrite Ht2 in Hm. simpl in Hm. apply Qltb_ge in Hm. exact Hm.
Qed.

(** X9.  An accepted order is priced at the latest known price of its
    instrument when there is one, and then the signal's own price is
    within 1% of it; without a known price it is priced at the signal's
    price. *)
Theorem accepted_order_price rm sig o rm' :
  apply_risk_rules rm sig = (Some o, rm') ->
  (forall latest,
     latest_price rm !! ord_instrument o = Some latest ->
     ~ latest == 0 ->
     ord_entry_price o = latest /\
     forall signal_price,
       sig_price sig = Some signal_price -> ~ signal_price == 0 ->
       Qabs (latest - signal_price) <= (1 # 100) * signal_price) /\
  (latest_price rm !! ord_instrument o = None ->
   sig_price sig = Some (ord_entry_price o)).
Proof.
  intros H. split.
  - intros latest Hl Hnz.
    exact (accepted_order_price_latest _ _ _ _ latest H Hl Hnz).
  - destruct (apply_risk_rules_accept _ _ _ _ H)
      as (a & instr & p & _ & _ & Hi & _ & Hp & _ & _ & _ & _
          & _ & -> & _ & -> & _).
    unfold resolved_price, get_current_price in Hp. rewrite Hi in Hp.
    intros Hl. rewrite Hl in Hp. simpl in Hp. exact Hp.
Qed.

Lemma reject_not_drawdown rm sig rm' :
  get_current_drawdown rm <= max_drawdown rm ->
  apply_risk_rules rm sig = (None, rm') ->
  exists r, rm' = log_no_trade_reason rm sig r /\
            r <> Drawdown_limit_exceeded.
Proof.
  intros Hdd. apply Qltb_ge in Hdd. unfold apply_risk_rules. rewrite Hdd.
  repeat (match goal with
          | |- context [if ?c then _ else _] => destruct c
          | |- context [match ?c with Some _ => _ | None => _ end] =>
              destruct c
          end; simpl; try discriminate);
    intros H; injection H as <-; eexists; (split; [reflexivity|]);
    discriminate.
Qed.

Lemma apply_keeps_drawdown_unused rm sig :
  drawdown_unused rm -> drawdown_unused (snd (apply_risk_rules rm sig)).
Proof.
  intros (Hdd & Hz & Hr).
  destruct (apply_risk_rules rm sig) as [[o|] rm'] eqn:H; simpl.
  - destruct (apply_risk_rules_accept _ _ _ _ H)
      as (a & instr & p & _ & _ & _ & _ & _ & _ & _ & _ & -> & _).
    repeat split; assumption.
  - destruct (reject_not_drawdown _ _ _ Hdd H) as (r & -> & Hne).
    split; [exact Hdd|]. split; [exact Hz|].
    intros k. unfold log_no_trade_reason. simpl.
    rewrite lookup_insert. case_decide; [congruence | apply Hr].
Qed.

Lemma call_keeps_drawdown_unused rm c :
  drawdown_unused rm -> drawdown_unused (call rm c).
Proof.
  destruct c as [i p | p | sig]; simpl.
  - unfold update_price. destruct (Qltb 0 p); auto.
  - unfold update_price_nan. destruct (Qltb 0 p); auto.
  - apply apply_keeps_drawdown_unused.
Qed.

Lemma calls_keep_drawdown_unused cs : forall rm,
  drawdown_unused rm -> drawdown_unused (calls rm cs).
Proof.
  unfold calls.
  induction cs as [|c cs IH]; intros rm H; [exact H|].
  simpl. apply IH, call_keeps_drawdown_unused, H.
Qed.

(** X10.  No method ever writes [current_drawdown]: after any sequence
    of price updates and risk checks on a freshly built risk manager it
    is still 0, so with a non-negative limit no signal is ever turned
    down for drawdown. *)
Theorem drawdown_gate_inert base_capital max_dd stop_pct take_pct fraction
    (cs : list Call) :
  0 <= max_dd ->
  let rm := calls
              (init base_capital max_dd stop_pct take_pct fraction) cs in
  get_current_drawdown rm = 0 /\
  forall sig,
    no_trade_reasons (snd (apply_risk_rules rm sig))
      !! default "Unknown" (sig_instrument sig)
    <> Some Drawdown_limit_exceeded.
Proof.
  intros Hmd rm.
  assert (Hinit : drawdown_unused
                    (init base_capital max_dd stop_pct take_pct fraction)).
  { split; [exact Hmd|]. split; [reflexivity|].
    intros k. simpl. rewrite lookup_empty. discriminate. }
  pose proof (calls_keep_drawdown_unused cs _ Hinit) as Hrm. fold rm in Hrm.
  split; [apply Hrm|].
  intros sig. apply (apply_keeps_drawdown_unused rm sig Hrm).
Qed.

End RiskManagerMore.

(** ** More on the indicator engine *)

Module MarketAnalyzerMore.

Import Examples.
Import MarketAnalyzer.
Local Open Scope Q_scope.

Lemma existsb_has_close_snoc (l : list Bar) (b : Bar) :
  existsb has_close (l ++ [b]) = existsb has_close l || has_close b.
Proof. rewrite existsb_app. simpl. rewrite orb_false_r. reflexivity. Qed.

(** With a close on the arriving bar and a window that is not negative,
    [process_data] returns a bar. *)
Lemma process_data_returns st bar c :
  (0 <= indicator_window st)%Z -> close bar = Some c ->
  exists nan_instrument sma,
    process_data {| indicator_window := indicator_window st;
                    buffer := buffer st ++ [bar];
                    risk_manager := risk_manager st |}
    = inr {| raw := bar; nan_close := false;
             nan_instrument := nan_instrument; sma := sma |}.
Proof.
  intros Hw Hc. unfold process_data. simpl.
  rewrite last_snoc, existsb_has_close_snoc.
  unfold has_close. rewrite Hc, orb_true_r. simpl.
  assert (Hneg : (indicator_window st <? 0)%Z = false)
    by (apply Z.ltb_ge; lia).
  rewrite Hneg.
  destruct (Z.of_nat _ <? _)%Z; eauto.
Qed.

(** X11.  The price feedback: when a risk manager is attached and the
    arriving bar names its instrument and has a positive close, the
    call stores that close as the instrument's latest price, and the
    next order the risk manager accepts for the instrument is priced
    at it, whatever price the signal carries. *)
Theorem close_feeds_risk_manager st bar rm instr c :
  (0 <= indicator_window st)%Z ->
  risk_manager st = Some rm ->
  instrument bar = Some instr -> instr <> "" ->
  close bar = Some c -> 0 < c ->
  exists rm',
    risk_manager (fst (on_market_data st bar)) = Some rm' /\
    RiskManager.get_current_price rm' (Some instr) = Some c /\
    (forall other, other <> instr ->
       RiskManager.latest_price rm' !! other
       = RiskManager.latest_price rm !! other) /\
    RiskManager.no_trade_reasons rm' = RiskManager.no_trade_reasons rm /\
    forall sig o rm2,
      sig_instrument sig = Some instr ->
      RiskManager.apply_risk_rules rm' sig = (Some o, rm2) ->
      ord_entry_price o = c.
Proof.
  intros Hw Hrm Hi Hne Hc Hpos.
  destruct (process_data_returns st bar c Hw Hc) as (ni & sma & Hpd).
  unfold on_market_data. rewrite Hpd. simpl. rewrite Hrm. simpl.
  unfold update_risk_manager. cbn [raw]. rewrite Hi, Hc.
  apply String.eqb_neq in Hne. rewrite Hne. simpl.
  assert (Ht : truthy c = true).
  { apply negb_true_iff, Qeq_bool_false. intros E. rewrite E in Hpos.
    exact (Qlt_irrefl _ Hpos). }
  rewrite Ht. eexists. split; [reflexivity|].
  unfold RiskManager.update_price.
  pose proof Hpos as Hlt. apply Qltb_lt in Hlt. rewrite Hlt. simpl.
  split; [apply lookup_insert_eq|].
  split; [intros other Ho; apply lookup_insert_ne; congruence|].
  split; [reflexivity|].
  intros sig o rm2 Hsi Happ.
  assert (Hl : RiskManager.latest_price
                 (RiskManager.set_latest_price
                    (<[instr:=c]> (RiskManager.latest_price rm)) rm)
               !! ord_instrument o = Some c).
  { destruct (RiskManagerMore.apply_risk_rules_accept _ _ _ _ Happ)
      as (a & i2 & p & _ & _ & Hi2 & _ & _ & _ & _ & _ & _ & _ & Hoi & _).
    assert (Ho : ord_instrument o = instr) by congruence.
    rewrite Ho. simpl. apply lookup_insert_eq. }
  assert (Hnz : ~ c == 0).
  { intros E. rewrite E in Hpos. exact (Qlt_irrefl _ Hpos). }
  exact (proj1 (RiskManagerMore.accepted_order_price_latest
                  _ _ _ _ c Happ Hl Hnz)).
Qed.

(** X12.  [on_market_data] raises [KeyError] exactly when the window is
    filled and not one buffered bar, the arriving one included, has a
    close; the bar has been appended all the same.  A bar without a
    close that arrives while the window is not filled, or beside bars
    that have one, raises no [KeyError]. *)
Theorem key_error_when_no_close st bar :
  (snd (on_market_data st bar) = inl KeyError <->
   (indicator_window st <= Z.of_nat (length (buffer st ++ [bar])))%Z /\
   existsb has_close (buffer st ++ [bar]) = false) /\
  buffer (fst (on_market_data st bar)) = buffer st ++ [bar].
Proof.
  split.
  - unfold on_market_data, process_data. simpl. rewrite last_snoc.
    destruct (_ <? _)%Z eqn:Hlt.
    + apply Z.ltb_lt in Hlt. split; [|lia]. simpl. discriminate.
    + apply Z.ltb_ge in Hlt.
      destruct (existsb has_close (buffer st ++ [bar])) eqn:Hex; simpl.
      * split; [|intros [_ H]; discriminate].
        destruct (_ <? 0)%Z; simpl; discriminate.
      * split; [intros _; split; [exact Hlt | reflexivity] | reflexivity].
  - unfold on_market_data. destruct (process_data _); reflexivity.
Qed.

Lemma sum_closes_bounds (lo hi : Q) (l : list Bar) :
  Forall (fun b => exists c, close b = Some c /\ lo <= c /\ c <= hi) l ->
  exists s,
    sum_closes l = Some s /\
    inject_Z (Z.of_nat (length l)) * lo <= s /\
    s <= inject_Z (Z.of_nat (length l)) * hi.
Proof.
  induction 1 as [|b l (c & Hc & Hlo & Hhi) _ (s & Hs & Hslo & Hshi)].
  - exists 0. simpl. split; [reflexivity|].
    change (inject_Z (Z.of_nat 0)) with 0. split; lra.
  - exists (c + s). cbn [sum_closes length]. rewrite Hc, Hs.
    split; [reflexivity|].
    rewrite Nat2Z.inj_succ. unfold Z.succ. rewrite inject_Z_plus.
    change (inject_Z 1) with 1. split; lra.
Qed.

(** X13.  The moving average never leaves the range of the closes it is
    taken over: when the closes of the last [W] bars all lie between
    [lo] and [hi], so does the [sma] attached to the arriving bar. *)
Theorem sma_within_range st bar (lo hi : Q) :
  let all := buffer st ++ [bar] in
  let W := indicator_window st in
  (0 < W <= Z.of_nat (length all))%Z ->
  Forall (fun b => exists c, close b = Some c /\ lo <= c /\ c <= hi)
         (drop (length all - Z.to_nat W) all) ->
  exists h m,
    snd (on_market_data st bar)
    = inr {| data := {| raw := bar; nan_close := false;
                        nan_instrument :=
                          negb (has_instrument bar)
                          && existsb has_instrument all;
                        sma := Some (Num m) |};
             history := h |} /\
    lo <= m /\ m <= hi.
Proof.
  intros all W [Hpos Hge] Hall.
  assert (Hlast : has_close bar = true).
  { assert (Hin : In bar (drop (length all - Z.to_nat W) all)).
    { unfold all.
      rewrite drop_app_le by (rewrite length_app; simpl; lia).
      apply in_or_app. right. left. reflexivity. }
    destruct (proj1 (List.Forall_forall _ _) Hall bar Hin) as (c & Hc & _).
    unfold has_close. rewrite Hc. reflexivity. }
  destruct (sum_closes_bounds lo hi _ Hall) as (s & Hs & Hslo & Hshi).
  rewrite length_drop in Hslo, Hshi.
  replace (Z.of_nat (length all - (length all - Z.to_nat W))) with W
    in Hslo, Hshi by lia.
  assert (Hex : existsb has_close all = true).
  { apply (MarketAnalyzerProps.existsb_has_close_suffix
             _ (length all - Z.to_nat W)).
    destruct (drop (length all - Z.to_nat W) all) as [|b l] eqn:Hd.
    - apply (f_equal length) in Hd. rewrite length_drop in Hd.
      simpl in Hd. lia.
    - inversion Hall as [|? ? (c & Hc & _) _]; subst.
      simpl. unfold has_close. rewrite Hc. reflexivity. }
  assert (HW : 0 < inject_Z W).
  { change 0 with (inject_Z 0). rewrite <- Zlt_Qlt. exact Hpos. }
  unfold on_market_data, process_data. simpl. fold all. fold W.
  assert (Hlt : (Z.of_nat (length all) <? W)%Z = false)
    by (apply Z.ltb_ge; lia).
  assert (Hneg : (W <? 0)%Z = false) by (apply Z.ltb_ge; lia).
  assert (Hle : (W <=? 0)%Z = false) by (apply Z.leb_gt; lia).
  rewrite Hlt, Hex, Hneg. simpl.
  unfold all at 1. rewrite last_snoc. fold all.
  unfold rolling_mean_last.
  rewrite Hle, (MarketAnalyzerProps.slice_from_neg W all Hpos), Hs.
  assert (Hm : lo <= s / of_Z W /\ s / of_Z W <= hi).
  { unfold of_Z. split.
    - apply Qle_shift_div_l; [exact HW|]. lra.
    - apply Qle_shift_div_r; [exact HW|]. lra. }
  rewrite Hlast. simpl.
  eexists _, _; (split; [reflexivity|]); exact Hm.
Qed.

End MarketAnalyzerMore.

(** ** More on the order handler *)

Module OrderHandlerMore.

Import Examples.
Import OrderHandler.
Local Open Scope Q_scope.

(** X14.  [calculate_position_size] raises on a zero entry price and on
    nothing else; for a positive price (capital and the configured size
    not negative) the size it returns is not negative, is at most the
    configured [position_size], and costs at most a tenth of the
    capital. *)
Theorem position_size_capped st (entry_price : Q) :
  (calculate_position_size st entry_price = None <-> entry_price == 0) /\
  (0 < entry_price -> 0 <= capital st -> 0 <= position_size st ->
   exists r,
     calculate_position_size st entry_price = Some r /\
     0 <= r /\ r <= position_size st /\
     r * entry_price <= capital st * (1 # 10)).
Proof.
  unfold calculate_position_size. split.
  - destruct (Qeq_bool entry_price 0) eqn:E.
    + apply Qeq_bool_true in E. tauto.
    + apply Qeq_bool_false in E. split; [discriminate | tauto].
  - intros Hp Hc Hps.
    assert (Hnz : Qeq_bool entry_price 0 = false).
    { apply Qeq_bool_false. intros E. rewrite E in Hp.
      exact (Qlt_irrefl _ Hp). }
    rewrite Hnz. eexists. split; [reflexivity|].
    set (q := capital st * (1 # 10) / entry_price).
    assert (Hq : 0 <= q).
    { unfold q. apply Qle_shift_div_l; [exact Hp|]. lra. }
    destruct (int_nonneg q Hq) as [Hi Hle].
    assert (Hi' : 0 <= of_Z (int q)).
    { unfold of_Z. change 0 with (inject_Z 0). rewrite <- Zle_Qle.
      exact Hi. }
    assert (Hqp : q * entry_price == capital st * (1 # 10)).
    { unfold q. field. intros E. rewrite E in Hp.
      exact (Qlt_irrefl _ Hp). }
    split; [apply Q.min_glb; assumption|].
    split; [apply Q.le_min_r|].
    rewrite <- Hqp. apply Qmult_le_compat_r; [|lra].
    eapply Qle_trans; [apply Q.le_min_l | exact Hle].
Qed.

(** X15.  What [on_order_request] does with an order: the size the risk
    manager put on the order plays no part; either there is no fill and
    the handler is as before, or the fill is at the order's entry price
    for the size [calculate_position_size] gives (not zero), and the
    book has been updated with exactly that fill. *)
Theorem order_request_outcome now st (o : Order) :
  (forall z,
     on_order_request now st
       {| ord_action := ord_action o; ord_instrument := ord_instrument o;
          ord_size := z; ord_entry_price := ord_entry_price o;
          ord_stop_loss := ord_stop_loss o;
          ord_take_profit := ord_take_profit o |}
     = on_order_request now st o) /\
  (snd (on_order_request now st o) = None ->
   fst (on_order_request now st o) = st) /\
  (forall f,
     snd (on_order_request now st o) = Some f ->
     filled_price f = ord_entry_price o /\
     instrument f = ord_instrument o /\
     action f = ord_action o /\
     time f = now /\
     calculate_position_size st (ord_entry_price o) = Some (size f) /\
     ~ size f == 0 /\
     update_positions st f = Some (fst (on_order_request now st o))).
Proof.
  split; [reflexivity|].
  unfold on_order_request.
  destruct (calculate_position_size st (ord_entry_price o)) as [sz|];
    [|split; [reflexivity | discriminate]].
  destruct (Qeq_bool sz 0) eqn:E; [split; [reflexivity | discriminate]|].
  destruct (update_positions st _) as [st1|] eqn:Hu;
    [|split; [reflexivity | discriminate]].
  split; [discriminate|].
  intros f H. simpl in H. injection H as <-. simpl.
  apply Qeq_bool_false in E. auto 10.
Qed.

(** X16.  A round trip through the book: buying [s] units of an
    instrument that has no entry and selling the same [s] leaves the
    book as it was and adds [(sell price - buy price) * s] to the
    realized P&L. *)
Theorem buy_then_sell_round_trip st (buy sell : FilledOrder) :
  action buy = "buy" -> action sell = "sell" ->
  instrument sell = instrument buy -> size sell = size buy ->
  open_positions st !! instrument buy = None ->
  exists st1 st2,
    update_positions st buy = Some st1 /\
    update_positions st1 sell = Some st2 /\
    open_positions st2 = open_positions st /\
    realized_pnl st2
    == realized_pnl st + (filled_price sell - filled_price buy) * size buy.
Proof.
  intros Hb Hs Hi Hsz Hlk.
  unfold update_positions at 1. rewrite Hb, Hlk. simpl.
  eexists. eexists. split; [reflexivity|].
  unfold update_positions. rewrite Hs, Hi. simpl.
  rewrite lookup_insert_eq. simpl. rewrite Hsz.
  assert (Hz : Qle_bool (size buy - size buy) 0 = true).
  { apply Qle_bool_iff. lra. }
  rewrite Hz. split; [reflexivity|]. simpl.
  split; [|reflexivity].
  rewrite delete_insert_eq. apply delete_id, Hlk.
Qed.

(** X17.  Adding to a long entry: the averaged entry price lies between
    the old entry price and the new fill price, while the stop-loss and
    take-profit stay those of the first buy; the levels that come with
    the later fill are dropped. *)
Theorem buy_more_averages st (fo : FilledOrder) (existing : Position) :
  action fo = "buy" ->
  open_positions st !! instrument fo = Some existing ->
  0 < pos_size existing -> 0 < size fo ->
  exists st' pos',
    update_positions st fo = Some st' /\
    open_positions st' !! instrument fo = Some pos' /\
    pos_size pos' = pos_size existing + size fo /\
    Qmin (entry_price existing) (filled_price fo) <= entry_price pos' /\
    entry_price pos' <= Qmax (entry_price existing) (filled_price fo) /\
    pos_stop_loss pos' = pos_stop_loss existing /\
    pos_take_profit pos' = pos_take_profit existing.
Proof.
  intros Ha Hlk Hex Hs.
  unfold update_positions. rewrite Ha, Hlk. simpl.
  assert (Hsum : 0 < pos_size existing + size fo) by lra.
  assert (Hnz : Qeq_bool (pos_size existing + size fo) 0 = false).
  { apply Qeq_bool_false. intros E. rewrite E in Hsum.
    exact (Qlt_irrefl _ Hsum). }
  rewrite Hnz. eexists. eexists. split; [reflexivity|]. simpl.
  split; [apply lookup_insert_eq|]. simpl.
  split; [reflexivity|].
  pose proof (Q.le_min_l (entry_price existing) (filled_price fo)).
  pose proof (Q.le_min_r (entry_price existing) (filled_price fo)).
  pose proof (Q.le_max_l (entry_price existing) (filled_price fo)).
  pose proof (Q.le_max_r (entry_price existing) (filled_price fo)).
  split; [apply Qle_shift_div_l; [exact Hsum | nra]|].
  split; [apply Qle_shift_div_r; [exact Hsum | nra]|].
  auto.
Qed.

End OrderHandlerMore.

(** ** More on portfolio accounting *)

Module PortfolioManagerMore.

Import Examples.
Import PortfolioManager.
Import PortfolioBook.
Local Open Scope Q_scope.

(** *** Sums over the position map *)

Lemma book_cost_insert_fresh (m : gmap string Position) i p :
  m !! i = None -> book_cost (<[i:=p]> m) == book_cost m + position_cost p.
Proof.
  intros Hi. unfold book_cost.
  apply (map_fold_insert Qeq (fun _ p acc => acc + position_cost p)).
  - intros j z a b Hab. rewrite Hab. reflexivity.
  - intros. ring.
  - exact Hi.
Qed.

Lemma book_cost_delete (m : gmap string Position) i p :
  m !! i = Some p -> book_cost m == book_cost (delete i m) + position_cost p.
Proof.
  intros Hi. rewrite <- (insert_delete_id m i p Hi) at 1.
  apply book_cost_insert_fresh, lookup_delete_eq.
Qed.

Lemma book_cost_insert (m : gmap string Position) i p :
  book_cost (<[i:=p]> m) == book_cost (delete i m) + position_cost p.
Proof.
  rewrite <- (insert_delete_eq m i p).
  apply book_cost_insert_fresh, lookup_delete_eq.
Qed.

Lemma book_cost_delete_absent (m : gmap string Position) i :
  m !! i = None -> book_cost (delete i m) = book_cost m.
Proof. intros Hi. rewrite delete_id by exact Hi. reflexivity. Qed.

Section Accounting.

Variable Timestamp : string -> option PdTimestamp.

Local Abbreviation update_positions_try := (update_positions_try Timestamp).
Local Abbreviation process_fill := (process_fill Timestamp).
Local Abbreviation handle := (handle Timestamp).
Local Abbreviation run := (run Timestamp).

(** The result of the closing branch, when both timestamps parse and
    can be subtracted. *)
Lemma update_positions_try_close pm trade pos t1 t2 delta :
  positions pm !! instrument trade = Some pos ->
  pos_size pos + size_change trade == 0 ->
  Timestamp (entry_time pos) = Some t1 ->
  Timestamp (time trade) = Some t2 ->
  timestamp_sub t2 t1 = Some delta ->
  let net :=
    if Qltb 0 (pos_size pos)
    then (filled_price trade - entry_price pos) * Qabs (size_change trade)
    else (entry_price pos - filled_price trade) * Qabs (size_change trade) in
  let trade1 := set_result net (bars_of delta) trade in
  update_positions_try pm trade
  = (set_positions (delete (instrument trade) (positions pm))
       (update_realized_pnl pm trade1), trade1, Done).
Proof.
  intros Hlk Hz Ht1 Ht2 Hsub. unfold PortfolioManager.update_positions_try.
  rewrite Hlk. simpl. apply Qeq_bool_true in Hz. rewrite Hz.
  rewrite andb_false_r, Ht1, Ht2, Hsub. simpl. rewrite Hlk. reflexivity.
Qed.

(** How one position update moves the cost of the book and the realized
    P&L, when its [try] body runs to the end. *)
Lemma update_positions_try_books pm trade :
  snd (update_positions_try pm trade) = Done ->
  let pm1 := fst (fst (update_positions_try pm trade)) in
  book_cost (positions pm1) - realized_pnl pm1
  == book_cost (positions pm) - realized_pnl pm
     + size_change trade * filled_price trade.
Proof.
  unfold PortfolioManager.update_positions_try.
  set (sc := size_change trade).
  destruct (positions pm !! instrument trade) as [pos|] eqn:Hlk; simpl.
  - pose proof (book_cost_delete _ _ _ Hlk) as Hbook.
    unfold position_cost in Hbook.
    destruct (Qeq_bool (pos_size pos) 0) eqn:Hold;
      destruct (Qeq_bool (pos_size pos + sc) 0) eqn:Hnew; simpl.
    + (* a zero-size entry closed by a zero-size fill *)
      apply Qeq_bool_true in Hold. apply Qeq_bool_true in Hnew.
      destruct (Timestamp (entry_time pos)) as [t1|]; [|discriminate].
      destruct (Timestamp (time trade)) as [t2|]; [|discriminate].
      destruct (timestamp_sub t2 t1) as [delta|]; [|discriminate].
      simpl. rewrite Hlk. simpl. intros _.
      assert (Hn : Qltb 0 (pos_size pos) = false)
        by (apply Qltb_ge; rewrite Hold; apply Qle_refl).
      rewrite Hn, Hbook.
      assert (Hsc : sc == 0) by (rewrite Hold in Hnew; lra).
      rewrite Hsc, Hold. change (Qabs 0) with 0. ring.
    + (* a zero-size entry reopened *)
      intros _. apply Qeq_bool_true in Hold.
      rewrite book_cost_insert, Hbook. unfold position_cost. simpl.
      rewrite Hold. ring.
    + (* closing *)
      apply Qeq_bool_true in Hnew.
      destruct (Timestamp (entry_time pos)) as [t1|]; [|discriminate].
      destruct (Timestamp (time trade)) as [t2|]; [|discriminate].
      destruct (timestamp_sub t2 t1) as [delta|]; [|discriminate].
      simpl. rewrite Hlk. simpl. intros _.
      assert (Hsc : sc == - pos_size pos) by lra.
      destruct (Qltb 0 (pos_size pos)) eqn:Hl.
      * apply Qltb_lt in Hl. rewrite Hbook, Hsc, Qabs_opp.
        rewrite (Qabs_pos (pos_size pos)) by lra. ring.
      * apply Qltb_ge in Hl. rewrite Hbook, Hsc, Qabs_opp.
        rewrite (Qabs_neg (pos_size pos)) by exact Hl. ring.
    + (* adjusting *)
      intros _. apply Qeq_bool_false in Hnew.
      rewrite book_cost_insert, Hbook. unfold position_cost. simpl.
      field. exact Hnew.
  - change (Qeq_bool 0 0) with true. simpl.
    destruct (Qeq_bool (0 + sc) 0) eqn:Hnew; simpl.
    + (* nothing held, nothing traded: [del] raises [KeyError] *)
      destruct (Timestamp (time trade)) as [t2|]; [|discriminate].
      destruct (timestamp_sub t2 t2) as [delta|]; [|discriminate].
      simpl. rewrite Hlk. simpl. discriminate.
    + (* opening *)
      intros _. rewrite book_cost_insert_fresh by exact Hlk.
      unfold position_cost. simpl. ring.
Qed.

Ltac split_try :=
  unfold PortfolioManager.update_positions_try;
  repeat (match goal with
          | |- context [if ?c then _ else _] => destruct c
          | |- context [match ?c with Some _ => _ | None => _ end] =>
              destruct c
          end; simpl; auto).

Lemma update_positions_try_rest pm trade :
  let pm1 := fst (fst (update_positions_try pm trade)) in
  starting_cash pm1 = starting_cash pm /\
  market_data pm1 = market_data pm.
Proof. split_try. Qed.

(** What the four steps of a fill leave in each field. *)
Lemma process_fill_fields pm trade :
  let pm1 := fst (fst (update_positions_try pm trade)) in
  let trade1 := snd (fst (update_positions_try pm trade)) in
  let pm' := process_fill pm trade in
  positions pm' = positions pm1 /\
  realized_pnl pm' = realized_pnl pm1 /\
  starting_cash pm' = starting_cash pm /\
  market_data pm' = market_data pm /\
  trades pm' = trades pm ++ [trade1] /\
  cash pm' == cash pm - size_change trade * filled_price trade.
Proof.
  intros pm1 trade1 pm'.
  destruct (PortfolioManagerProps.process_fill_effects Timestamp pm trade)
    as [Hcash _]. cbn zeta in Hcash. fold pm' in Hcash.
  destruct (update_positions_try_rest pm trade) as [Hsc Hmd].
  destruct (PortfolioManagerProps.update_positions_try_frame
              Timestamp pm trade) as (_ & _ & Htr).
  cbn zeta in Hsc, Hmd, Htr. fold pm1 in Hsc, Hmd, Htr.
  subst pm'. unfold PortfolioManager.process_fill,
    PortfolioManager.update_positions in *.
  fold pm1 trade1 in Hcash |- *.
  destruct (PortfolioManager.update_positions_try Timestamp pm trade)
    as [[pmx tradex] o]. simpl in pm1, trade1. subst pm1 trade1.
  simpl fst in *. simpl snd in *. cbv iota beta in *.
  unfold set_trades, update_equity_curve in *.
  cbn [positions realized_pnl starting_cash market_data trades cash
       calculate_unrealized_pnl set_equity_curve set_unrealized_pnl
       equity_curve fst snd] in *.
  assert (Hu : positions (update_cash pmx tradex) = positions pmx /\
               realized_pnl (update_cash pmx tradex) = realized_pnl pmx /\
               starting_cash (update_cash pmx tradex) = starting_cash pmx /\
               market_data (update_cash pmx tradex) = market_data pmx /\
               trades (update_cash pmx tradex) = trades pmx).
  { unfold update_cash.
    destruct (String.eqb (action tradex) "buy"); simpl; auto 10. }
  destruct Hu as (-> & -> & -> & -> & ->).
  rewrite Hsc, Hmd, Htr. repeat (split; [reflexivity|]).
  rewrite Hcash. unfold size_change.
  destruct (String.eqb (action trade) "buy"); ring.
Qed.

Lemma process_fill_balanced pm trade :
  snd (update_positions_try pm trade) = Done ->
  balanced pm -> balanced (process_fill pm trade).
Proof.
  intros Hdone Hbal. unfold balanced in *.
  destruct (process_fill_fields pm trade) as (-> & -> & -> & _ & _ & ->).
  pose proof (update_positions_try_books pm trade Hdone) as Hb.
  cbn zeta in Hb. lra.
Qed.

Lemma handle_cases pm ev :
  handle pm ev = pm \/
  handle pm ev = process_fill pm (event_trade pm ev).
Proof.
  destruct ev as [now od | now si]; simpl.
  - right. reflexivity.
  - unfold on_stop_triggered. destruct (Qltb 0 _); auto.
Qed.

Lemma handle_fill_cases pm ev :
  (is_fill pm ev = false /\ handle pm ev = pm) \/
  (is_fill pm ev = true /\
   handle pm ev = process_fill pm (event_trade pm ev)).
Proof.
  destruct ev as [now od | now si]; simpl.
  - right. split; reflexivity.
  - unfold on_stop_triggered. destruct (Qltb 0 _); auto.
Qed.

Lemma run_balanced evs : forall pm,
  run_without_error Timestamp pm evs = true ->
  balanced pm -> balanced (run pm evs).
Proof.
  unfold PortfolioManager.run.
  induction evs as [|ev evs IH]; intros pm Hrun Hbal; [exact Hbal|].
  simpl in Hrun |- *. apply andb_true_iff in Hrun as [Hev Hrest].
  apply IH; [exact Hrest|].
  destruct (handle_fill_cases pm ev) as [[_ ->] | [Hfill ->]];
    [exact Hbal|].
  apply process_fill_balanced; [|exact Hbal].
  unfold handled_without_error in Hev. rewrite Hfill in Hev. simpl in Hev.
  destruct (snd (PortfolioManager.update_positions_try Timestamp pm
                   (event_trade pm ev))); [reflexivity | discriminate].
Qed.

(** X18.  The books balance: after any sequence of order fills and stop
    triggers in which [update_positions] never ends in its [except]
    branch (no timestamp of a closing fill fails to parse or to
    subtract, nothing is closed that is not held), the cash plus the
    cost of the open positions (signed size at entry price) equals the
    starting cash plus the realized P&L; with no position open, cash
    alone is the starting cash plus the realized P&L. *)
Theorem books_balance (starting_cash : Q) (evs : list Event) :
  run_without_error Timestamp (init starting_cash) evs = true ->
  let pm := run (init starting_cash) evs in
  cash pm + book_cost (positions pm) == starting_cash + realized_pnl pm /\
  (positions pm = ∅ -> cash pm == starting_cash + realized_pnl pm).
Proof.
  intros Hrun pm.
  assert (Hinit : balanced (init starting_cash)).
  { unfold balanced, book_cost. simpl. rewrite map_fold_empty. ring. }
  pose proof (run_balanced evs _ Hrun Hinit) as Hbal. fold pm in Hbal.
  assert (Hsc : PortfolioManager.starting_cash pm = starting_cash).
  { subst pm. clear. unfold PortfolioManager.run.
    change starting_cash
      with (PortfolioManager.starting_cash (init starting_cash)) at 2.
    generalize (init starting_cash) as pm0.
    induction evs as [|ev evs IH]; intros pm0; [reflexivity|].
    simpl. rewrite IH.
    destruct (handle_cases pm0 ev) as [-> | ->]; [reflexivity|].
    apply process_fill_fields. }
  unfold balanced in Hbal. rewrite Hsc in Hbal.
  split; [exact Hbal|].
  intros Hempty. rewrite Hempty in Hbal. unfold book_cost in Hbal.
  rewrite map_fold_empty in Hbal. lra.
Qed.

(** *** Realized P&L and the ledger *)

Lemma sum_snoc (l : list Q) (x : Q) : sum (l ++ [x]) == sum l + x.
Proof.
  unfold sum. induction l as [|y l IH]; simpl; [ring|].
  rewrite IH. ring.
Qed.

Lemma update_positions_try_net pm trade :
  net_profit trade == 0 ->
  let pm1 := fst (fst (update_positions_try pm trade)) in
  let trade1 := snd (fst (update_positions_try pm trade)) in
  realized_pnl pm1 == realized_pnl pm + net_profit trade1.
Proof.
  intros H0. unfold PortfolioManager.update_positions_try.
  repeat (match goal with
          | |- context [if ?c then _ else _] => destruct c
          | |- context [match ?c with Some _ => _ | None => _ end] =>
              destruct c
          end; simpl; try (rewrite H0; ring); try reflexivity).
Qed.

Lemma event_trade_net pm ev : net_profit (event_trade pm ev) = 0.
Proof. destruct ev; reflexivity. Qed.

Lemma process_fill_ledger_sums pm trade :
  net_profit trade == 0 ->
  ledger_sums pm -> ledger_sums (process_fill pm trade).
Proof.
  intros H0 Hinv. unfold ledger_sums in *.
  destruct (process_fill_fields pm trade) as (_ & -> & _ & _ & -> & _).
  rewrite map_app. cbn [map]. rewrite sum_snoc.
  rewrite (update_positions_try_net pm trade H0), Hinv. reflexivity.
Qed.

Lemma run_ledger_sums evs : forall pm,
  ledger_sums pm -> ledger_sums (run pm evs).
Proof.
  unfold PortfolioManager.run.
  induction evs as [|ev evs IH]; intros pm Hinv; [exact Hinv|].
  simpl. apply IH.
  destruct (handle_cases pm ev) as [-> | ->]; [exact Hinv|].
  apply process_fill_ledger_sums; [|exact Hinv].
  rewrite event_trade_net. reflexivity.
Qed.

Lemma sum_net_profit_split (df : list Trade) :
  sum (map net_profit df) == gross_profit df + gross_loss df.
Proof.
  unfold gross_profit, gross_loss, sum.
  induction df as [|t df IH]; cbn [List.filter map foldr]; [ring|].
  destruct (is_win t) eqn:Hw; destruct (is_loss t) eqn:Hl;
    unfold is_win in Hw; unfold is_loss in Hl;
    cbn [map foldr]; rewrite IH.
  - apply Qltb_lt in Hw. apply Qltb_lt in Hl. lra.
  - ring.
  - ring.
  - apply Qltb_ge in Hw. apply Qltb_ge in Hl.
    assert (H0 : net_profit t == 0) by lra. rewrite H0. ring.
Qed.

Lemma gross_signs (df : list Trade) :
  0 <= gross_profit df /\ gross_loss df <= 0.
Proof.
  unfold gross_profit, gross_loss, sum.
  induction df as [|t df [IHp IHl]]; cbn [List.filter map foldr];
    [split; apply Qle_refl|].
  destruct (is_win t) eqn:Hw; destruct (is_loss t) eqn:Hl;
    unfold is_win in Hw; unfold is_loss in Hl;
    cbn [map foldr];
    try apply Qltb_lt in Hw; try apply Qltb_lt in Hl; split; lra.
Qed.

(** *** Equity without market data *)

Lemma unrealized_zero pm :
  market_data pm = ∅ -> fst (calculate_unrealized_pnl pm) == 0.
Proof.
  intros Hmd. unfold calculate_unrealized_pnl. simpl. rewrite Hmd.
  apply (map_fold_weak_ind (fun r _ => r == 0)); [reflexivity|].
  intros i x m r _ Hr. rewrite Hr. unfold position_pnl.
  rewrite lookup_empty. destruct (Qltb 0 (pos_size x)); ring.
Qed.

Lemma process_fill_unrealized pm trade :
  market_data pm = ∅ -> unrealized_pnl (process_fill pm trade) == 0.
Proof.
  intros Hmd.
  destruct (update_positions_try_rest pm trade) as [_ Hmd1].
  cbn zeta in Hmd1. rewrite Hmd in Hmd1.
  unfold PortfolioManager.process_fill, PortfolioManager.update_positions.
  destruct (PortfolioManager.update_positions_try Timestamp pm trade)
    as [[pmx tradex] o]. simpl in Hmd1. simpl fst. simpl snd.
  cbv iota beta.
  assert (Hmd2 : market_data (update_cash pmx tradex) = ∅).
  { unfold update_cash.
    destruct (String.eqb (action tradex) "buy"); exact Hmd1. }
  exact (unrealized_zero _ Hmd2).
Qed.

Lemma run_marked_at_cost evs : forall pm,
  marked_at_cost pm -> marked_at_cost (run pm evs).
Proof.
  unfold PortfolioManager.run.
  induction evs as [|ev evs IH]; intros pm Hinv; [exact Hinv|].
  simpl. apply IH.
  destruct (handle_cases pm ev) as [-> | ->]; [exact Hinv|].
  destruct Hinv as [Hmd _]. split.
  - destruct (process_fill_fields pm (event_trade pm ev))
      as (_ & _ & _ & -> & _). exact Hmd.
  - destruct (PortfolioManagerProps.process_fill_appends Timestamp pm
                (event_trade pm ev)) as [-> _].
    rewrite last_snoc. eexists. split; [reflexivity|].
    rewrite (process_fill_unrealized pm _ Hmd). ring.
Qed.

Lemma init_marked_at_cost starting_cash :
  marked_at_cost (init starting_cash).
Proof.
  split; [reflexivity|]. exists starting_cash.
  split; [reflexivity | apply Qeq_refl].
Qed.

(** X19.  Nothing in the portfolio ever writes [market_data], so
    positions are always marked at their entry price: after any
    sequence of events the unrealized P&L computed is zero, the last
    equity entry is just the cash balance, and [get_pnl] returns the
    realized P&L alone. *)
Theorem equity_is_cash (starting_cash : Q) (evs : list Event) :
  let pm := run (init starting_cash) evs in
  market_data pm = ∅ /\
  fst (calculate_unrealized_pnl pm) == 0 /\
  (exists e, last (equity_curve pm) = Some e /\ e == cash pm) /\
  fst (get_pnl pm) == realized_pnl pm.
Proof.
  intros pm.
  destruct (run_marked_at_cost evs _ (init_marked_at_cost starting_cash))
    as [Hmd Hlast]. fold pm in Hmd, Hlast.
  pose proof (unrealized_zero pm Hmd) as Hu.
  split; [exact Hmd|]. split; [exact Hu|]. split; [exact Hlast|].
  unfold get_pnl. unfold calculate_unrealized_pnl in *. simpl in *.
  rewrite Hu. ring.
Qed.

(** *** Stops and partial closes *)

Lemma Qabs_pos_of_nonzero (x : Q) : ~ x == 0 -> 0 < Qabs x.
Proof.
  intros Hx. destruct (Qlt_le_dec 0 x) as [H|H].
  - rewrite Qabs_pos by lra. exact H.
  - rewrite Qabs_neg by exact H.
    destruct (Qle_lt_or_eq _ _ H) as [Hlt|Heq]; [lra | contradiction].
Qed.

Lemma stop_trade_size_change now pm si pos :
  positions pm !! stop_instrument si = Some pos ->
  size_change (stop_trade now pm si) == - pos_size pos.
Proof.
  intros Hlk. unfold size_change, stop_trade, current_size. rewrite Hlk.
  cbn [action size].
  destruct (Qltb 0 (pos_size pos)) eqn:Hl; simpl.
  - apply Qltb_lt in Hl. rewrite Qabs_pos by lra. reflexivity.
  - apply Qltb_ge in Hl. rewrite Qabs_neg by exact Hl. reflexivity.
Qed.

(** X21.  A stop trigger for an instrument without a position changes
    nothing at all.  For an instrument with a position, when the entry
    time and the clock reading parse and the one can be subtracted from
    the other (both tz-aware or both tz-naive, or one of them [NaT]),
    it closes the whole position at the stop level: the entry leaves
    the map, a row tagged with the trigger's reason is added to the
    ledger, selling a long and buying back a short, with
    [max(days held, 1)] bars held (NaN for a difference with [NaT]),
    and both the realized P&L and the profit on the row grow by
    [(stop level - entry price) * signed size]. *)
Theorem stop_trigger_unwinds now pm si :
  (positions pm !! stop_instrument si = None ->
   on_stop_triggered Timestamp now pm si = pm) /\
  (forall pos t1 t2 delta,
     positions pm !! stop_instrument si = Some pos ->
     ~ pos_size pos == 0 ->
     Timestamp (entry_time pos) = Some t1 -> Timestamp now = Some t2 ->
     timestamp_sub t2 t1 = Some delta ->
     let pm' := on_stop_triggered Timestamp now pm si in
     positions pm' = delete (stop_instrument si) (positions pm) /\
     cash pm' == cash pm + stop_level si * pos_size pos /\
     exists row,
       trades pm' = trades pm ++ [row] /\
       instrument row = stop_instrument si /\
       action row = (if Qltb 0 (pos_size pos) then "sell" else "buy") /\
       size row = Qabs (pos_size pos) /\
       filled_price row = stop_level si /\
       reason row = stop_reason si /\
       bars_held row = bars_of delta /\
       net_profit row == (stop_level si - entry_price pos) * pos_size pos /\
       realized_pnl pm' == realized_pnl pm + net_profit row).
Proof.
  split.
  - intros Hlk. unfold on_stop_triggered, current_size. rewrite Hlk.
    reflexivity.
  - intros pos t1 t2 delta Hlk Hnz Ht1 Ht2 Hsub pm'.
    pose proof (Qabs_pos_of_nonzero _ Hnz) as Habs.
    pose proof (stop_trade_size_change now pm si pos Hlk) as Hsc.
    assert (Hfill : pm' = process_fill pm (stop_trade now pm si)).
    { subst pm'. unfold on_stop_triggered, current_size. rewrite Hlk.
      apply Qltb_lt in Habs. rewrite Habs. reflexivity. }
    assert (Hst : stop_trade now pm si
                  = {| instrument := stop_instrument si;
                       action := if Qltb 0 (pos_size pos)
                                 then "sell" else "buy";
                       size := Qabs (pos_size pos);
                       filled_price := stop_level si;
                       time := now;
                       reason := stop_reason si;
                       net_profit := 0;
                       bars_held := Whole 0 |}).
    { unfold stop_trade, current_size. rewrite Hlk. reflexivity. }
    assert (Hzero : pos_size pos + size_change (stop_trade now pm si) == 0)
      by (rewrite Hsc; ring).
    pose proof (update_positions_try_close pm (stop_trade now pm si) pos
                  t1 t2 delta Hlk Hzero Ht1 Ht2 Hsub) as Htry.
    cbn zeta in Htry.
    destruct (process_fill_fields pm (stop_trade now pm si))
      as (Hpos & Hreal & _ & _ & Htr & Hcash).
    cbn zeta in Hpos, Hreal, Htr, Hcash.
    rewrite Htry in Hpos, Hreal, Htr.
    cbn [fst snd positions set_positions realized_pnl
         update_realized_pnl set_realized_pnl] in Hpos, Hreal, Htr.
    rewrite Hfill.
    split; [rewrite Hpos, Hst; reflexivity|].
    split; [rewrite Hcash, Hsc, Hst; simpl; ring|].
    eexists. split; [exact Htr|].
    assert (Hnet :
      (if Qltb 0 (pos_size pos)
       then (filled_price (stop_trade now pm si) - entry_price pos)
            * Qabs (size_change (stop_trade now pm si))
       else (entry_price pos - filled_price (stop_trade now pm si))
            * Qabs (size_change (stop_trade now pm si)))
      == (stop_level si - entry_price pos) * pos_size pos).
    { destruct (Qltb 0 (pos_size pos)) eqn:Hl; rewrite Hsc, Qabs_opp;
        rewrite Hst; cbn [filled_price].
      - apply Qltb_lt in Hl. rewrite Qabs_pos by lra. reflexivity.
      - apply Qltb_ge in Hl. rewrite Qabs_neg by exact Hl. ring. }
    cbn [instrument action size filled_price reason bars_held net_profit
         set_result].
    split; [rewrite Hst; reflexivity|].
    split; [rewrite Hst; reflexivity|].
    split; [rewrite Hst; reflexivity|].
    split; [rewrite Hst; reflexivity|].
    split; [rewrite Hst; reflexivity|].
    split; [reflexivity|].
    split; [exact Hnet|].
    rewrite Hreal. cbn [net_profit set_result]. reflexivity.
Qed.

(** X22.  A sell that only reduces a long position realizes nothing:
    the realized P&L and the trade's profit stay as they are, the entry
    time is kept, and the profit or loss on the part sold is folded into
    the entry price of the rest, which drops below the old entry price
    when the sale was above it and rises above it when the sale was
    below. *)
Theorem partial_close_folds_profit pm trade pos :
  positions pm !! instrument trade = Some pos ->
  action trade <> "buy" ->
  0 < size trade -> size trade < pos_size pos ->
  let pm' := fst (update_positions Timestamp pm trade) in
  let trade' := snd (update_positions Timestamp pm trade) in
  exists pos',
    positions pm' !! instrument trade = Some pos' /\
    pos_size pos' == pos_size pos - size trade /\
    entry_price pos'
    == (pos_size pos * entry_price pos - size trade * filled_price trade)
       / (pos_size pos - size trade) /\
    entry_time pos' = entry_time pos /\
    realized_pnl pm' = realized_pnl pm /\
    trade' = trade /\
    (entry_price pos < filled_price trade ->
     entry_price pos' < entry_price pos) /\
    (filled_price trade < entry_price pos ->
     entry_price pos < entry_price pos').
Proof.
  intros Hlk Ha Hs Hlt.
  unfold PortfolioManager.update_positions,
    PortfolioManager.update_positions_try, size_change.
  apply String.eqb_neq in Ha. rewrite Hlk, Ha. simpl.
  assert (Hold : Qeq_bool (pos_size pos) 0 = false)
    by (apply Qeq_bool_false; intros E; lra).
  assert (Hrest : 0 < pos_size pos + - size trade) by lra.
  assert (Hnew : Qeq_bool (pos_size pos + - size trade) 0 = false)
    by (apply Qeq_bool_false; intros E; lra).
  rewrite Hold, Hnew. simpl.
  eexists. split; [apply lookup_insert_eq|]. simpl.
  split; [ring|].
  split; [field; intros E; lra|].
  split; [reflexivity|]. split; [reflexivity|]. split; [reflexivity|].
  split; intros Hp.
  - apply Qlt_shift_div_r; [exact Hrest | nra].
  - apply Qlt_shift_div_l; [exact Hrest | nra].
Qed.

End Accounting.

(** *** The report *)

Section Reports.

Variable Timestamp : string -> option PdTimestamp.
Variable to_datetime : list string -> option (list (option Z)).
Variable Pow : Type.
Variable annual_rate : Q -> Q -> option Pow.

Local Abbreviation run := (run Timestamp).
Local Abbreviation calculate_performance_metrics :=
  (calculate_performance_metrics to_datetime Pow annual_rate).

(** The fields of a returned report, read off the ledger and the curve. *)
Lemma report_fields pm m :
  calculate_performance_metrics pm = Some m ->
  trades pm <> [] /\
  all_gross_profit m = gross_profit (trades pm) /\
  all_gross_loss m = gross_loss (trades pm) /\
  all_net_profit m = gross_profit (trades pm) + gross_loss (trades pm) /\
  all_profit_factor m
  = pf (gross_profit (trades pm)) (gross_loss (trades pm)) /\
  total_trades m = length (trades pm) /\
  all_winning_percentage m
  = pct (winning_count (trades pm)) (length (trades pm)) /\
  all_losing_percentage m
  = 100 - pct (winning_count (trades pm)) (length (trades pm)) /\
  (max_consec_wins m, max_consec_losses m)
  = streaks (map net_profit (trades pm)) O O O O /\
  exists top,
    series_max (maximum_accumulate (equity_curve pm)) = Some top /\
    max_equity_runup m = top - starting_cash pm.
Proof.
  unfold PortfolioManager.calculate_performance_metrics.
  destruct (trades pm) as [|t ts] eqn:Htr; [discriminate|].
  destruct (streaks _ _ _ _ _) as [w l].
  destruct (max_drawdown_of (equity_curve pm)) as [d|]; [|discriminate].
  simpl.
  destruct (series_max _) as [top|]; [|discriminate]. simpl.
  destruct (to_datetime _) as [times|]; [|discriminate]. simpl.
  destruct (last (equity_curve pm)) as [final|]; [|discriminate]. simpl.
  destruct (Qeq_bool (starting_cash pm) 0); [discriminate|].
  match goal with
  | |- context [mbind _ ?rate] => destruct rate as [r|]; [|discriminate]
  end.
  simpl.
  intros H. injection H as <-. simpl.
  split; [discriminate|]. repeat (split; [reflexivity|]).
  exists top. split; reflexivity.
Qed.

(** X20.  The report agrees with the accountant: after any sequence of
    events the realized P&L is the sum of the net profits in the
    ledger, and the "Total Net Profit (All Trades)" of a returned
    report is that same amount. *)
Theorem report_net_profit_is_realized (starting_cash : Q)
    (evs : list Event) :
  let pm := run (init starting_cash) evs in
  realized_pnl pm == sum (map net_profit (trades pm)) /\
  forall m,
    calculate_performance_metrics pm = Some m ->
    all_net_profit m == realized_pnl pm.
Proof.
  intros pm.
  assert (Hinit : ledger_sums (init starting_cash)) by reflexivity.
  pose proof (run_ledger_sums Timestamp evs _ Hinit) as Hsum.
  fold pm in Hsum. unfold ledger_sums in Hsum.
  split; [exact Hsum|].
  intros m Hm.
  destruct (report_fields pm m Hm) as (_ & _ & _ & -> & _).
  rewrite Hsum. symmetry. apply sum_net_profit_split.
Qed.

Lemma win_loss_counts (df : list Trade) :
  (winning_count df + losing_count df <= length df)%nat.
Proof.
  unfold winning_count, losing_count.
  induction df as [|t df IH]; cbn [List.filter length]; [lia|].
  destruct (is_win t) eqn:Hw; destruct (is_loss t) eqn:Hl;
    cbn [length]; try lia.
  unfold is_win in Hw. unfold is_loss in Hl.
  apply Qltb_lt in Hw. apply Qltb_lt in Hl. lra.
Qed.

Lemma pct_mono (a b n : nat) :
  (a <= b)%nat -> pct a n <= pct b n.
Proof.
  intros Hab. unfold pct.
  destruct (0 <? n)%nat eqn:Hn; [|apply Qle_refl].
  apply Nat.ltb_lt in Hn.
  assert (Hpos : 0 < of_Z (Z.of_nat n)).
  { unfold of_Z. change 0 with (inject_Z 0). rewrite <- Zlt_Qlt. lia. }
  assert (Hle : of_Z (Z.of_nat a) <= of_Z (Z.of_nat b)).
  { unfold of_Z. rewrite <- Zle_Qle. lia. }
  apply Qmult_le_compat_r; [|lra].
  unfold Qdiv. apply Qmult_le_compat_r; [exact Hle|].
  apply Qinv_le_0_compat. lra.
Qed.

Lemma pct_complement_count (w n : nat) :
  (0 < n)%nat -> (w <= n)%nat -> 100 - pct w n == pct (n - w) n.
Proof.
  intros Hn Hw. unfold pct.
  assert (Hb : (0 <? n)%nat = true) by (apply Nat.ltb_lt, Hn).
  rewrite Hb. unfold of_Z.
  rewrite Nat2Z.inj_sub by exact Hw. unfold Z.sub.
  rewrite inject_Z_plus, inject_Z_opp.
  field. change 0 with (inject_Z 0). rewrite inject_Z_injective. lia.
Qed.

(** X23.  The "losing percentage" of the report is the share of trades
    that did not win, not the share that lost: every trade with a net
    profit of exactly zero, which each opening fill is, counts towards
    it, so it is never below the share of losing trades. *)
Theorem losing_percentage_counts_breakeven pm m :
  calculate_performance_metrics pm = Some m ->
  let n := length (trades pm) in
  all_losing_percentage m == pct (n - winning_count (trades pm)) n /\
  pct (losing_count (trades pm)) n <= all_losing_percentage m.
Proof.
  intros Hm n.
  destruct (report_fields pm m Hm)
    as (Hne & _ & _ & _ & _ & _ & _ & -> & _).
  pose proof (win_loss_counts (trades pm)) as Hc. fold n in Hc |- *.
  assert (Hn : (0 < n)%nat).
  { subst n. destruct (trades pm); [congruence | simpl; lia]. }
  assert (Heq : 100 - pct (winning_count (trades pm)) n
                == pct (n - winning_count (trades pm)) n)
    by (apply pct_complement_count; lia).
  split; [exact Heq|].
  rewrite Heq. apply pct_mono. lia.
Qed.

Lemma streaks_bounds (ps : list Q) : forall mw ml cw cl,
  let wins := length (List.filter (Qltb 0) ps) in
  (fst (streaks ps mw ml cw cl) <= Nat.max mw (cw + wins))%nat /\
  (snd (streaks ps mw ml cw cl)
   <= Nat.max ml (cl + (length ps - wins)))%nat.
Proof.
  induction ps as [|p ps IH]; intros mw ml cw cl; cbn [streaks].
  - simpl. lia.
  - cbn [List.filter length].
    assert (Hle : (length (List.filter (Qltb 0) ps) <= length ps)%nat).
    { clear. induction ps as [|q ps IH]; simpl; [lia|].
      destruct (Qltb 0 q); simpl; lia. }
    destruct (Qltb 0 p); cbn [length].
    + destruct (IH (Nat.max mw (S cw)) ml (S cw) O) as [Hw Hl].
      cbn zeta in Hw, Hl. cbn zeta. split; lia.
    + destruct (IH mw (Nat.max ml (S cl)) O (S cl)) as [Hw Hl].
      cbn zeta in Hw, Hl. cbn zeta. split; lia.
Qed.

Lemma winning_count_filter (df : list Trade) :
  length (List.filter (Qltb 0) (map net_profit df)) = winning_count df.
Proof.
  unfold winning_count.
  induction df as [|t df IH]; cbn [map List.filter]; [reflexivity|].
  unfold is_win at 1. destruct (Qltb 0 (net_profit t)); simpl; lia.
Qed.

(** X24.  The streaks of the report: the longest winning streak is at
    most the number of winning trades, and the longest "losing" streak,
    which breakeven trades extend, is at most the number of trades that
    did not win. *)
Theorem streaks_bounded pm m :
  calculate_performance_metrics pm = Some m ->
  (max_consec_wins m <= winning_count (trades pm))%nat /\
  (max_consec_losses m
   <= length (trades pm) - winning_count (trades pm))%nat.
Proof.
  intros Hm.
  destruct (report_fields pm m Hm)
    as (_ & _ & _ & _ & _ & _ & _ & _ & Hs & _).
  destruct (streaks_bounds (map net_profit (trades pm)) O O O O)
    as [Hw Hl].
  cbn zeta in Hw, Hl. rewrite <- Hs in Hw, Hl. simpl in Hw, Hl.
  rewrite winning_count_filter in Hw, Hl. rewrite length_map in Hl.
  split; lia.
Qed.

Lemma accumulate_dominates (l : list Q) : forall m a,
  a <= foldl Qmax a (accumulate_from m l) /\
  forall e, In e l -> e <= foldl Qmax a (accumulate_from m l).
Proof.
  induction l as [|x l IH]; intros m a; cbn [accumulate_from foldl].
  - split; [apply Qle_refl | intros e []].
  - destruct (IH (Qmax m x) (Qmax a (Qmax m x))) as [Ha He].
    pose proof (Q.le_max_l a (Qmax m x)).
    pose proof (Q.le_max_r a (Qmax m x)).
    pose proof (Q.le_max_r m x).
    split; [lra|].
    intros e [<- | Hin]; [lra | apply He, Hin].
Qed.

Lemma running_top_dominates (curve : list Q) top :
  series_max (maximum_accumulate curve) = Some top ->
  forall e, In e curve -> e <= top.
Proof.
  destruct curve as [|x rest]; [discriminate|].
  cbn [maximum_accumulate series_max]. intros H. injection H as <-.
  destruct (accumulate_dominates rest x x) as [Hx Hrest].
  intros e [<- | Hin]; [exact Hx | apply Hrest, Hin].
Qed.

Lemma run_starting_cash evs : forall pm,
  starting_cash (run pm evs) = starting_cash pm /\
  forall e, In e (equity_curve pm) -> In e (equity_curve (run pm evs)).
Proof.
  intros pm. split.
  - revert pm. unfold PortfolioManager.run.
    induction evs as [|ev evs IH]; intros pm; [reflexivity|].
    simpl. rewrite IH.
    destruct (handle_cases Timestamp pm ev) as [-> | ->]; [reflexivity|].
    apply process_fill_fields.
  - destruct (PortfolioManagerProps.run_equity_curve Timestamp evs pm)
      as (_ & [k Hk] & _).
    intros e He. rewrite Hk. apply in_or_app. left. exact He.
Qed.

(** X25.  The run-up of the report is measured from the starting cash
    and is never negative: no entry of the equity curve exceeds the
    starting cash by more than "Max Equity Run-up". *)
Theorem runup_dominates_curve (starting_cash : Q) (evs : list Event) m :
  let pm := run (init starting_cash) evs in
  calculate_performance_metrics pm = Some m ->
  0 <= max_equity_runup m /\
  forall e, In e (equity_curve pm) -> e - starting_cash <= max_equity_runup m.
Proof.
  intros pm Hm.
  destruct (report_fields pm m Hm)
    as (_ & _ & _ & _ & _ & _ & _ & _ & _ & top & Htop & ->).
  destruct (run_starting_cash evs (init starting_cash)) as [Hsc Hin].
  fold pm in Hsc, Hin. simpl in Hsc. rewrite Hsc.
  pose proof (running_top_dominates _ _ Htop) as Hdom.
  split.
  - assert (H0 : starting_cash <= top).
    { apply Hdom, Hin. simpl. left. reflexivity. }
    lra.
  - intros e He. pose proof (Hdom e He). lra.
Qed.

End Reports.

End PortfolioManagerMore.

(** * The receivers downstream of the strategy *)

Module PipelineProps.

Import Pipeline.
Local Open Scope Q_scope.

Section Bus.

Variable Timestamp : string -> option PortfolioManager.PdTimestamp.

(** X26.  An accepted signal for an instrument that neither book holds,
    sized by the order handler to a non-zero [sz]: a 'buy' opens the
    same position of size [sz] at the order's entry price in the order
    handler's book and in the portfolio; a 'sell' leaves the order
    handler's book without the instrument, while the portfolio opens a
    short position of size [- sz]. *)
Theorem accepted_signal_reaches_books now st sig o rm' sz :
  RiskManager.apply_risk_rules (risk_manager st) sig = (Some o, rm') ->
  OrderHandler.calculate_position_size (order_handler st)
    (ord_entry_price o) = Some sz ->
  ~ sz == 0 ->
  OrderHandler.open_positions (order_handler st) !! ord_instrument o = None ->
  PortfolioManager.positions (portfolio st) !! ord_instrument o = None ->
  let st' := on_strategy_signal Timestamp now st sig in
  (ord_action o = "buy" ->
   (exists hp,
      OrderHandler.open_positions (order_handler st') !! ord_instrument o
        = Some hp /\
      OrderHandler.pos_size hp = sz /\
      OrderHandler.entry_price hp = ord_entry_price o) /\
   (exists pp,
      PortfolioManager.positions (portfolio st') !! ord_instrument o
        = Some pp /\
      PortfolioManager.pos_size pp == sz /\
      PortfolioManager.entry_price pp = ord_entry_price o)) /\
  (ord_action o = "sell" ->
   OrderHandler.open_positions (order_handler st') !! ord_instrument o
     = None /\
   (exists pp,
      PortfolioManager.positions (portfolio st') !! ord_instrument o
        = Some pp /\
      PortfolioManager.pos_size pp == - sz /\
      PortfolioManager.entry_price pp = ord_entry_price o)).
Proof.
  intros Happ Hsz Hnz Hoh Hpm st'. subst st'.
  unfold on_strategy_signal. rewrite Happ.
  unfold OrderHandler.on_order_request. rewrite Hsz.
  rewrite (proj2 (PyNumFacts.Qeq_bool_false _ _) Hnz).
  assert (Hopen : forall act d,
    (d == sz \/ d == - sz) ->
    PortfolioManager.size_change
      (PortfolioManager.order_trade now
         (order_data
            {| OrderHandler.instrument := ord_instrument o;
               OrderHandler.filled_price := ord_entry_price o;
               OrderHandler.size := sz;
               OrderHandler.time := now;
               OrderHandler.action := act;
               OrderHandler.stop_loss := ord_stop_loss o;
               OrderHandler.take_profit := ord_take_profit o |})) = d ->
    exists pp,
      PortfolioManager.positions
        (PortfolioManager.on_order_filled Timestamp now (portfolio st)
           (order_data
              {| OrderHandler.instrument := ord_instrument o;
                 OrderHandler.filled_price := ord_entry_price o;
                 OrderHandler.size := sz;
                 OrderHandler.time := now;
                 OrderHandler.action := act;
                 OrderHandler.stop_loss := ord_stop_loss o;
                 OrderHandler.take_profit := ord_take_profit o |}))
        !! ord_instrument o = Some pp /\
      PortfolioManager.pos_size pp == d /\
      PortfolioManager.entry_price pp = ord_entry_price o).
  { intros act d Hd Hsc.
    unfold PortfolioManager.on_order_filled.
    destruct (PortfolioManagerMore.process_fill_fields Timestamp
                (portfolio st)
                (PortfolioManager.order_trade now
                   (order_data
                      {| OrderHandler.instrument := ord_instrument o;
                         OrderHandler.filled_price := ord_entry_price o;
                         OrderHandler.size := sz;
                         OrderHandler.time := now;
                         OrderHandler.action := act;
                         OrderHandler.stop_loss := ord_stop_loss o;
                         OrderHandler.take_profit := ord_take_profit o |})))
      as (Hpos & _).
    cbn zeta in Hpos. rewrite Hpos. clear Hpos.
    unfold PortfolioManager.update_positions_try.
    rewrite Hsc.
    cbn [PortfolioManager.order_trade order_data
         PortfolioManager.instrument PortfolioManager.od_instrument
         OrderHandler.instrument].
    rewrite Hpm.
    cbn [default PortfolioManager.pos_size].
    assert (Hn : ~ 0 + d == 0).
    { intros E. apply Hnz. destruct Hd as [Hd | Hd]; lra. }
    rewrite (proj2 (PyNumFacts.Qeq_bool_false _ _) Hn).
    change (Qeq_bool 0 0) with true. cbn [andb negb fst].
    eexists. split.
    - unfold PortfolioManager.set_positions.
      cbn [PortfolioManager.positions]. apply lookup_insert_eq.
    - cbn. split; [lra | reflexivity]. }
  split; intros Hact.
  - unfold OrderHandler.update_positions.
    cbn [OrderHandler.action OrderHandler.instrument].
    rewrite Hact. change (String.eqb "buy" "buy") with true. cbv iota.
    rewrite Hoh. cbn [order_handler portfolio].
    split.
    + eexists. split.
      * cbn [OrderHandler.open_positions]. apply lookup_insert_eq.
      * split; reflexivity.
    + rewrite <- Hact. apply Hopen.
      * left. reflexivity.
      * unfold PortfolioManager.size_change. cbn. rewrite Hact. reflexivity.
  - unfold OrderHandler.update_positions.
    cbn [OrderHandler.action OrderHandler.instrument].
    rewrite Hact. change (String.eqb "sell" "buy") with false.
    change (String.eqb "sell" "sell") with true. cbv iota.
    rewrite Hoh. cbn [order_handler portfolio].
    split; [exact Hoh|].
    rewrite <- Hact. apply Hopen.
    + right. reflexivity.
    + unfold PortfolioManager.size_change. cbn. rewrite Hact. reflexivity.
Qed.

End Bus.

End PipelineProps.

(** * backtest_runner.py *)

Module BacktestRunnerProps.

Import BacktestRunner.
Local Open Scope Q_scope.

Section ProcessBar.

Variable datetime : Type.
Variable fromisoformat : string -> option datetime.
Variable isoformat : datetime -> string.
Variable receivers : State -> MarketAnalyzer.MarketUpdate -> State * bool.

(** X27.  [process_bar] never executes an order of its own: the bar
    handed to the strategy in step 2 is the raw bar, which has no
    ['sma'], so step 2 only adds one to the strategy's 'Incomplete
    data' counter and steps 3 and 4 are never reached.  Whatever is
    traded for the bar is traded by the receivers of step 1. *)
Theorem direct_path_never_executes utcnow st data :
  process_bar datetime fromisoformat isoformat receivers utcnow st data =
  (match data with
   | None => st
   | Some bar =>
       match MarketAnalyzer.close bar with
       | None => st
       | Some _ =>
           let '(ma, analysis) :=
             MarketAnalyzer.on_market_data (market_analyzer st) bar in
           let st1 := set_market_analyzer ma st in
           match analysis with
           | inl _ => st1
           | inr update =>
               let '(st2, raised) := receivers st1 update in
               if (raised : bool) then st2
               else set_strategy
                      (Strategy.count "Incomplete data" (strategy st2)) st2
           end
       end
   end, None).
Proof.
  unfold process_bar.
  destruct data as [bar|]; [|reflexivity].
  destruct (MarketAnalyzer.close bar) as [c|] eqn:Hc; [|reflexivity].
  destruct (MarketAnalyzer.on_market_data (market_analyzer st) bar)
    as [ma [e|update]]; [reflexivity|].
  destruct (receivers (set_market_analyzer ma st) update) as [st2 raised].
  destruct raised; [reflexivity|].
  unfold Strategy.generate_signal, current_bar.
  cbn [Strategy.bar_time Strategy.bar_close Strategy.bar_sma].
  rewrite Hc. reflexivity.
Qed.

End ProcessBar.

End BacktestRunnerProps.

(** * Instances

    The statements with a precondition, at the inputs of [Examples]. *)

Module Instances.

Import Examples.
Local Open Scope Q_scope.

Lemma incomplete_bar_counted_witness :
  fst (Strategy.generate_signal string Some id (Strategy.init "NG" 1000)
         example_incomplete_bar) = None /\
  Strategy.no_trade_reasons
    (snd (Strategy.generate_signal string Some id (Strategy.init "NG" 1000)
            example_incomplete_bar)) !! "Incomplete data" = Some 1%nat.
Proof.
  destruct (StrategyMore.incomplete_bar_counted string Some id
              (Strategy.init "NG" 1000) example_incomplete_bar)
    as (Hnone & _ & Hcount).
  - right. right. right. reflexivity.
  - split; [exact Hnone|]. rewrite Hcount. apply lookup_insert_eq.
Defined.

Lemma silent_bar_keeps_position_witness :
  Strategy.current_position
    (snd (Strategy.generate_signal string Some id example_long_strategy
            (example_bar "t2" 12 11))) = Some Strategy.long.
Proof.
  destruct (StrategyMore.silent_bar_keeps_position string Some id
              example_long_strategy (example_bar "t2" 12 11))
    as (Hpos & _).
  - reflexivity.
  - rewrite Hpos. reflexivity.
Defined.

Lemma signal_fields_witness :
  exists a,
    sig_action
      (Strategy.make_signal string id (Strategy.init "NG" 1000) "buy" 12 "t1")
    = Some a /\
    StrategyTrace.position_after a = Some Strategy.long.
Proof.
  destruct (StrategyMore.signal_fields string Some id
              (Strategy.init "NG" 1000) (example_bar "t1" 12 11)
              (Strategy.make_signal string id (Strategy.init "NG" 1000)
                 "buy" 12 "t1")
              example_long_strategy eq_refl)
    as (a & Ha & _ & _ & _ & Hp & _).
  exists a. split; [exact Ha|]. rewrite <- Hp. reflexivity.
Defined.

Lemma closing_signals_only_at_tie_witness :
  fst (Strategy.generate_signal string Some id example_long_strategy
         (example_bar "t2" 10 11))
  = Some (Strategy.make_signal string id example_long_strategy
            "short" 10 "t2").
Proof.
  apply (proj2 (StrategyMore.closing_signals_only_at_tie string Some id
                  example_long_strategy (example_bar "t2" 10 11))
           10 11 "t2").
  - reflexivity.
  - reflexivity.
  - left. reflexivity.
  - reflexivity.
  - reflexivity.
Defined.

Lemma rejection_recorded_witness :
  exists r,
    RiskManager.no_trade_reasons
      (snd (RiskManager.apply_risk_rules example_risk_manager
              (example_signal "short"))) !! "NG" = Some r.
Proof.
  pose proof (RiskManagerMore.rejection_recorded example_risk_manager
                (example_signal "short")) as H.
  cbv zeta in H. destruct H as [H _].
  destruct (H eq_refl) as (Hr & _). exact Hr.
Defined.

Lemma accepted_order_sized_witness :
  inject_Z 500 * 10
  <= RiskManager.base_capital example_risk_manager
     * RiskManager.max_position_fraction example_risk_manager /\
  RiskManager.base_capital example_risk_manager
  * RiskManager.max_position_fraction example_risk_manager
  < inject_Z (500 + 1) * 10.
Proof.
  destruct (RiskManagerMore.accepted_order_sized example_risk_manager
              (example_signal "buy") example_buy_order_request
              example_risk_manager eq_refl)
    as (_ & _ & _ & _ & _ & Hle & Hlt).
  split; [exact Hle | exact Hlt].
Defined.

Lemma accepted_order_bracket_witness :
  ord_take_profit example_sell_order_request < 10 /\
  10 < ord_stop_loss example_sell_order_request.
Proof.
  destruct (RiskManagerMore.accepted_order_bracket example_risk_manager
              (example_signal "sell") example_sell_order_request
              example_risk_manager eq_refl)
    as [_ Hsell]; [reflexivity | reflexivity |].
  exact (Hsell eq_refl).
Defined.

Lemma accepted_order_price_witness :
  Qabs (10 - 10) <= (1 # 100) * 10.
Proof.
  destruct (RiskManagerMore.accepted_order_price example_risk_manager
              (example_signal "buy") example_buy_order_request
              example_risk_manager eq_refl)
    as [Hknown _].
  destruct (Hknown 10) as [_ Hband].
  - reflexivity.
  - discriminate.
  - apply (Hband 10); [reflexivity | discriminate].
Defined.

Lemma drawdown_gate_inert_witness :
  RiskManager.get_current_drawdown
    (RiskManagerTrace.calls
       (RiskManager.init 100000 (1 # 5) (1 # 100) (5 # 100) (5 # 100))
       [RiskManagerTrace.UpdatePrice "NG" 10;
        RiskManagerTrace.ApplyRiskRules (example_signal "short")]) = 0.
Proof.
  apply (RiskManagerMore.drawdown_gate_inert
           100000 (1 # 5) (1 # 100) (5 # 100) (5 # 100)
           [RiskManagerTrace.UpdatePrice "NG" 10;
            RiskManagerTrace.ApplyRiskRules (example_signal "short")]).
  discriminate.
Defined.

Lemma close_feeds_risk_manager_witness :
  exists rm',
    MarketAnalyzer.risk_manager
      (fst (MarketAnalyzer.on_market_data
              (MarketAnalyzer.init 2 (Some example_risk_manager))
              (example_instrument_bar "t1" 11))) = Some rm' /\
    RiskManager.get_current_price rm' (Some "NG") = Some 11.
Proof.
  destruct (MarketAnalyzerMore.close_feeds_risk_manager
              (MarketAnalyzer.init 2 (Some example_risk_manager))
              (example_instrument_bar "t1" 11) example_risk_manager "NG" 11)
    as (rm' & Hrm & Hprice & _).
  - simpl. lia.
  - reflexivity.
  - reflexivity.
  - discriminate.
  - reflexivity.
  - reflexivity.
  - exists rm'. split; [exact Hrm | exact Hprice].
Defined.

Lemma sma_within_range_witness :
  exists h m,
    snd (MarketAnalyzer.on_market_data
           (MarketAnalyzer.run (MarketAnalyzer.init 2 None)
              [example_raw_bar "t1" 10])
           (example_raw_bar "t2" 12))
    = inr {| MarketAnalyzer.data :=
               {| MarketAnalyzer.raw := example_raw_bar "t2" 12;
                  MarketAnalyzer.nan_close := false;
                  MarketAnalyzer.nan_instrument := false;
                  MarketAnalyzer.sma := Some (PyNum.Num m) |};
             MarketAnalyzer.history := h |} /\
    10 <= m /\ m <= 12.
Proof.
  apply (MarketAnalyzerMore.sma_within_range
           (MarketAnalyzer.run (MarketAnalyzer.init 2 None)
              [example_raw_bar "t1" 10])
           (example_raw_bar "t2" 12) 10 12).
  - simpl. lia.
  - simpl.
    repeat (apply Forall_cons_2;
              [eexists; split; [reflexivity|]; split; discriminate |]).
    apply Forall_nil_2.
Defined.

Lemma position_size_capped_witness :
  exists r,
    OrderHandler.calculate_position_size (OrderHandler.init 100000 1000) 10
    = Some r /\
    r <= 1000 /\ r * 10 <= 100000 * (1 # 10).
Proof.
  destruct (proj2 (OrderHandlerMore.position_size_capped
                     (OrderHandler.init 100000 1000) 10))
    as (r & Hr & _ & Hcap & Hval).
  - reflexivity.
  - discriminate.
  - discriminate.
  - exists r. split; [exact Hr|]. split; [exact Hcap | exact Hval].
Defined.

Lemma buy_then_sell_round_trip_witness :
  exists st1 st2,
    OrderHandler.update_positions (OrderHandler.init 100000 1000)
      (example_fill "buy" 10 5) = Some st1 /\
    OrderHandler.update_positions st1 (example_fill "sell" 12 5) = Some st2 /\
    OrderHandler.open_positions st2 = ∅ /\
    OrderHandler.realized_pnl st2 == 10.
Proof.
  destruct (OrderHandlerMore.buy_then_sell_round_trip
              (OrderHandler.init 100000 1000)
              (example_fill "buy" 10 5) (example_fill "sell" 12 5))
    as (st1 & st2 & H1 & H2 & Hpos & Hpnl);
    [reflexivity | reflexivity | reflexivity | reflexivity | reflexivity |].
  exists st1, st2. split; [exact H1|]. split; [exact H2|].
  split; [exact Hpos|].
  apply (Qeq_trans _ _ _ Hpnl). reflexivity.
Defined.

Lemma buy_more_averages_witness :
  exists st' pos',
    OrderHandler.update_positions
      (OrderHandler.run (OrderHandler.init 100000 1000)
         [example_fill "buy" 10 5])
      (example_fill "buy" 12 5) = Some st' /\
    OrderHandler.open_positions st' !! "NG" = Some pos' /\
    10 <= OrderHandler.entry_price pos' /\
    OrderHandler.entry_price pos' <= 12.
Proof.
  destruct (OrderHandlerMore.buy_more_averages
              (OrderHandler.run (OrderHandler.init 100000 1000)
                 [example_fill "buy" 10 5])
              (example_fill "buy" 12 5)
              {| OrderHandler.entry_price := 10;
                 OrderHandler.pos_size := 5;
                 OrderHandler.pos_stop_loss := 0;
                 OrderHandler.pos_take_profit := 0 |})
    as (st' & pos' & Hup & Hlk & _ & Hlo & Hhi & _);
    [reflexivity | reflexivity | reflexivity | reflexivity |].
  exists st', pos'. split; [exact Hup|]. split; [exact Hlk|].
  split; [exact Hlo | exact Hhi].
Defined.

Lemma books_balance_witness :
  let pm := PortfolioManager.run example_Timestamp
              (PortfolioManager.init 100000) example_events in
  PortfolioManager.cash pm == 100000 + PortfolioManager.realized_pnl pm.
Proof.
  intros pm.
  pose proof (PortfolioManagerMore.books_balance example_Timestamp
                100000 example_events) as H.
  cbv zeta in H. fold pm in H.
  destruct H as [_ Hflat].
  - vm_compute. reflexivity.
  - apply Hflat. vm_compute. reflexivity.
Defined.

Lemma stop_trigger_unwinds_witness :
  let pm' :=
    PortfolioManager.on_stop_triggered example_Timestamp "2023-04-23"
      example_long example_stop in
  PortfolioManager.positions pm'
  = delete "NG" (PortfolioManager.positions example_long) /\
  PortfolioManager.cash pm' == PortfolioManager.cash example_long + 9 * (0 + 5).
Proof.
  intros pm'.
  destruct (PortfolioManagerMore.stop_trigger_unwinds example_Timestamp
              "2023-04-23" example_long example_stop) as [_ Hclose].
  destruct (Hclose example_position
              (PortfolioManager.Instant 1681948800000000000 false)
              (PortfolioManager.Instant 1682208000000000000 false)
              (Some 259200000000000%Z)) as (Hpos & Hcash & _).
  - exact PortfolioManagerProps.example_long_position.
  - discriminate.
  - reflexivity.
  - reflexivity.
  - reflexivity.
  - split; [exact Hpos | exact Hcash].
Defined.

Lemma partial_close_folds_profit_witness :
  let trade :=
    PortfolioManager.order_trade "2023-04-23"
      (example_order "sell" 12 2 "2023-04-23") in
  let pm' :=
    fst (PortfolioManager.update_positions example_Timestamp
           example_long trade) in
  exists pos',
    PortfolioManager.positions pm' !! "NG" = Some pos' /\
    PortfolioManager.pos_size pos' == 3 /\
    PortfolioManager.entry_price pos' < 10 /\
    PortfolioManager.realized_pnl pm' = 0.
Proof.
  intros trade pm'.
  destruct (PortfolioManagerMore.partial_close_folds_profit
              example_Timestamp example_long trade example_position)
    as (pos' & Hlk & Hsz & _ & _ & Hpnl & _ & Hless & _).
  - exact PortfolioManagerProps.example_long_position.
  - discriminate.
  - reflexivity.
  - reflexivity.
  - exists pos'. split; [exact Hlk|]. split.
    + apply (Qeq_trans _ _ _ Hsz). reflexivity.
    + split; [apply Hless; reflexivity | exact Hpnl].
Defined.

Lemma report_net_profit_is_realized_witness :
  exists m,
    PortfolioManager.calculate_performance_metrics example_to_datetime unit
      example_annual_rate example_closed = Some m /\
    PortfolioManager.all_net_profit m
    == PortfolioManager.realized_pnl example_closed.
Proof.
  destruct (PortfolioManager.calculate_performance_metrics
              example_to_datetime unit example_annual_rate example_closed)
    as [m|] eqn:Hm; [|vm_compute in Hm; discriminate].
  exists m. split; [reflexivity|].
  exact (proj2 (PortfolioManagerMore.report_net_profit_is_realized
                  example_Timestamp example_to_datetime unit
                  example_annual_rate 100000 example_events) m Hm).
Defined.

Lemma losing_percentage_counts_breakeven_witness :
  exists m,
    PortfolioManager.calculate_performance_metrics example_to_datetime unit
      example_annual_rate example_closed = Some m /\
    PortfolioManager.pct
      (PortfolioManager.losing_count (PortfolioManager.trades example_closed))
      (length (PortfolioManager.trades example_closed))
    <= PortfolioManager.all_losing_percentage m.
Proof.
  destruct (PortfolioManager.calculate_performance_metrics
              example_to_datetime unit example_annual_rate example_closed)
    as [m|] eqn:Hm; [|vm_compute in Hm; discriminate].
  exists m. split; [reflexivity|].
  exact (proj2 (PortfolioManagerMore.losing_percentage_counts_breakeven
                  example_to_datetime unit example_annual_rate
                  example_closed m Hm)).
Defined.

Lemma streaks_bounded_witness :
  exists m,
    PortfolioManager.calculate_performance_metrics example_to_datetime unit
      example_annual_rate example_closed = Some m /\
    (PortfolioManager.max_consec_wins m <= 1)%nat.
Proof.
  destruct (PortfolioManager.calculate_performance_metrics
              example_to_datetime unit example_annual_rate example_closed)
    as [m|] eqn:Hm; [|vm_compute in Hm; discriminate].
  exists m. split; [reflexivity|].
  exact (proj1 (PortfolioManagerMore.streaks_bounded
                  example_to_datetime unit example_annual_rate
                  example_closed m Hm)).
Defined.

Lemma runup_dominates_curve_witness :
  exists m,
    PortfolioManager.calculate_performance_metrics example_to_datetime unit
      example_annual_rate example_closed = Some m /\
    0 <= PortfolioManager.max_equity_runup m.
Proof.
  destruct (PortfolioManager.calculate_performance_metrics
              example_to_datetime unit example_annual_rate example_closed)
    as [m|] eqn:Hm; [|vm_compute in Hm; discriminate].
  exists m. split; [reflexivity|].
  exact (proj1 (PortfolioManagerMore.runup_dominates_curve
                  example_Timestamp example_to_datetime unit
                  example_annual_rate 100000 example_events m Hm)).
Defined.

Lemma accepted_signal_reaches_books_witness :
  let st' :=
    Pipeline.on_strategy_signal example_Timestamp "2023-04-20"
      example_pipeline (example_signal "sell") in
  OrderHandler.open_positions (Pipeline.order_handler st') !! "NG" = None /\
  exists pp,
    PortfolioManager.positions (Pipeline.portfolio st') !! "NG" = Some pp /\
    PortfolioManager.pos_size pp == - 1000.
Proof.
  intros st'.
  destruct (PipelineProps.accepted_signal_reaches_books example_Timestamp
              "2023-04-20" example_pipeline (example_signal "sell")
              example_sell_order_request example_risk_manager 1000)
    as [_ Hsell];
    [reflexivity | reflexivity | discriminate | reflexivity | reflexivity |].
  destruct (Hsell eq_refl) as (Hbook & pp & Hlk & Hsz & _).
  split; [exact Hbook|]. exists pp. split; [exact Hlk | exact Hsz].
Defined.

End Instances.
